(** * funfolding: the likelihood engine of [funfolding/solution/likelihood.py]

    A shallow embedding of the Tikhonov operator builder [create_C_thikonov],
    of the lifecycle class [LLH], of the production objective [StandardLLH]
    and of the loop-based reference [LLHThikonovForLoops], followed by the
    properties of these that the specification states.

    Conventions of the embedding.
    - A Python instance is its attribute dictionary, a finite map from
      attribute names to values.  Reading an attribute that was never
      assigned raises [AttributeError], as in Python.
    - A method is a computation in a state-and-exception monad over the
      attribute dictionary of [self]: an exception keeps the assignments
      made before it was raised.
    - [float64] numbers are idealised as real numbers; the two infinities,
      which only the infeasibility guard of [StandardLLH.evaluate_llh]
      returns, are separate constructors of the result type.
    - A one-dimensional array is the list of its entries, a two-dimensional
      array the list of its rows.
    - Calls to [self.logger.debug] have no effect on attributes or results
      and are left out. *)

From Stdlib Require Import Reals Lra ZArith.
From stdpp Require Import gmap strings list.

Local Open Scope Z_scope.

(** ** Exceptions and the method monad *)

Inductive exn : Type :=
| RuntimeError (msg : string)
| NotImplementedError (msg : string)
| ValueError (msg : string)
| AttributeError (attr : string)
| IndexError
| TypeError.

Inductive res (A : Type) : Type :=
| Ret (a : A)
| Raise (e : exn).
Arguments Ret {A} a.
Arguments Raise {A} e.

Definition res_bind {A B : Type} (r : res A) (k : A → res B) : res B :=
  match r with
  | Ret a => k a
  | Raise e => Raise e
  end.

#[export] Instance res_ret_inst : MRet res := @Ret.
#[export] Instance res_bind_inst : MBind res := λ A B k r, res_bind r k.

Abbreviation vec := (list R).
Abbreviation matrix := (list (list R)).

(** ** Loops *)

(** [range a b] is Python's [range(a, b)]; [for_in l body s] runs the body
    once per element of [l], threading the loop-carried value [s], in any
    monad. *)
Definition range (a b : nat) : list nat := seq a (b - a).

Fixpoint for_in {M : Type → Type} `{!MBind M, !MRet M} {S : Type}
    (l : list nat) (body : nat → S → M S) (s : S) : M S :=
  match l with
  | [] => mret s
  | i :: l' => s' ← body i s; for_in l' body s'
  end.

(** ** The part of NumPy the module uses *)

Module np.

(** A [float64] result: a real number or one of the infinities. *)
Inductive float : Type :=
| fin (r : R)
| inf
| neg_inf.

Definition nrows (a : matrix) : nat := length a.
Definition ncols (a : matrix) : nat := from_option length 0%nat (head a).

(** [a.shape] *)
Definition shape (a : matrix) : nat * nat := (nrows a, ncols a).

(** Reading [v[i]] and [a[i, j]] where the index is known to be in range
    (elsewhere the value is [0]). *)
Definition at1 (v : vec) (i : nat) : R := default 0%R (v !! i).
Definition at2 (a : matrix) (i j : nat) : R := at1 (default [] (a !! i)) j.

(** [v[i]] and [a[i, j]] with the bounds check. *)
Definition getitem1 (v : vec) (i : nat) : res R :=
  match v !! i with
  | Some x => Ret x
  | None => Raise IndexError
  end.

Definition getitem2 (a : matrix) (i j : nat) : res R :=
  match a !! i with
  | Some row => getitem1 row j
  | None => Raise IndexError
  end.

(** The sum of [f i] over the indices [i] of [l], and over
    [0], ..., [n - 1]. *)
Definition lsum (l : list nat) (f : nat → R) : R :=
  foldr (λ i acc, (f i + acc)%R) 0%R l.

Definition rsum (n : nat) (f : nat → R) : R := lsum (seq 0 n) f.

(** [tabulate m n f] is the [m] by [n] array with entries [f i j]. *)
Definition tabulate (m n : nat) (f : nat → nat → R) : matrix :=
  (λ i, f i <$> seq 0 n) <$> seq 0 m.

(** [np.zeros((m, n))] *)
Definition zeros (m n : nat) : matrix := replicate m (replicate n 0%R).

(** [np.ones_like(v)] *)
Definition ones_like (v : vec) : vec := replicate (length v) 1%R.

(** [a[i, j] = x], raising [IndexError] out of range. *)
Definition setitem (a : matrix) (i j : nat) (x : R) : res matrix :=
  match a !! i with
  | Some row =>
      if (j <? length row)%nat
      then Ret (<[i := <[j := x]> row]> a)
      else Raise IndexError
  | None => Raise IndexError
  end.

(** [a.T] *)
Definition T (a : matrix) : matrix :=
  tabulate (ncols a) (nrows a) (λ j i, at2 a i j).

(** [np.diag(v)] *)
Definition diag (v : vec) : matrix :=
  tabulate (length v) (length v)
    (λ i j, if (i =? j)%nat then at1 v i else 0%R).

Definition shape_error : exn := ValueError "shapes not aligned".
Definition broadcast_error : exn :=
  ValueError "operands could not be broadcast together".

(** [np.dot] of two one-dimensional arrays *)
Definition dot11 (u v : vec) : res R :=
  if (length u =? length v)%nat
  then Ret (rsum (length u) (λ k, at1 u k * at1 v k)%R)
  else Raise shape_error.

(** [np.dot] of a one-dimensional with a two-dimensional array *)
Definition dot12 (u : vec) (a : matrix) : res vec :=
  if (length u =? nrows a)%nat
  then Ret ((λ j, rsum (length u) (λ k, at1 u k * at2 a k j)%R)
              <$> seq 0 (ncols a))
  else Raise shape_error.

(** [np.dot] of a two-dimensional with a one-dimensional array *)
Definition dot21 (a : matrix) (v : vec) : res vec :=
  if (ncols a =? length v)%nat
  then Ret ((λ i, rsum (ncols a) (λ k, at2 a i k * at1 v k)%R)
              <$> seq 0 (nrows a))
  else Raise shape_error.

(** [np.dot] of two two-dimensional arrays *)
Definition dot22 (a b : matrix) : res matrix :=
  if (ncols a =? nrows b)%nat
  then Ret (tabulate (nrows a) (ncols b)
              (λ i j, rsum (ncols a) (λ k, at2 a i k * at2 b k j)%R))
  else Raise shape_error.

(** [np.sum(v)], [np.sum(a, axis=0)] and [np.sum(a, axis=1)] *)
Definition sum (v : vec) : R := foldr Rplus 0%R v.

Definition sum_axis0 (a : matrix) : vec :=
  (λ j, rsum (nrows a) (λ i, at2 a i j)) <$> seq 0 (ncols a).

Definition sum_axis1 (a : matrix) : vec := sum <$> a.

(** [any(v < 0)] *)
Definition lt0 (x : R) : bool := if Rlt_dec x 0 then true else false.
Definition any_lt0 (v : vec) : bool := existsb lt0 v.

(** [np.log(v)].  Below, [ln] is only ever applied behind the
    infeasibility guard or in the reference loops. *)
Definition log (v : vec) : vec := ln <$> v.

(** Elementwise operations with NumPy's broadcasting: along an axis the
    two lengths agree or one of them is 1. *)
Definition broadcast {A : Type} (op : A → A → res A) (u v : list A)
    : res (list A) :=
  if (length u =? length v)%nat then mapM (λ p, op p.1 p.2) (zip u v)
  else match u, v with
       | [a], _ => mapM (op a) v
       | _, [b] => mapM (λ a, op a b) u
       | _, _ => Raise broadcast_error
       end.

Definition elementwise1 (op : R → R → R) : vec → vec → res vec :=
  broadcast (λ a b, Ret (op a b)).

(** a two-dimensional with a one-dimensional array: row by row *)
Definition elementwise21 (op : R → R → R) (a : matrix) (v : vec)
    : res matrix :=
  mapM (λ row, elementwise1 op row v) a.

Definition elementwise2 (op : R → R → R)
    : matrix → matrix → res matrix :=
  broadcast (elementwise1 op).

(** an array with a scalar *)
Definition scale1 (c : R) (v : vec) : vec := (λ x, x * c)%R <$> v.
Definition scale2 (c : R) (a : matrix) : matrix := scale1 c <$> a.

(** [h -= p]: the result keeps the shape of [h] *)
Definition isub (h p : vec) : res vec :=
  r ← elementwise1 Rminus h p;
  if (length r =? length h)%nat then Ret r else Raise broadcast_error.

End np.

(** ** [create_C_thikonov] *)

(** The array the function fills in before squaring it: the discrete
    second-derivative operator.  [C[0, 1] = 1] raises [IndexError] when
    [n_dims] is 1, and [C[0, 0] = -1] when it is 0. *)
Definition second_derivative_rows (n_dims : nat) : res matrix :=
  let C := np.zeros n_dims n_dims in
  C ← np.setitem C 0 0 (-1);
  C ← np.setitem C 0 1 1;
  let idx_N := (n_dims - 1)%nat in
  C ← for_in (range 1 idx_N) (λ i C,
         C ← np.setitem C i i (-2);
         C ← np.setitem C i (i - 1) 1;
         np.setitem C i (i + 1) 1) C;
  C ← np.setitem C idx_N idx_N (-1);
  np.setitem C idx_N (idx_N - 1) 1.

Definition create_C_thikonov (n_dims : nat) : res matrix :=
  C ← second_derivative_rows n_dims;
  np.dot22 (np.T C) C.

(** The operator as the specification words it: row 0 is (-1, 1, 0, ...),
    an interior row has -2 on the diagonal and 1 on each neighbour, and the
    last row has -1 on the diagonal and 1 on the previous column. *)
Definition second_derivative (n : nat) (i j : nat) : R :=
  if (i =? 0)%nat then
    if (j =? 0)%nat then (-1)%R else if (j =? 1)%nat then 1%R else 0%R
  else if (i =? n - 1)%nat then
    if (j =? n - 1)%nat then (-1)%R
    else if (j =? n - 2)%nat then 1%R else 0%R
  else
    if (j =? i)%nat then (-2)%R
    else if (j =? i - 1)%nat || (j =? i + 1)%nat then 1%R else 0%R.

(** ** The forward model *)

(** Modelled from the spec: the classes [Model] and [LinearModel] of
    [funfolding.model], which the sources at hand import but do not
    contain.  The specification gives the contract: a model maps a
    candidate [f] to the triple [(g_est, f, f_reg)], unless it raises, and
    a linear model exposes its response matrix [A]; [likelihood.py] also
    reads [dim_f].  [class_of] is the class of the object passed as the
    model, which decides what [isinstance] answers. *)
Inductive pyclass : Type :=
| ObjectClass
| ModelClass
| LinearModelClass.

(** Modelled from the spec: what the objective uses of a model object, its
    class, [dim_f], the response matrix [A] where there is one, and the
    method [evaluate]. *)
Record Model : Type := {
  class_of : pyclass;
  dim_f : Z;
  A : option matrix;
  evaluate : vec → res (vec * vec * vec)
}.

(** [LinearModel] is a subclass of [Model]. *)
Definition isinstance (model : Model) (c : pyclass) : bool :=
  match c, class_of model with
  | ObjectClass, _ => true
  | ModelClass, (ModelClass | LinearModelClass) => true
  | LinearModelClass, LinearModelClass => true
  | _, _ => false
  end.

(** ** Instances and methods *)

Inductive val : Type :=
| VInt (z : Z)
| VBool (b : bool)
| VFloat (r : R)
| VArray1 (v : vec)
| VArray2 (a : matrix)
| VObject (model : Model).

Abbreviation instance := (gmap string val).

(** A method body: it runs on the attributes of [self] and returns a value
    or raises, together with the attributes it leaves. *)
Definition py (A : Type) : Type := instance → res A * instance.

Definition py_ret {A : Type} (a : A) : py A := λ self, (Ret a, self).

Definition py_bind {A B : Type} (m : py A) (k : A → py B) : py B :=
  λ self,
    match m self with
    | (Ret a, self') => k a self'
    | (Raise e, self') => (Raise e, self')
    end.

#[export] Instance py_ret_inst : MRet py := @py_ret.
#[export] Instance py_bind_inst : MBind py := λ A B k m, py_bind m k.

Definition raise {A : Type} (e : exn) : py A := λ self, (Raise e, self).

(** A computation on arrays inside a method. *)
Definition lift {A : Type} (r : res A) : py A := λ self, (r, self).

(** [self.name] and [self.name = v] *)
Definition getattr (name : string) : py val :=
  λ self,
    match self !! name with
    | Some v => (Ret v, self)
    | None => (Raise (AttributeError name), self)
    end.

Definition setattr (name : string) (v : val) : py unit :=
  λ self, (Ret tt, <[name := v]> self).

(** Attributes are used at the type the class assigns to them. *)
Definition as_int (v : val) : py Z :=
  match v with VInt z => mret z | _ => raise TypeError end.
Definition as_bool (v : val) : py bool :=
  match v with VBool b => mret b | _ => raise TypeError end.
Definition as_float (v : val) : py R :=
  match v with VFloat r => mret r | _ => raise TypeError end.
Definition as_array1 (v : val) : py vec :=
  match v with VArray1 a => mret a | _ => raise TypeError end.
Definition as_array2 (v : val) : py matrix :=
  match v with VArray2 a => mret a | _ => raise TypeError end.
Definition as_object (v : val) : py Model :=
  match v with VObject m => mret m | _ => raise TypeError end.

(** [model.A] *)
Definition attr_A (model : Model) : py matrix :=
  match A model with
  | Some a => mret a
  | None => raise (AttributeError "A")
  end.

(** [model.evaluate(f)] *)
Definition call_evaluate (model : Model) (f : vec) : py (vec * vec * vec) :=
  lift (evaluate model f).

(** Modelled from the spec: the linear model [LinearModel] of
    [funfolding.model], not among the sources at hand, with
    [g_est = A·f] and the candidate itself as [f] and as [f_reg]. *)
Definition linear_model (a : matrix) : Model :=
  {| class_of := LinearModelClass;
     dim_f := Z.of_nat (np.ncols a);
     A := Some a;
     evaluate := λ f, g_est ← np.dot21 a f; Ret (g_est, f, f) |}.

(** Two more objects for the examples: a model that is not linear, which
    returns the candidate as prediction, as [f] and as [f_reg], and an
    object that is no model at all. *)
Definition nonlinear_model (n : Z) : Model :=
  {| class_of := ModelClass;
     dim_f := n;
     A := None;
     evaluate := λ f, Ret (f, f, f) |}.

Definition not_a_model : Model :=
  {| class_of := ObjectClass;
     dim_f := 0;
     A := None;
     evaluate := λ _, Raise (AttributeError "evaluate") |}.

(** ** class [LLH] *)

Module LLH.

Definition uninitialized : exn :=
  RuntimeError "LLH has to be intilized. Run 'LLH.initialize' first!".

Definition __init__ : py unit :=
  setattr "status" (VInt (-1));;
  setattr "gradient_defined" (VBool false);;
  setattr "hesse_matrix_defined" (VBool false).

Definition initialize : py unit :=
  setattr "status" (VInt 0).

Definition evaluate_llh : py unit :=
  status ← getattr "status" ≫= as_int;
  if status <? 0 then raise uninitialized else mret tt.

Definition evaluate_gradient : py unit :=
  gradient_defined ← getattr "gradient_defined" ≫= as_bool;
  if gradient_defined : bool then
    status ← getattr "status" ≫= as_int;
    if status <? 0 then raise uninitialized else mret tt
  else raise (NotImplementedError "Gradients are not implemented!").

Definition evaluate_hesse_matrix : py unit :=
  hesse_matrix_defined ← getattr "hesse_matrix_defined" ≫= as_bool;
  if hesse_matrix_defined : bool then
    status ← getattr "status" ≫= as_int;
    if status <? 0 then raise uninitialized else mret tt
  else raise (NotImplementedError "Hesse Matrix is not implemented!").

End LLH.

(** ** class [StandardLLH(LLH)] *)

Module StandardLLH.

(** The class does not override [__init__]. *)
Definition __init__ : py unit := LLH.__init__.

(** [N_prior] defaults to [False] and [neg_llh] to [True]. *)
Definition initialize (vec_g : vec) (model : Model) (tau : R) (C : matrix)
    (N_prior neg_llh : bool) : py unit :=
  LLH.initialize;;
  (if negb (isinstance model ModelClass)
   then raise (ValueError "'model' has to be of type Model!")
   else mret tt);;
  setattr "model" (VObject model);;
  setattr "n_dims_f" (VInt (dim_f model));;
  setattr "vec_g" (VArray1 vec_g);;
  setattr "N" (VFloat (np.sum vec_g));;
  setattr "C" (VArray2 C);;
  setattr "tau" (VFloat tau);;
  (if neg_llh
   then setattr "factor" (VFloat 1)
   else setattr "factor" (VFloat (-1)));;
  setattr "neg_llh" (VBool neg_llh);;
  setattr "N_prior" (VBool N_prior);;
  if isinstance model LinearModelClass then
    setattr "gradient_defined" (VBool true);;
    setattr "hesse_matrix_defined" (VBool true)
  else mret tt.

Definition evaluate_llh (f : vec) : py np.float :=
  LLH.evaluate_llh;;
  model ← getattr "model" ≫= as_object;
  '(g_est, f, f_reg) ← call_evaluate model f;
  if np.any_lt0 g_est || np.any_lt0 f then
    neg_llh ← getattr "neg_llh" ≫= as_bool;
    if neg_llh : bool then mret np.inf else mret np.neg_inf
  else
    g ← getattr "g" ≫= as_array1;
    t ← lift (np.elementwise1 Rmult g (np.log g_est));
    d ← lift (np.elementwise1 Rminus g_est t);
    let poisson_part := np.sum d in
    tau ← getattr "tau" ≫= as_float;
    C ← getattr "C" ≫= as_array2;
    fC ← lift (np.dot12 f_reg C);
    q ← lift (np.dot11 fC f_reg);
    let regularization_part := (0.5 * tau * q)%R in
    N_prior ← getattr "N_prior" ≫= as_bool;
    regularization_part ←
      (if N_prior : bool then
         let sum_f := np.sum f in
         N ← getattr "N" ≫= as_float;
         mret (regularization_part + (sum_f - N * ln sum_f))%R
       else mret regularization_part);
    factor ← getattr "factor" ≫= as_float;
    mret (np.fin ((poisson_part + regularization_part) * factor)%R).

Definition evaluate_gradient (f : vec) : py vec :=
  LLH.evaluate_gradient;;
  model ← getattr "model" ≫= as_object;
  '(g_est, f, f_reg) ← call_evaluate model f;
  model ← getattr "model" ≫= as_object;
  A ← attr_A model;
  let h_unreg := np.sum_axis0 A in
  model ← getattr "model" ≫= as_object;
  A ← attr_A model;
  g ← getattr "g" ≫= as_array1;
  Ag ← lift (np.elementwise21 Rmult (np.T A) g);
  Agg ← lift (np.elementwise21 Rmult Ag ((λ x, 1 / x)%R <$> g_est));
  let part_b := np.sum_axis1 Agg in
  h_unreg ← lift (np.isub h_unreg part_b);
  tau ← getattr "tau" ≫= as_float;
  C ← getattr "C" ≫= as_array2;
  Cf ← lift (np.dot21 C f_reg);
  regularization_part ←
    lift (np.elementwise1 Rmult (np.scale1 tau (np.ones_like h_unreg)) Cf);
  factor ← getattr "factor" ≫= as_float;
  lift (np.elementwise1 Rplus h_unreg (np.scale1 factor regularization_part)).

Definition evaluate_hesse_matrix (f : vec) : py matrix :=
  LLH.evaluate_hesse_matrix;;
  model ← getattr "model" ≫= as_object;
  '(g_est, f, f_reg) ← call_evaluate model f;
  model ← getattr "model" ≫= as_object;
  A ← attr_A model;
  g ← getattr "g" ≫= as_array1;
  w ← lift (np.elementwise1 Rdiv g ((λ x, x ^ 2)%R <$> g_est));
  AtW ← lift (np.dot22 (np.T A) (np.diag w));
  model ← getattr "model" ≫= as_object;
  A ← attr_A model;
  H_unreg ← lift (np.dot22 AtW A);
  tau ← getattr "tau" ≫= as_float;
  C ← getattr "C" ≫= as_array2;
  S ← lift (np.elementwise2 Rplus (np.scale2 tau C) H_unreg);
  factor ← getattr "factor" ≫= as_float;
  mret (np.scale2 factor S).

End StandardLLH.

(** ** class [LLHThikonovForLoops] *)

Module LLHThikonovForLoops.

Definition __init__ (g : vec) (linear_model : Model) (tau : R) : py unit :=
  (if negb (isinstance linear_model LinearModelClass)
   then raise (ValueError "'model' has to be of type LinearModel!")
   else mret tt);;
  setattr "linear_model" (VObject linear_model);;
  A ← attr_A linear_model;
  setattr "n_dims_f" (VInt (Z.of_nat (np.shape A).2));;
  setattr "g" (VArray1 g);;
  n_dims_f ← getattr "n_dims_f" ≫= as_int;
  C ← lift (create_C_thikonov (Z.to_nat n_dims_f));
  setattr "C" (VArray2 C);;
  setattr "tau" (VFloat tau);;
  setattr "status" (VInt 0).

(** [self.linear_model.A] *)
Definition self_A : py matrix :=
  linear_model ← getattr "linear_model" ≫= as_object;
  attr_A linear_model.

(** [self.linear_model.A[i, j]], [self.C[i, j]] and [self.g[i]] *)
Definition self_A_at (i j : nat) : py R :=
  A ← self_A; lift (np.getitem2 A i j).

Definition self_C_at (i j : nat) : py R :=
  C ← getattr "C" ≫= as_array2; lift (np.getitem2 C i j).

Definition self_g_at (i : nat) : py R :=
  g ← getattr "g" ≫= as_array1; lift (np.getitem1 g i).

(** The inner loop the three methods share: the forward prediction for
    the observed bin [i]. *)
Definition forward (n : nat) (f : vec) (i : nat) : py R :=
  for_in (range 0 n) (λ j g_est,
    A_ij ← self_A_at i j;
    f_j ← lift (np.getitem1 f j);
    mret (g_est + A_ij * f_j)%R) 0%R.

Definition evaluate_llh (f : vec) : py R :=
  A ← self_A;
  '(m, n) ← mret (np.shape A);
  poisson_part ← for_in (range 0 m) (λ i poisson_part,
    g_est ← forward n f i;
    g_i ← self_g_at i;
    mret (poisson_part + (g_est - g_i * ln g_est))%R) 0%R;
  reg_part ← for_in (range 0 n) (λ i reg_part,
    for_in (range 0 n) (λ j reg_part,
      C_ij ← self_C_at i j;
      f_i ← lift (np.getitem1 f i);
      f_j ← lift (np.getitem1 f j);
      mret (reg_part + C_ij * f_i * f_j)%R) reg_part) 0%R;
  tau ← getattr "tau" ≫= as_float;
  let reg_part := (reg_part * (0.5 * tau))%R in
  mret (reg_part - poisson_part)%R.

Definition evaluate_gradient (f : vec) : py vec :=
  A ← self_A;
  '(m, n) ← mret (np.shape A);
  for_in (range 0 n) (λ k gradient,
    poisson_part ← for_in (range 0 m) (λ i poisson_part,
      g_est ← forward n f i;
      A_ik ← self_A_at i k;
      g_i ← self_g_at i;
      mret (poisson_part + (A_ik - (g_i * A_ik) / g_est))%R) 0%R;
    c ← for_in (range 0 n) (λ i c,
      C_ik ← self_C_at i k;
      f_i ← lift (np.getitem1 f i);
      mret (c + C_ik * f_i)%R) 0%R;
    tau ← getattr "tau" ≫= as_float;
    let reg_part := (tau * c)%R in
    mret (<[k := (reg_part - poisson_part)%R]> gradient))
    (replicate n 0%R).

Definition evaluate_hesse_matrix (f : vec) : py matrix :=
  A ← self_A;
  '(m, n) ← mret (np.shape A);
  for_in (range 0 n) (λ k hess,
    for_in (range 0 n) (λ l hess,
      poisson_part ← for_in (range 0 m) (λ i poisson_part,
        A_ik ← self_A_at i k;
        A_il ← self_A_at i l;
        g_i ← self_g_at i;
        let nominator := (g_i * A_ik * A_il)%R in
        denominator ← forward n f i;
        mret (poisson_part + nominator / denominator ^ 2)%R) 0%R;
      tau ← getattr "tau" ≫= as_float;
      C_kl ← self_C_at k l;
      lift (np.setitem hess k l (poisson_part + tau * C_kl)%R)) hess)
    (np.zeros n n).

End LLHThikonovForLoops.

(** ** Objects *)

(** [cls(...)]: the attributes the constructor leaves on the new object. *)
Definition new (init : py unit) : instance := (init ∅).2.

(** ** Inputs of the worked examples *)

(** The response of the spec's scenario with four bins, a response with
    four observed and three true bins, and the matrix that
    [create_C_thikonov(3)] returns. *)
Definition identity_4 : matrix :=
  [[1; 0; 0; 0]; [0; 1; 0; 0]; [0; 0; 1; 0]; [0; 0; 0; 1]]%R.

Definition response_4x3 : matrix :=
  [[1; 0; 0]; [0; 1; 0]; [0; 0; 1]; [1; 0; 0]]%R.

Definition thikonov_3 : matrix :=
  [[2; -3; 1]; [-3; 6; -3]; [1; -3; 2]]%R.

(** ** Notions the proofs use *)

(** The entries of an array after the assignment [a[i, j] = x]. *)
Definition assigned (f : nat → nat → R) (i j : nat) (x : R)
    : nat → nat → R :=
  λ i' j', if (i' =? i)%nat && (j' =? j)%nat then x else f i' j'.

(** The entries after one turn of the loop of [create_C_thikonov], for the
    row [i], and after the whole sequence of assignments. *)
Definition interior (f : nat → nat → R) (i : nat) : nat → nat → R :=
  assigned (assigned (assigned f i i (-2)) i (i - 1) 1) i (i + 1) 1.

Definition filled (n : nat) : nat → nat → R :=
  let f := assigned (assigned (λ _ _, 0%R) 0 0 (-1)) 0 1 1 in
  let f := fold_left interior (range 1 (n - 1)) f in
  assigned (assigned f (n - 1) (n - 1) (-1)) (n - 1) (n - 1 - 1) 1.

(** The entries of [Dᵗ·D] for an [n] by [n] array with entries [d]. *)
Definition gram (n : nat) (d : nat → nat → R) (i j : nat) : R :=
  np.rsum n (λ k, d k i * d k j)%R.

(** The attributes [StandardLLH.initialize] leaves when it returns. *)
Definition after_initialize (self : instance) (vec_g : vec) (model : Model)
    (tau : R) (C : matrix) (N_prior neg_llh : bool) : instance :=
  let self := <["status" := VInt 0]> self in
  let self := <["model" := VObject model]> self in
  let self := <["n_dims_f" := VInt (dim_f model)]> self in
  let self := <["vec_g" := VArray1 vec_g]> self in
  let self := <["N" := VFloat (np.sum vec_g)]> self in
  let self := <["C" := VArray2 C]> self in
  let self := <["tau" := VFloat tau]> self in
  let self := <["factor" := VFloat (if neg_llh then 1 else -1)]> self in
  let self := <["neg_llh" := VBool neg_llh]> self in
  let self := <["N_prior" := VBool N_prior]> self in
  if isinstance model LinearModelClass then
    <["hesse_matrix_defined" := VBool true]>
      (<["gradient_defined" := VBool true]> self)
  else self.

(** A method body that leaves the attributes of [self] as it finds them,
    whether it returns or raises. *)
Definition read_only {A : Type} (m : py A) : Prop :=
  ∀ self : instance, (m self).2 = self.

(** ** Further notions the proofs use *)

(** The entry [l] of [D·x] for the second-derivative operator [D] on [n]
    bins: the first difference at the two boundary rows and the second
    difference at an interior row. *)
Definition second_difference (n : nat) (x : vec) (l : nat) : R :=
  if (l =? 0)%nat then (np.at1 x 1 - np.at1 x 0)%R
  else if (l =? n - 1)%nat then (np.at1 x (n - 2) - np.at1 x (n - 1))%R
  else (np.at1 x (l - 1) - 2 * np.at1 x l + np.at1 x (l + 1))%R.

(** [a] is a two-dimensional array of shape [(m, n)]. *)
Definition rect (m n : nat) (a : matrix) : Prop :=
  length a = m ∧ Forall (λ row, length row = n) a.

(** The two terms of the objective: the Poisson term
    [Σ (g_est - g·log(g_est))] over the observed bins and the
    regularization term [0.5·tau·f_regᵗ·C·f_reg]. *)
Definition poisson_term (g g_est : vec) : R :=
  np.rsum (length g_est)
    (λ i, np.at1 g_est i - np.at1 g i * ln (np.at1 g_est i))%R.

Definition regularization_term (tau : R) (C : matrix) (f_reg : vec) : R :=
  (0.5 * tau
   * np.rsum (length f_reg)
       (λ j, np.rsum (length f_reg) (λ k, np.at1 f_reg k * np.at2 C k j)
             * np.at1 f_reg j))%R.

(** The derivatives of the two terms, entry by entry: for the response [a],
    the counts [g] and the prediction [g_est],
    [Σ_i a[i,k] - Σ_i a[i,k]·g[i]/g_est[i]] and
    [Σ_i g[i]·a[i,k]·a[i,l]/g_est[i]²], and for the regularization
    [tau·(C·f_reg)[k]]. *)
Definition poisson_gradient (a : matrix) (g g_est : vec) (k : nat) : R :=
  (np.rsum (np.nrows a) (λ i, np.at2 a i k)
   - np.rsum (np.nrows a)
       (λ i, np.at2 a i k * np.at1 g i / np.at1 g_est i))%R.

Definition regularization_gradient (tau : R) (C : matrix) (f_reg : vec)
    (k : nat) : R :=
  (tau * np.rsum (length f_reg) (λ l, np.at2 C k l * np.at1 f_reg l))%R.

Definition poisson_hessian (a : matrix) (g g_est : vec) (k l : nat) : R :=
  np.rsum (np.nrows a)
    (λ i, np.at1 g i * np.at2 a i k * np.at2 a i l / np.at1 g_est i ^ 2)%R.

(** The attributes [LLHThikonovForLoops.__init__] leaves when it returns,
    for a model with the response [a] and the matrix [C] that
    [create_C_thikonov] gave. *)
Definition after_reference_init (self : instance) (g : vec) (model : Model)
    (tau : R) (a C : matrix) : instance :=
  let self := <["linear_model" := VObject model]> self in
  let self := <["n_dims_f" := VInt (Z.of_nat (np.shape a).2)]> self in
  let self := <["g" := VArray1 g]> self in
  let self := <["C" := VArray2 C]> self in
  let self := <["tau" := VFloat tau]> self in
  <["status" := VInt 0]> self.

(** ** The draft of [llh.py] *)

(** [llh.py] has a builder of its own, which reads a name [idx] that
    nothing binds: Python raises [NameError] when the statement runs.  The
    outcome of a function of this file is a result as before or that
    error. *)
Module llh.

Inductive outcome (A : Type) : Type :=
| Returns (a : A)
| Raises (e : exn)
| RaisesNameError (name : string).
Arguments Returns {A} a.
Arguments Raises {A} e.
Arguments RaisesNameError {A} name.

Definition outcome_bind {A B : Type} (o : outcome A) (k : A → outcome B)
  : outcome B :=
match o with
| Returns a => k a
| Raises e => Raises e
| RaisesNameError name => RaisesNameError name
end.

#[global] Instance outcome_ret_inst : MRet outcome := @Returns.
#[global] Instance outcome_bind_inst : MBind outcome :=
λ A B k o, outcome_bind o k.

Definition of_res {A : Type} (r : res A) : outcome A :=
match r with
| Ret a => Returns a
| Raise e => Raises e
end.

(** Reading a global name that no statement of the module assigns. *)
Definition unbound (name : string) : outcome nat := RaisesNameError name.

(** [C**2], entry by entry *)
Definition square (C : matrix) : matrix :=
(λ row : vec, (λ x, x ^ 2)%R <$> row) <$> C.

Definition create_C_thikonov (n_dims : nat) : outcome matrix :=
let C := np.zeros n_dims n_dims in
C ← of_res (np.setitem C 0 0 (-1));
C ← of_res (np.setitem C 0 1 1);
let idx_N := (n_dims - 1)%nat in
C ← of_res (for_in (range 1 idx_N) (λ i C,
       C ← np.setitem C i i (-2);
       C ← np.setitem C i (i - 1) 1;
       np.setitem C i (i + 1) 1) C);
idx ← unbound "idx";
C ← of_res (np.setitem C idx idx (-1));
idx ← unbound "idx";
C ← of_res (np.setitem C idx (idx - 1) 1);
mret (square C).

End llh.

(** * Properties *)

(** ** Finite sums *)

Section Sums.
Local Open Scope R_scope.
Local Open Scope nat_scope.

Implicit Types (f g : nat → R) (l : list nat).

Lemma lsum_ext l f g :
  (∀ i, i ∈ l → f i = g i) → np.lsum l f = np.lsum l g.
Proof.
  induction l as [|a l IH]; intros H; simpl; [done|].
  rewrite (H a) by (apply elem_of_cons; by left). rewrite IH; [done|].
  intros i Hi. apply H, elem_of_cons. by right.
Qed.

Lemma lsum_plus l f g :
  np.lsum l (λ i, f i + g i)%R = (np.lsum l f + np.lsum l g)%R.
Proof. induction l as [|a l IH]; simpl; [lra|rewrite IH; lra]. Qed.

Lemma lsum_scal_l l f c :
  np.lsum l (λ i, c * f i)%R = (c * np.lsum l f)%R.
Proof. induction l as [|a l IH]; simpl; [lra|rewrite IH; lra]. Qed.

Lemma lsum_scal_r l f c :
  np.lsum l (λ i, f i * c)%R = (np.lsum l f * c)%R.
Proof. induction l as [|a l IH]; simpl; [lra|rewrite IH; lra]. Qed.

Lemma lsum_zero l : np.lsum l (λ _, 0%R) = 0%R.
Proof. induction l as [|a l IH]; simpl; [done|rewrite IH; lra]. Qed.

Lemma lsum_swap l l' (h : nat → nat → R) :
  np.lsum l (λ i, np.lsum l' (λ j, h i j))
  = np.lsum l' (λ j, np.lsum l (λ i, h i j)).
Proof.
  induction l as [|a l IH]; simpl.
  - by rewrite lsum_zero.
  - by rewrite IH, lsum_plus.
Qed.

Lemma lsum_nonneg l f :
  (∀ i, i ∈ l → (0 <= f i)%R) → (0 <= np.lsum l f)%R.
Proof.
  induction l as [|a l IH]; intros H; simpl; [lra|].
  assert (0 <= f a)%R by (apply H, elem_of_cons; by left).
  assert (0 <= np.lsum l f)%R
    by (apply IH; intros; apply H, elem_of_cons; by right).
  lra.
Qed.

Lemma rsum_ext n f g :
  (∀ i, i < n → f i = g i) → np.rsum n f = np.rsum n g.
Proof.
  intros H. apply lsum_ext. intros i Hi. apply H.
  apply elem_of_seq in Hi. lia.
Qed.

Lemma rsum_swap n m (h : nat → nat → R) :
  np.rsum n (λ i, np.rsum m (λ j, h i j))
  = np.rsum m (λ j, np.rsum n (λ i, h i j)).
Proof. apply lsum_swap. Qed.

Lemma rsum_nonneg n f :
  (∀ i, i < n → (0 <= f i)%R) → (0 <= np.rsum n f)%R.
Proof.
  intros H. apply lsum_nonneg. intros i Hi. apply H.
  apply elem_of_seq in Hi. lia.
Qed.

End Sums.

(** ** Arrays given by their entries *)

Section Tabulate.
Local Open Scope nat_scope.

Lemma lookup_fmap_seq {A : Type} (f : nat → A) n i :
  i < n → (f <$> seq 0 n) !! i = Some (f i).
Proof. intros H. by rewrite list_lookup_fmap, lookup_seq_lt. Qed.

Lemma fmap_seq_ext {A : Type} (f g : nat → A) n :
  (∀ i, i < n → f i = g i) → f <$> seq 0 n = g <$> seq 0 n.
Proof.
  intros H. apply list_fmap_ext. intros i x Hx.
  apply lookup_seq in Hx as [-> ?]. by apply H.
Qed.

Lemma insert_fmap_seq {A : Type} (f : nat → A) n j x :
  j < n →
  <[j := x]> (f <$> seq 0 n) = (λ k, if k =? j then x else f k) <$> seq 0 n.
Proof.
  intros Hj. apply list_eq. intros k.
  destruct (decide (k = j)) as [->|Hne].
  - rewrite list_lookup_insert_eq by (rewrite length_fmap, length_seq; lia).
    rewrite lookup_fmap_seq by done. by rewrite Nat.eqb_refl.
  - rewrite list_lookup_insert_ne by done.
    destruct (decide (k < n)) as [Hk|Hk].
    + rewrite !lookup_fmap_seq by done.
      by destruct (Nat.eqb_spec k j).
    + rewrite !list_lookup_fmap, !lookup_seq_ge by lia. done.
Qed.

Lemma nrows_tabulate m n f : np.nrows (np.tabulate m n f) = m.
Proof. unfold np.nrows, np.tabulate. by rewrite length_fmap, length_seq. Qed.

Lemma ncols_tabulate m n f : 0 < m → np.ncols (np.tabulate m n f) = n.
Proof.
  intros H. destruct m as [|m]; [lia|].
  unfold np.ncols, np.tabulate. simpl.
  by rewrite length_fmap, length_seq.
Qed.

Lemma lookup_tabulate m n f i :
  i < m → np.tabulate m n f !! i = Some (f i <$> seq 0 n).
Proof. intros H. unfold np.tabulate. by rewrite lookup_fmap_seq. Qed.

Lemma at2_tabulate m n f i j :
  i < m → j < n → np.at2 (np.tabulate m n f) i j = f i j.
Proof.
  intros Hi Hj. unfold np.at2, np.at1.
  rewrite lookup_tabulate by done. simpl.
  by rewrite lookup_fmap_seq.
Qed.

Lemma tabulate_ext m n f g :
  (∀ i j, i < m → j < n → f i j = g i j) →
  np.tabulate m n f = np.tabulate m n g.
Proof.
  intros H. unfold np.tabulate. apply fmap_seq_ext. intros i Hi.
  apply fmap_seq_ext. intros j Hj. by apply H.
Qed.

Lemma zeros_tabulate m n : np.zeros m n = np.tabulate m n (λ _ _, 0%R).
Proof.
  unfold np.zeros, np.tabulate.
  assert (Hrep : ∀ {A : Type} (x : A) k,
             replicate k x = (λ _, x) <$> seq 0 k).
  { intros B x k. apply list_eq. intros i.
    destruct (decide (i < k)).
    - by rewrite lookup_replicate_2, lookup_fmap_seq.
    - rewrite list_lookup_fmap, lookup_seq_ge by lia.
      apply lookup_replicate_None. lia. }
  by rewrite !Hrep.
Qed.

Lemma setitem_tabulate m n f i j x :
  i < m → j < n →
  np.setitem (np.tabulate m n f) i j x
  = Ret (np.tabulate m n (assigned f i j x)).
Proof.
  intros Hi Hj. unfold np.setitem.
  rewrite lookup_tabulate by done.
  rewrite length_fmap, length_seq.
  destruct (Nat.ltb_spec j n) as [_|?]; [|lia].
  f_equal. unfold np.tabulate.
  rewrite insert_fmap_seq by done.
  apply fmap_seq_ext. intros k Hk. unfold assigned.
  destruct (Nat.eqb_spec k i) as [->|Hne]; simpl.
  - by rewrite insert_fmap_seq.
  - done.
Qed.

Lemma T_tabulate m n f :
  0 < m → np.T (np.tabulate m n f) = np.tabulate n m (λ j i, f i j).
Proof.
  intros Hm. unfold np.T.
  rewrite nrows_tabulate, ncols_tabulate by done.
  apply tabulate_ext. intros j i Hj Hi. by apply at2_tabulate.
Qed.

Lemma dot22_tabulate m p n f g :
  0 < m → 0 < p →
  np.dot22 (np.tabulate m p f) (np.tabulate p n g)
  = Ret (np.tabulate m n (λ i j, np.rsum p (λ k, f i k * g k j)%R)).
Proof.
  intros Hm Hp. unfold np.dot22.
  rewrite !nrows_tabulate, !ncols_tabulate by done.
  rewrite Nat.eqb_refl. f_equal.
  apply tabulate_ext. intros i j Hi Hj.
  apply rsum_ext. intros k Hk.
  by rewrite !at2_tabulate.
Qed.

End Tabulate.

(** ** The second-derivative operator *)

Section SecondDerivative.
Local Open Scope nat_scope.

Ltac nat_case :=
  match goal with
  | |- context [(?a =? ?b)%nat] => destruct (Nat.eqb_spec a b)
  | |- context [(?a <=? ?b)%nat] => destruct (Nat.leb_spec a b)
  | |- context [(?a <? ?b)%nat] => destruct (Nat.ltb_spec a b)
  end.

Ltac nat_cases :=
  repeat (nat_case; cbn [andb orb]; try lia); try reflexivity.

Lemma res_bind_Ret {A B : Type} (a : A) (k : A → res B) :
  (Ret a ≫= k) = k a.
Proof. reflexivity. Qed.

Lemma loop_tabulate n l f :
  (∀ i, i ∈ l → 1 ≤ i ∧ i + 1 < n) →
  for_in l (λ i C,
      C ← np.setitem C i i (-2);
      C ← np.setitem C i (i - 1) 1;
      np.setitem C i (i + 1) 1) (np.tabulate n n f)
  = Ret (np.tabulate n n (fold_left interior l f)).
Proof.
  revert f. induction l as [|a l IH]; intros f H; [done|].
  assert (1 ≤ a ∧ a + 1 < n) as [? ?] by (apply H, elem_of_cons; by left).
  cbn [for_in fold_left].
  rewrite setitem_tabulate, res_bind_Ret by lia.
  rewrite setitem_tabulate, res_bind_Ret by lia.
  rewrite setitem_tabulate, res_bind_Ret by lia.
  apply IH. intros i Hi. apply H, elem_of_cons. by right.
Qed.

Lemma interior_rows_at k : ∀ a f i j,
  1 ≤ a →
  fold_left interior (seq a k) f i j
  = if (a <=? i) && (i <? a + k)
    then if (j =? i) then (-2)%R
         else if (j =? i - 1) || (j =? i + 1) then 1%R else f i j
    else f i j.
Proof.
  induction k as [|k IH]; intros a f i j Ha.
  - simpl. nat_cases.
  - cbn [seq fold_left]. rewrite IH by lia.
    unfold interior, assigned. nat_cases.
Qed.

Lemma filled_second_derivative n i j :
  2 ≤ n → i < n → j < n → filled n i j = second_derivative n i j.
Proof.
  intros Hn Hi Hj. unfold filled, range.
  unfold assigned at 1 2. rewrite interior_rows_at by lia.
  unfold assigned, second_derivative.
  replace (n - 2) with (n - 1 - 1) by lia.
  nat_cases.
Qed.

Lemma second_derivative_rows_eq n :
  2 ≤ n →
  second_derivative_rows n = Ret (np.tabulate n n (second_derivative n)).
Proof.
  intros Hn. unfold second_derivative_rows.
  rewrite zeros_tabulate.
  rewrite setitem_tabulate, res_bind_Ret by lia.
  rewrite setitem_tabulate, res_bind_Ret by lia.
  rewrite loop_tabulate, res_bind_Ret.
  2:{ intros i Hi. apply elem_of_seq in Hi. lia. }
  rewrite setitem_tabulate, res_bind_Ret by lia.
  rewrite setitem_tabulate by lia.
  f_equal. apply tabulate_ext. intros i j Hi Hj.
  by apply filled_second_derivative.
Qed.

End SecondDerivative.

(** ** [C = Dᵗ·D] is symmetric and positive semi-definite *)

Section Gram.
Local Open Scope R_scope.

Variables (n : nat) (d : nat → nat → R).

Lemma gram_sym i j : gram n d i j = gram n d j i.
Proof. apply rsum_ext. intros k _. apply Rmult_comm. Qed.

(** [xᵗ·(Dᵗ·D)·x] is the sum of the squares of the entries of [D·x]. *)
Lemma gram_quadratic_form (x : nat → R) :
  np.rsum n (λ j, np.rsum n (λ k, x k * gram n d k j) * x j)
  = np.rsum n (λ l, np.rsum n (λ k, d l k * x k) ^ 2).
Proof.
  transitivity
    (np.rsum n (λ j, np.rsum n (λ k, np.rsum n (λ l,
       d l k * x k * (d l j * x j))))).
  { apply rsum_ext. intros j _. unfold np.rsum at 1.
    rewrite <- lsum_scal_r. apply rsum_ext. intros k _.
    unfold gram, np.rsum. rewrite <- lsum_scal_l, <- lsum_scal_r.
    apply lsum_ext. intros l _. ring. }
  transitivity
    (np.rsum n (λ l, np.rsum n (λ j, np.rsum n (λ k,
       d l k * x k * (d l j * x j))))).
  { transitivity
      (np.rsum n (λ j, np.rsum n (λ l, np.rsum n (λ k,
         d l k * x k * (d l j * x j))))).
    - apply rsum_ext. intros j _. apply rsum_swap.
    - exact (rsum_swap n n (λ j l, np.rsum n (λ k,
         d l k * x k * (d l j * x j)))). }
  apply rsum_ext. intros l _. rewrite rsum_swap.
  replace (np.rsum n (λ k, d l k * x k) ^ 2)
    with (np.rsum n (λ k, d l k * x k) * np.rsum n (λ j, d l j * x j))
    by ring.
  unfold np.rsum. rewrite <- lsum_scal_r.
  apply lsum_ext. intros k _. by rewrite <- lsum_scal_l.
Qed.

Lemma gram_quadratic_form_nonneg (x : nat → R) :
  0 <= np.rsum n (λ j, np.rsum n (λ k, x k * gram n d k j) * x j).
Proof.
  rewrite gram_quadratic_form. apply rsum_nonneg. intros l _.
  apply pow2_ge_0.
Qed.

End Gram.

Section Thikonov.
Local Open Scope nat_scope.

Lemma create_C_thikonov_eq n :
  2 ≤ n →
  create_C_thikonov n = Ret (np.tabulate n n (gram n (second_derivative n))).
Proof.
  intros Hn. unfold create_C_thikonov.
  rewrite second_derivative_rows_eq, res_bind_Ret by done.
  rewrite T_tabulate by lia. by rewrite dot22_tabulate by lia.
Qed.

Lemma T_gram n d :
  0 < n → np.T (np.tabulate n n (gram n d)) = np.tabulate n n (gram n d).
Proof.
  intros Hn. rewrite T_tabulate by done.
  apply tabulate_ext. intros i j _ _. apply gram_sym.
Qed.

Lemma quadratic_form_gram n d (x : vec) :
  0 < n → length x = n →
  (xC ← np.dot12 x (np.tabulate n n (gram n d)); np.dot11 xC x)
  = Ret (np.rsum n (λ j,
           np.rsum n (λ k, np.at1 x k * gram n d k j) * np.at1 x j)%R).
Proof.
  intros Hn Hx. unfold np.dot12.
  rewrite nrows_tabulate, ncols_tabulate, Hx, Nat.eqb_refl by done.
  rewrite res_bind_Ret. unfold np.dot11.
  rewrite length_fmap, length_seq, Hx, Nat.eqb_refl.
  f_equal. apply rsum_ext. intros j Hj. f_equal.
  unfold np.at1 at 1. rewrite lookup_fmap_seq by done. simpl.
  apply rsum_ext. intros k Hk. by rewrite at2_tabulate.
Qed.

End Thikonov.

(** C3.  For every [n >= 3], [create_C_thikonov(n)] returns the matrix
    [Dᵗ·D], where [D] is the discrete second-derivative operator with the
    rows the specification lists; the result is [n] by [n], equal to its
    transpose, and [xᵗ·C·x >= 0] for every real vector [x] of length [n]. *)
Theorem create_C_thikonov_symmetric_psd (n : nat) :
  (3 ≤ n)%nat →
  ∃ C : matrix,
    create_C_thikonov n = Ret C
    ∧ (let D := np.tabulate n n (second_derivative n) in
       np.dot22 (np.T D) D = Ret C)
    ∧ np.shape C = (n, n)
    ∧ np.T C = C
    ∧ ∀ x : vec, length x = n →
        ∃ q : R, (xC ← np.dot12 x C; np.dot11 xC x) = Ret q ∧ (0 <= q)%R.
Proof.
  intros Hn. exists (np.tabulate n n (gram n (second_derivative n))).
  split; [apply create_C_thikonov_eq; lia|].
  split.
  { simpl. rewrite T_tabulate by lia. by rewrite dot22_tabulate by lia. }
  split.
  { unfold np.shape. by rewrite nrows_tabulate, ncols_tabulate by lia. }
  split; [apply T_gram; lia|].
  intros x Hx. eexists. split; [apply quadratic_form_gram; [lia|done]|].
  apply gram_quadratic_form_nonneg.
Qed.

Lemma create_C_thikonov_symmetric_psd_witness :
  ∃ C : matrix,
    create_C_thikonov 3 = Ret C
    ∧ (let D := np.tabulate 3 3 (second_derivative 3) in
       np.dot22 (np.T D) D = Ret C)
    ∧ np.shape C = (3%nat, 3%nat)
    ∧ np.T C = C
    ∧ ∀ x : vec, length x = 3%nat →
        ∃ q : R, (xC ← np.dot12 x C; np.dot11 xC x) = Ret q ∧ (0 <= q)%R.
Proof. apply (create_C_thikonov_symmetric_psd 3). lia. Defined.

(** ** Running methods *)

Section Run.

Lemma run_bind {A B : Type} (m : py A) (k : A → py B) (self : instance) :
  (m ≫= k) self
  = match m self with
    | (Ret a, self') => k a self'
    | (Raise e, self') => (Raise e, self')
    end.
Proof. reflexivity. Qed.

Lemma run_getattr (name : string) (self : instance) (v : val) :
  self !! name = Some v → getattr name self = (Ret v, self).
Proof. intros H. unfold getattr. by rewrite H. Qed.

Lemma run_getattr_None (name : string) (self : instance) :
  self !! name = None →
  getattr name self = (Raise (AttributeError name), self).
Proof. intros H. unfold getattr. by rewrite H. Qed.

End Run.

(** [py_unfold] exposes the binds and the primitive steps of a method,
    [attr_lookup] reads an attribute off a chain of assignments, and
    [py_get] performs the attribute reads of the goal. *)
Ltac py_unfold :=
  cbv beta iota zeta delta
    [mbind mret py_bind_inst py_ret_inst py_bind py_ret raise lift
     setattr as_int as_bool as_float as_array1 as_array2 as_object
     attr_A call_evaluate].

Ltac attr_lookup :=
  repeat (rewrite lookup_insert_ne by done);
  first [ apply lookup_insert_eq | reflexivity | eassumption
        | apply lookup_empty ].

Ltac py_get :=
  repeat first
    [ erewrite run_getattr by attr_lookup
    | rewrite run_getattr_None by attr_lookup
    | match goal with
      | H : evaluate _ _ = _ |- _ => rewrite H
      | H : A _ = _ |- _ => rewrite H
      end
    | progress cbv beta iota ].

(** ** The lifecycle *)

Section Lifecycle.

Lemma new_LLH :
  new LLH.__init__
  = <["hesse_matrix_defined" := VBool false]>
      (<["gradient_defined" := VBool false]>
         (<["status" := VInt (-1)]> ∅)).
Proof. reflexivity. Qed.

Lemma initialize_run self vec_g model tau C N_prior neg_llh :
  StandardLLH.initialize vec_g model tau C N_prior neg_llh self
  = if isinstance model ModelClass
    then (Ret tt, after_initialize self vec_g model tau C N_prior neg_llh)
    else (Raise (ValueError "'model' has to be of type Model!"),
          <["status" := VInt 0]> self).
Proof.
  unfold StandardLLH.initialize, LLH.initialize, after_initialize.
  py_unfold.
  destruct (isinstance model ModelClass); [|done].
  by destruct neg_llh, (isinstance model LinearModelClass).
Qed.

Context (self : instance) (vec_g : vec) (model : Model) (tau : R)
  (C : matrix) (N_prior neg_llh : bool).

Let self' := after_initialize self vec_g model tau C N_prior neg_llh.

Ltac after_lookup :=
  subst self'; unfold after_initialize;
  destruct (isinstance model LinearModelClass); attr_lookup.

Lemma after_initialize_status : self' !! "status" = Some (VInt 0).
Proof. after_lookup. Qed.

Lemma after_initialize_model : self' !! "model" = Some (VObject model).
Proof. after_lookup. Qed.

Lemma after_initialize_neg_llh : self' !! "neg_llh" = Some (VBool neg_llh).
Proof. after_lookup. Qed.

Lemma after_initialize_gradient_defined :
  self' !! "gradient_defined"
  = if isinstance model LinearModelClass then Some (VBool true)
    else self !! "gradient_defined".
Proof. after_lookup. Qed.

Lemma after_initialize_hesse_matrix_defined :
  self' !! "hesse_matrix_defined"
  = if isinstance model LinearModelClass then Some (VBool true)
    else self !! "hesse_matrix_defined".
Proof. after_lookup. Qed.

Lemma after_initialize_tau : self' !! "tau" = Some (VFloat tau).
Proof. after_lookup. Qed.

Lemma after_initialize_C : self' !! "C" = Some (VArray2 C).
Proof. after_lookup. Qed.

Lemma after_initialize_factor :
  self' !! "factor" = Some (VFloat (if neg_llh then 1 else -1)).
Proof. after_lookup. Qed.

Lemma after_initialize_N_prior : self' !! "N_prior" = Some (VBool N_prior).
Proof. after_lookup. Qed.

Lemma after_initialize_N : self' !! "N" = Some (VFloat (np.sum vec_g)).
Proof. after_lookup. Qed.

Lemma after_initialize_vec_g : self' !! "vec_g" = Some (VArray1 vec_g).
Proof. after_lookup. Qed.

(** [initialize] stores the counts as [vec_g] and leaves [g] as it
    finds it. *)
Lemma after_initialize_g : self' !! "g" = self !! "g".
Proof. after_lookup. Qed.

End Lifecycle.

(** ** The checks of [LLH] *)

Section Checks.

Context (self : instance).

Lemma run_LLH_evaluate_llh (status : Z) :
  self !! "status" = Some (VInt status) →
  LLH.evaluate_llh self
  = if status <? 0 then (Raise LLH.uninitialized, self) else (Ret tt, self).
Proof.
  intros Hs. unfold LLH.evaluate_llh. py_unfold. py_get.
  by destruct (status <? 0).
Qed.

Lemma run_LLH_evaluate_gradient (gradient_defined : bool) :
  self !! "gradient_defined" = Some (VBool gradient_defined) →
  LLH.evaluate_gradient self
  = if gradient_defined then LLH.evaluate_llh self
    else (Raise (NotImplementedError "Gradients are not implemented!"),
          self).
Proof.
  intros Hs. unfold LLH.evaluate_gradient. py_unfold. py_get.
  by destruct gradient_defined.
Qed.

Lemma run_LLH_evaluate_hesse_matrix (hesse_matrix_defined : bool) :
  self !! "hesse_matrix_defined" = Some (VBool hesse_matrix_defined) →
  LLH.evaluate_hesse_matrix self
  = if hesse_matrix_defined then LLH.evaluate_llh self
    else (Raise (NotImplementedError "Hesse Matrix is not implemented!"),
          self).
Proof.
  intros Hs. unfold LLH.evaluate_hesse_matrix. py_unfold. py_get.
  by destruct hesse_matrix_defined.
Qed.

End Checks.

(** ** [any(v < 0)] *)

Lemma any_lt0_true (v : vec) :
  np.any_lt0 v = true ↔ ∃ x, x ∈ v ∧ (x < 0)%R.
Proof.
  unfold np.any_lt0. rewrite existsb_exists. split.
  - intros (x & Hin & Hx). exists x. split; [by apply list_elem_of_In|].
    unfold np.lt0 in Hx. by destruct (Rlt_dec x 0).
  - intros (x & Hin & Hx). exists x. split; [by apply list_elem_of_In|].
    unfold np.lt0. by destruct (Rlt_dec x 0).
Qed.

Lemma any_lt0_false (v : vec) :
  np.any_lt0 v = false ↔ ∀ x, x ∈ v → (0 <= x)%R.
Proof.
  rewrite <- not_true_iff_false, any_lt0_true. split.
  - intros H x Hx. destruct (Rle_dec 0 x) as [|Hn]; [done|].
    exfalso. apply H. exists x. split; [done|lra].
  - intros H (x & Hx & Hlt). specialize (H x Hx). lra.
Qed.

(** ** [StandardLLH.evaluate_llh] up to the statement that reads [self.g] *)

Section EvaluateLLH.

Context (self : instance) (model : Model) (f g_est f' f_reg : vec).
Context (status : Z).
Hypothesis Hstatus : self !! "status" = Some (VInt status).
Hypothesis Hinitialized : 0 ≤ status.
Hypothesis Hmodel : self !! "model" = Some (VObject model).
Hypothesis Hevaluate : evaluate model f = Ret (g_est, f', f_reg).

Lemma run_evaluate_llh_infeasible (neg_llh : bool) :
  self !! "neg_llh" = Some (VBool neg_llh) →
  np.any_lt0 g_est || np.any_lt0 f' = true →
  StandardLLH.evaluate_llh f self
  = (Ret (if neg_llh then np.inf else np.neg_inf), self).
Proof.
  intros Hneg Hguard. unfold StandardLLH.evaluate_llh.
  rewrite run_bind, (run_LLH_evaluate_llh _ _ Hstatus).
  destruct (Z.ltb_spec status 0); [lia|].
  py_unfold. py_get. rewrite Hguard. py_get. by destruct neg_llh.
Qed.

Lemma run_evaluate_llh_feasible_no_g :
  self !! "g" = None →
  np.any_lt0 g_est || np.any_lt0 f' = false →
  StandardLLH.evaluate_llh f self = (Raise (AttributeError "g"), self).
Proof.
  intros Hg Hguard. unfold StandardLLH.evaluate_llh.
  rewrite run_bind, (run_LLH_evaluate_llh _ _ Hstatus).
  destruct (Z.ltb_spec status 0); [lia|].
  py_unfold. py_get. rewrite Hguard. by py_get.
Qed.

End EvaluateLLH.

(** ** The derivatives up to the statement that reads [self.g] *)

Section Derivatives.

Context (self : instance) (model : Model) (a : matrix)
  (f g_est f' f_reg : vec) (status : Z).
Hypothesis Hstatus : self !! "status" = Some (VInt status).
Hypothesis Hinitialized : 0 ≤ status.
Hypothesis Hgradient : self !! "gradient_defined" = Some (VBool true).
Hypothesis Hhesse : self !! "hesse_matrix_defined" = Some (VBool true).
Hypothesis Hmodel : self !! "model" = Some (VObject model).
Hypothesis HA : A model = Some a.
Hypothesis Hevaluate : evaluate model f = Ret (g_est, f', f_reg).
Hypothesis Hg : self !! "g" = None.

Lemma run_evaluate_gradient_no_g :
  StandardLLH.evaluate_gradient f self = (Raise (AttributeError "g"), self).
Proof.
  unfold StandardLLH.evaluate_gradient.
  rewrite run_bind, (run_LLH_evaluate_gradient _ _ Hgradient).
  rewrite (run_LLH_evaluate_llh _ _ Hstatus).
  destruct (Z.ltb_spec status 0); [lia|].
  py_unfold. by py_get.
Qed.

Lemma run_evaluate_hesse_matrix_no_g :
  StandardLLH.evaluate_hesse_matrix f self
  = (Raise (AttributeError "g"), self).
Proof.
  unfold StandardLLH.evaluate_hesse_matrix.
  rewrite run_bind, (run_LLH_evaluate_hesse_matrix _ _ Hhesse).
  rewrite (run_LLH_evaluate_llh _ _ Hstatus).
  destruct (Z.ltb_spec status 0); [lia|].
  py_unfold. by py_get.
Qed.

End Derivatives.

(** ** Methods that only read *)

Section ReadOnly.

Context {A B : Type}.

Lemma read_only_ret (a : A) : read_only (mret a).
Proof. by intros self. Qed.

Lemma read_only_raise (e : exn) : read_only (raise (A := A) e).
Proof. by intros self. Qed.

Lemma read_only_lift (r : res A) : read_only (lift r).
Proof. by intros self. Qed.

Lemma read_only_getattr (name : string) : read_only (getattr name).
Proof. intros self. unfold getattr. by destruct (self !! name). Qed.

Lemma read_only_bind (m : py A) (k : A → py B) :
  read_only m → (∀ a, read_only (k a)) → read_only (m ≫= k).
Proof.
  intros Hm Hk self. rewrite run_bind.
  specialize (Hm self). destruct (m self) as [[a|e] self']; simpl in Hm.
  - subst self'. apply Hk.
  - done.
Qed.

End ReadOnly.

Ltac read_only_step :=
  first
    [ apply read_only_bind; [|intros ?]
    | apply read_only_getattr
    | apply read_only_ret
    | apply read_only_raise
    | apply read_only_lift
    | match goal with
      | |- read_only (match ?x with _ => _ end) => destruct x
      end ].

Ltac read_only_solve := repeat read_only_step.

Section ReadOnlyMethods.

Lemma read_only_as_int v : read_only (as_int v).
Proof. unfold as_int. read_only_solve. Qed.
Lemma read_only_as_bool v : read_only (as_bool v).
Proof. unfold as_bool. read_only_solve. Qed.
Lemma read_only_as_float v : read_only (as_float v).
Proof. unfold as_float. read_only_solve. Qed.
Lemma read_only_as_array1 v : read_only (as_array1 v).
Proof. unfold as_array1. read_only_solve. Qed.
Lemma read_only_as_array2 v : read_only (as_array2 v).
Proof. unfold as_array2. read_only_solve. Qed.
Lemma read_only_as_object v : read_only (as_object v).
Proof. unfold as_object. read_only_solve. Qed.
Lemma read_only_attr_A model : read_only (attr_A model).
Proof. unfold attr_A. read_only_solve. Qed.
Lemma read_only_call_evaluate model f : read_only (call_evaluate model f).
Proof. apply read_only_lift. Qed.

Hint Resolve read_only_as_int read_only_as_bool read_only_as_float
  read_only_as_array1 read_only_as_array2 read_only_as_object
  read_only_attr_A read_only_call_evaluate : core.

Lemma read_only_LLH_evaluate_llh : read_only LLH.evaluate_llh.
Proof. unfold LLH.evaluate_llh. read_only_solve; auto. Qed.

Lemma read_only_LLH_evaluate_gradient : read_only LLH.evaluate_gradient.
Proof. unfold LLH.evaluate_gradient. read_only_solve; auto. Qed.

Lemma read_only_LLH_evaluate_hesse_matrix :
  read_only LLH.evaluate_hesse_matrix.
Proof. unfold LLH.evaluate_hesse_matrix. read_only_solve; auto. Qed.

Hint Resolve read_only_LLH_evaluate_llh read_only_LLH_evaluate_gradient
  read_only_LLH_evaluate_hesse_matrix : core.

Lemma read_only_evaluate_llh f : read_only (StandardLLH.evaluate_llh f).
Proof. unfold StandardLLH.evaluate_llh. read_only_solve; auto. Qed.

Lemma read_only_evaluate_gradient f :
  read_only (StandardLLH.evaluate_gradient f).
Proof. unfold StandardLLH.evaluate_gradient. read_only_solve; auto. Qed.

Lemma read_only_evaluate_hesse_matrix f :
  read_only (StandardLLH.evaluate_hesse_matrix f).
Proof. unfold StandardLLH.evaluate_hesse_matrix. read_only_solve; auto. Qed.

End ReadOnlyMethods.

(** C9.  On every instance and for every candidate [f], each of
    [evaluate_llh], [evaluate_gradient] and [evaluate_hesse_matrix] of
    [StandardLLH] leaves every attribute of the instance as it was, whether
    the call returns or raises, and a second call with the same [f] gives
    the result of the first. *)
Theorem evaluations_leave_instance_unchanged (self : instance) (f : vec) :
  ((StandardLLH.evaluate_llh f self).2 = self
   ∧ (StandardLLH.evaluate_gradient f self).2 = self
   ∧ (StandardLLH.evaluate_hesse_matrix f self).2 = self)
  ∧ ((StandardLLH.evaluate_llh f (StandardLLH.evaluate_llh f self).2).1
       = (StandardLLH.evaluate_llh f self).1
     ∧ (StandardLLH.evaluate_gradient f
          (StandardLLH.evaluate_gradient f self).2).1
       = (StandardLLH.evaluate_gradient f self).1
     ∧ (StandardLLH.evaluate_hesse_matrix f
          (StandardLLH.evaluate_hesse_matrix f self).2).1
       = (StandardLLH.evaluate_hesse_matrix f self).1).
Proof.
  pose proof (read_only_evaluate_llh f self) as H1.
  pose proof (read_only_evaluate_gradient f self) as H2.
  pose proof (read_only_evaluate_hesse_matrix f self) as H3.
  by rewrite H1, H2, H3.
Qed.

(** ** The infeasibility guard *)

(** C4.  On an instance that [initialize] has set up, with either sign
    convention, if the model evaluation of the candidate yields a negative
    component in [g_est] or in the returned [f], then [evaluate_llh]
    returns plus infinity when [neg_llh] is true and minus infinity when
    it is false; it does not raise and leaves the instance as it was. *)
Theorem evaluate_llh_infeasible_returns_infinity
    (self0 self : instance) (vec_g : vec) (model : Model) (tau : R)
    (C : matrix) (N_prior neg_llh : bool) (f g_est f' f_reg : vec) :
  StandardLLH.initialize vec_g model tau C N_prior neg_llh self0
    = (Ret tt, self) →
  evaluate model f = Ret (g_est, f', f_reg) →
  (∃ x, x ∈ g_est ∧ (x < 0)%R) ∨ (∃ x, x ∈ f' ∧ (x < 0)%R) →
  StandardLLH.evaluate_llh f self
  = (Ret (if neg_llh then np.inf else np.neg_inf), self).
Proof.
  intros Hinit Hev Hneg. rewrite initialize_run in Hinit.
  destruct (isinstance model ModelClass); [|done].
  injection Hinit as <-.
  eapply run_evaluate_llh_infeasible with (status := 0).
  - apply after_initialize_status.
  - done.
  - apply after_initialize_model.
  - exact Hev.
  - apply after_initialize_neg_llh.
  - apply orb_true_iff. by rewrite !any_lt0_true.
Qed.

Lemma evaluate_llh_infeasible_returns_infinity_witness :
  ∃ self : instance,
    StandardLLH.initialize [1; 2]%R (linear_model [[1; 0]; [0; 1]]%R) 1%R
      [[1; -1]; [-1; 1]]%R false true (new StandardLLH.__init__)
      = (Ret tt, self)
    ∧ StandardLLH.evaluate_llh [-1; 2]%R self = (Ret np.inf, self).
Proof.
  eexists. split; [by rewrite initialize_run|].
  eapply (evaluate_llh_infeasible_returns_infinity
            (new StandardLLH.__init__) _ [1; 2]%R
            (linear_model [[1; 0]; [0; 1]]%R) 1%R [[1; -1]; [-1; 1]]%R
            false true [-1; 2]%R).
  - by rewrite initialize_run.
  - reflexivity.
  - right. exists (-1)%R. split; [apply elem_of_cons; by left|lra].
Defined.

(** ** Calls before [initialize] *)

Section BeforeInitialize.

Let self := new StandardLLH.__init__.

Lemma new_status : self !! "status" = Some (VInt (-1)).
Proof.
  subst self. unfold StandardLLH.__init__. rewrite new_LLH. attr_lookup.
Qed.

Lemma new_gradient_defined :
  self !! "gradient_defined" = Some (VBool false).
Proof.
  subst self. unfold StandardLLH.__init__. rewrite new_LLH. attr_lookup.
Qed.

Lemma new_hesse_matrix_defined :
  self !! "hesse_matrix_defined" = Some (VBool false).
Proof.
  subst self. unfold StandardLLH.__init__. rewrite new_LLH. attr_lookup.
Qed.

Lemma new_g : self !! "g" = None.
Proof.
  subst self. unfold StandardLLH.__init__. rewrite new_LLH. attr_lookup.
Qed.

Lemma new_evaluate_llh f :
  StandardLLH.evaluate_llh f self = (Raise LLH.uninitialized, self).
Proof.
  unfold StandardLLH.evaluate_llh.
  by rewrite run_bind, (run_LLH_evaluate_llh _ _ new_status).
Qed.

Lemma new_evaluate_gradient f :
  StandardLLH.evaluate_gradient f self
  = (Raise (NotImplementedError "Gradients are not implemented!"), self).
Proof.
  unfold StandardLLH.evaluate_gradient.
  by rewrite run_bind, (run_LLH_evaluate_gradient _ _ new_gradient_defined).
Qed.

Lemma new_evaluate_hesse_matrix f :
  StandardLLH.evaluate_hesse_matrix f self
  = (Raise (NotImplementedError "Hesse Matrix is not implemented!"), self).
Proof.
  unfold StandardLLH.evaluate_hesse_matrix.
  by rewrite run_bind,
    (run_LLH_evaluate_hesse_matrix _ _ new_hesse_matrix_defined).
Qed.

End BeforeInitialize.

(** C6, as the code has it.  On an instance on which [initialize] has not
    been called, [evaluate_llh] fails with the error that asks to run
    [initialize] first, while [evaluate_gradient] and
    [evaluate_hesse_matrix] fail with the not-implemented error: the
    capability flags are still false, and they are tested before the
    status. *)
Theorem calls_before_initialize_fail (f : vec) :
  let self := new StandardLLH.__init__ in
  (LLH.evaluate_llh self = (Raise LLH.uninitialized, self)
   ∧ StandardLLH.evaluate_llh f self = (Raise LLH.uninitialized, self))
  ∧ (LLH.evaluate_gradient self
       = (Raise (NotImplementedError "Gradients are not implemented!"), self)
     ∧ StandardLLH.evaluate_gradient f self
       = (Raise (NotImplementedError "Gradients are not implemented!"), self))
  ∧ (LLH.evaluate_hesse_matrix self
       = (Raise (NotImplementedError "Hesse Matrix is not implemented!"),
          self)
     ∧ StandardLLH.evaluate_hesse_matrix f self
       = (Raise (NotImplementedError "Hesse Matrix is not implemented!"),
          self)).
Proof.
  intros self. subst self.
  rewrite (run_LLH_evaluate_llh _ _ new_status),
    (run_LLH_evaluate_gradient _ _ new_gradient_defined),
    (run_LLH_evaluate_hesse_matrix _ _ new_hesse_matrix_defined).
  by rewrite new_evaluate_llh, new_evaluate_gradient,
    new_evaluate_hesse_matrix.
Qed.

(** The statement of C6 fails for the derivatives: on a new instance
    [evaluate_gradient] does not fail with the error that asks to run
    [initialize] first. *)
Lemma evaluate_gradient_before_initialize_counterexample :
  ¬ ((StandardLLH.evaluate_llh [1; 2; 3]%R (new StandardLLH.__init__)).1
       = Raise LLH.uninitialized
     ∧ (StandardLLH.evaluate_gradient [1; 2; 3]%R
          (new StandardLLH.__init__)).1
       = Raise LLH.uninitialized
     ∧ (StandardLLH.evaluate_hesse_matrix [1; 2; 3]%R
          (new StandardLLH.__init__)).1
       = Raise LLH.uninitialized).
Proof.
  intros (_ & H & _). rewrite new_evaluate_gradient in H. discriminate H.
Qed.

(** ** The capability flags *)

(** The derivative calls on an instance that passes the checks, with a
    model that has no attribute [A]: both fail on [self.model.A]. *)
Section DerivativesWithoutA.

Context (self : instance) (model : Model) (f g_est f' f_reg : vec)
  (status : Z).
Hypothesis Hstatus : self !! "status" = Some (VInt status).
Hypothesis Hinitialized : 0 ≤ status.
Hypothesis Hgradient : self !! "gradient_defined" = Some (VBool true).
Hypothesis Hhesse : self !! "hesse_matrix_defined" = Some (VBool true).
Hypothesis Hmodel : self !! "model" = Some (VObject model).
Hypothesis HA : A model = None.
Hypothesis Hevaluate : evaluate model f = Ret (g_est, f', f_reg).

Lemma run_evaluate_gradient_no_A :
  StandardLLH.evaluate_gradient f self = (Raise (AttributeError "A"), self).
Proof.
  unfold StandardLLH.evaluate_gradient.
  rewrite run_bind, (run_LLH_evaluate_gradient _ _ Hgradient).
  rewrite (run_LLH_evaluate_llh _ _ Hstatus).
  destruct (Z.ltb_spec status 0); [lia|].
  py_unfold. by py_get.
Qed.

Lemma run_evaluate_hesse_matrix_no_A :
  StandardLLH.evaluate_hesse_matrix f self
  = (Raise (AttributeError "A"), self).
Proof.
  unfold StandardLLH.evaluate_hesse_matrix.
  rewrite run_bind, (run_LLH_evaluate_hesse_matrix _ _ Hhesse).
  rewrite (run_LLH_evaluate_llh _ _ Hstatus).
  destruct (Z.ltb_spec status 0); [lia|].
  py_unfold. by py_get.
Qed.

End DerivativesWithoutA.

(** C7, as the code has it.  [StandardLLH.initialize] sets
    [gradient_defined] and [hesse_matrix_defined] to true when the model is
    an instance of [LinearModel] and leaves them as they were otherwise: it
    never sets them to false.  So after an initialization with a model,
    from an instance on which the flags were [gradient_defined0] and
    [hesse_matrix_defined0], each flag is true if and only if the model is
    linear or the flag was true before; on a new instance, where both were
    false, if and only if the model is linear.  A derivative call fails
    with the not-implemented error exactly when its flag is false after
    the initialization, and passes the checks of [LLH] when it is true. *)
Theorem initialize_sets_capability_flags
    (self0 : instance) (gradient_defined0 hesse_matrix_defined0 : bool)
    (vec_g : vec) (model : Model) (tau : R) (C : matrix)
    (N_prior neg_llh : bool) :
  self0 !! "gradient_defined" = Some (VBool gradient_defined0) →
  self0 !! "hesse_matrix_defined" = Some (VBool hesse_matrix_defined0) →
  isinstance model ModelClass = true →
  let gradient_defined :=
    isinstance model LinearModelClass || gradient_defined0 in
  let hesse_matrix_defined :=
    isinstance model LinearModelClass || hesse_matrix_defined0 in
  ∃ self : instance,
    StandardLLH.initialize vec_g model tau C N_prior neg_llh self0
      = (Ret tt, self)
    ∧ self !! "gradient_defined" = Some (VBool gradient_defined)
    ∧ self !! "hesse_matrix_defined" = Some (VBool hesse_matrix_defined)
    ∧ LLH.evaluate_gradient self
      = (if gradient_defined then Ret tt
         else Raise (NotImplementedError "Gradients are not implemented!"),
         self)
    ∧ LLH.evaluate_hesse_matrix self
      = (if hesse_matrix_defined then Ret tt
         else Raise (NotImplementedError "Hesse Matrix is not implemented!"),
         self)
    ∧ (gradient_defined = false →
       ∀ f : vec,
         StandardLLH.evaluate_gradient f self
         = (Raise (NotImplementedError "Gradients are not implemented!"),
            self))
    ∧ (hesse_matrix_defined = false →
       ∀ f : vec,
         StandardLLH.evaluate_hesse_matrix f self
         = (Raise (NotImplementedError "Hesse Matrix is not implemented!"),
            self)).
Proof.
  intros Hg0 Hh0 HModel gradient_defined hesse_matrix_defined.
  eexists. rewrite initialize_run, HModel.
  split; [reflexivity|].
  assert (Hs : after_initialize self0 vec_g model tau C N_prior neg_llh
                 !! "status" = Some (VInt 0))
    by apply after_initialize_status.
  assert (Hg : after_initialize self0 vec_g model tau C N_prior neg_llh
                 !! "gradient_defined" = Some (VBool gradient_defined)).
  { rewrite after_initialize_gradient_defined, Hg0.
    subst gradient_defined. by destruct (isinstance model LinearModelClass). }
  assert (Hh : after_initialize self0 vec_g model tau C N_prior neg_llh
                 !! "hesse_matrix_defined"
               = Some (VBool hesse_matrix_defined)).
  { rewrite after_initialize_hesse_matrix_defined, Hh0.
    subst hesse_matrix_defined.
    by destruct (isinstance model LinearModelClass). }
  split; [done|]. split; [done|].
  unfold StandardLLH.evaluate_gradient, StandardLLH.evaluate_hesse_matrix.
  rewrite (run_LLH_evaluate_gradient _ _ Hg),
    (run_LLH_evaluate_hesse_matrix _ _ Hh), (run_LLH_evaluate_llh _ _ Hs).
  change (0 <? 0) with false. cbv iota.
  split; [by destruct gradient_defined|].
  split; [by destruct hesse_matrix_defined|].
  split.
  - intros Hfalse f.
    by rewrite run_bind, (run_LLH_evaluate_gradient _ _ Hg), Hfalse.
  - intros Hfalse f.
    by rewrite run_bind, (run_LLH_evaluate_hesse_matrix _ _ Hh), Hfalse.
Qed.

Lemma initialize_sets_capability_flags_witness :
  let self0 := new StandardLLH.__init__ in
  let model := nonlinear_model 3 in
  ∃ self : instance,
    StandardLLH.initialize [1; 2; 3]%R model 1%R [] false true self0
      = (Ret tt, self)
    ∧ self !! "gradient_defined" = Some (VBool false)
    ∧ self !! "hesse_matrix_defined" = Some (VBool false)
    ∧ LLH.evaluate_gradient self
      = (Raise (NotImplementedError "Gradients are not implemented!"), self)
    ∧ LLH.evaluate_hesse_matrix self
      = (Raise (NotImplementedError "Hesse Matrix is not implemented!"),
         self)
    ∧ (∀ f : vec,
         StandardLLH.evaluate_gradient f self
         = (Raise (NotImplementedError "Gradients are not implemented!"),
            self))
    ∧ (∀ f : vec,
         StandardLLH.evaluate_hesse_matrix f self
         = (Raise (NotImplementedError "Hesse Matrix is not implemented!"),
            self)).
Proof.
  intros self0 model.
  destruct (initialize_sets_capability_flags self0 false false [1; 2; 3]%R
              model 1%R [] false true)
    as (self & Hrun & Hg & Hh & HLg & HLh & HSg & HSh).
  - apply new_gradient_defined.
  - apply new_hesse_matrix_defined.
  - reflexivity.
  - exists self. repeat split; [exact Hrun|exact Hg|exact Hh|exact HLg
      |exact HLh|exact (HSg eq_refl)|exact (HSh eq_refl)].
Defined.

(** The statement of C7 fails on an instance that had been set up with a
    linear model before: after [initialize] with the identity response on
    two bins and then [initialize] with a model that is not linear, both
    flags are true although the model is not an instance of [LinearModel],
    and the derivative calls do not fail with the not-implemented error
    (they pass the checks and fail on [self.model.A]). *)
Lemma initialize_after_linear_model_counterexample :
  let self0 := new StandardLLH.__init__ in
  let linear := linear_model [[1; 0]; [0; 1]]%R in
  let nonlinear := nonlinear_model 2 in
  let self1 :=
    (StandardLLH.initialize [1; 2]%R linear 1%R [] false true self0).2 in
  let self2 :=
    (StandardLLH.initialize [1; 2]%R nonlinear 1%R [] false true self1).2 in
  (StandardLLH.initialize [1; 2]%R linear 1%R [] false true self0).1
    = Ret tt
  ∧ (StandardLLH.initialize [1; 2]%R nonlinear 1%R [] false true self1).1
    = Ret tt
  ∧ ¬ (self2 !! "gradient_defined" = Some (VBool true)
       ↔ isinstance nonlinear LinearModelClass = true)
  ∧ ¬ (self2 !! "hesse_matrix_defined" = Some (VBool true)
       ↔ isinstance nonlinear LinearModelClass = true)
  ∧ (StandardLLH.evaluate_gradient [1; 2]%R self2).1
    ≠ Raise (NotImplementedError "Gradients are not implemented!")
  ∧ (StandardLLH.evaluate_hesse_matrix [1; 2]%R self2).1
    ≠ Raise (NotImplementedError "Hesse Matrix is not implemented!").
Proof.
  intros self0 linear nonlinear self1 self2.
  subst self1 self2. rewrite !initialize_run.
  change (isinstance linear ModelClass) with true.
  change (isinstance nonlinear ModelClass) with true. cbv iota.
  cbn [fst snd].
  set (self1 := after_initialize self0 [1; 2]%R linear 1%R [] false true).
  set (self2 := after_initialize self1 [1; 2]%R nonlinear 1%R [] false true).
  assert (Hg : self2 !! "gradient_defined" = Some (VBool true)).
  { subst self2 self1.
    by rewrite !after_initialize_gradient_defined. }
  assert (Hh : self2 !! "hesse_matrix_defined" = Some (VBool true)).
  { subst self2 self1.
    by rewrite !after_initialize_hesse_matrix_defined. }
  assert (Hs : self2 !! "status" = Some (VInt 0))
    by apply after_initialize_status.
  assert (Hm : self2 !! "model" = Some (VObject nonlinear))
    by apply after_initialize_model.
  split; [done|]. split; [done|].
  split; [intros [H _]; by specialize (H Hg)|].
  split; [intros [H _]; by specialize (H Hh)|].
  rewrite (run_evaluate_gradient_no_A self2 nonlinear [1; 2]%R
             [1; 2]%R [1; 2]%R [1; 2]%R 0) by done.
  rewrite (run_evaluate_hesse_matrix_no_A self2 nonlinear [1; 2]%R
             [1; 2]%R [1; 2]%R [1; 2]%R 0) by done.
  by split.
Qed.

(** ** A failed [initialize] *)

(** C10.  When [initialize] is called on a new instance with an object
    that is not an instance of [Model], it raises [ValueError], but the
    status is already 0: a later [evaluate_llh] passes the status check of
    [LLH.evaluate_llh] and fails on the missing attribute [model] instead
    of failing with the error that asks to run [initialize] first. *)
Theorem failed_initialize_sets_status
    (vec_g : vec) (model : Model) (tau : R) (C : matrix)
    (N_prior neg_llh : bool) (f : vec) :
  isinstance model ModelClass = false →
  ∃ self : instance,
    StandardLLH.initialize vec_g model tau C N_prior neg_llh
      (new StandardLLH.__init__)
      = (Raise (ValueError "'model' has to be of type Model!"), self)
    ∧ (new StandardLLH.__init__) !! "status" = Some (VInt (-1))
    ∧ self !! "status" = Some (VInt 0)
    ∧ LLH.evaluate_llh self = (Ret tt, self)
    ∧ StandardLLH.evaluate_llh f self
      = (Raise (AttributeError "model"), self).
Proof.
  intros HModel. eexists. rewrite initialize_run, HModel.
  split; [reflexivity|]. split; [apply new_status|].
  set (self := insert _ _ _).
  assert (Hs : self !! "status" = Some (VInt 0)) by (subst self; attr_lookup).
  assert (Hm : self !! "model" = None).
  { subst self. unfold StandardLLH.__init__. rewrite new_LLH. attr_lookup. }
  clearbody self.
  split; [done|].
  split; [by rewrite (run_LLH_evaluate_llh _ _ Hs)|].
  unfold StandardLLH.evaluate_llh.
  rewrite run_bind, (run_LLH_evaluate_llh _ _ Hs).
  destruct (Z.ltb_spec 0 0); [lia|].
  py_unfold. by py_get.
Qed.

Lemma failed_initialize_sets_status_witness :
  isinstance not_a_model ModelClass = false
  ∧ ∃ self : instance,
      StandardLLH.initialize [1; 2; 3]%R not_a_model 1%R [] false true
        (new StandardLLH.__init__)
        = (Raise (ValueError "'model' has to be of type Model!"), self)
      ∧ (new StandardLLH.__init__) !! "status" = Some (VInt (-1))
      ∧ self !! "status" = Some (VInt 0)
      ∧ LLH.evaluate_llh self = (Ret tt, self)
      ∧ StandardLLH.evaluate_llh [1; 2; 3]%R self
        = (Raise (AttributeError "model"), self).
Proof.
  split; [reflexivity|].
  apply (failed_initialize_sets_status [1; 2; 3]%R not_a_model 1%R [] false
           true [1; 2; 3]%R).
  reflexivity.
Defined.

(** ** An initialised instance has no attribute [g] *)

Section Initialised.

Context (vec_g : vec) (model : Model) (tau : R) (C : matrix)
  (N_prior neg_llh : bool) (f g_est f' f_reg : vec).

Let self :=
  after_initialize (new StandardLLH.__init__) vec_g model tau C N_prior
    neg_llh.

Hypothesis Hevaluate : evaluate model f = Ret (g_est, f', f_reg).

Lemma initialised_g : self !! "g" = None.
Proof. subst self. by rewrite after_initialize_g, new_g. Qed.

Lemma initialised_evaluate_llh_feasible :
  np.any_lt0 g_est || np.any_lt0 f' = false →
  StandardLLH.evaluate_llh f self = (Raise (AttributeError "g"), self).
Proof.
  intros Hguard.
  eapply run_evaluate_llh_feasible_no_g with (status := 0);
    [apply after_initialize_status|done|apply after_initialize_model
    |exact Hevaluate|apply initialised_g|exact Hguard].
Qed.

Context (a : matrix).
Hypothesis Hlinear : isinstance model LinearModelClass = true.
Hypothesis HA : A model = Some a.

Lemma initialised_gradient_defined :
  self !! "gradient_defined" = Some (VBool true).
Proof. subst self. by rewrite after_initialize_gradient_defined, Hlinear. Qed.

Lemma initialised_hesse_matrix_defined :
  self !! "hesse_matrix_defined" = Some (VBool true).
Proof.
  subst self. by rewrite after_initialize_hesse_matrix_defined, Hlinear.
Qed.

Lemma initialised_evaluate_gradient :
  StandardLLH.evaluate_gradient f self = (Raise (AttributeError "g"), self).
Proof.
  eapply run_evaluate_gradient_no_g with (status := 0);
    [apply after_initialize_status|done|apply initialised_gradient_defined
    |apply after_initialize_model|exact HA|exact Hevaluate
    |apply initialised_g].
Qed.

Lemma initialised_evaluate_hesse_matrix :
  StandardLLH.evaluate_hesse_matrix f self
  = (Raise (AttributeError "g"), self).
Proof.
  eapply run_evaluate_hesse_matrix_no_g with (status := 0);
    [apply after_initialize_status|done
    |apply initialised_hesse_matrix_defined
    |apply after_initialize_model|exact HA|exact Hevaluate
    |apply initialised_g].
Qed.

End Initialised.

(** ** Worked examples *)

(** [py_run] executes a method on concrete arrays. *)
Ltac py_unfold_all :=
  cbv beta iota zeta delta
    [mbind mret py_bind_inst py_ret_inst py_bind py_ret raise lift
     setattr as_int as_bool as_float as_array1 as_array2 as_object
     attr_A call_evaluate
     LLHThikonovForLoops.forward LLHThikonovForLoops.self_A
     LLHThikonovForLoops.self_A_at LLHThikonovForLoops.self_C_at
     LLHThikonovForLoops.self_g_at].

Ltac py_run := repeat progress (py_unfold_all; py_get; cbn).

Ltac ln_one :=
  repeat match goal with
    | |- context [ln ?x] =>
        lazymatch x with
        | 1%R => fail
        | _ => replace x with 1%R by lra
        end
    end;
  rewrite ?ln_1.

Lemma lt0_nonneg (x : R) : (0 <= x)%R → np.lt0 x = false.
Proof. intros H. unfold np.lt0. destruct (Rlt_dec x 0); [lra|done]. Qed.

Ltac no_negative := cbn; rewrite !lt0_nonneg by lra; cbn [orb].

Lemma create_C_thikonov_3 : create_C_thikonov 3 = Ret thikonov_3.
Proof. cbn. unfold thikonov_3. repeat f_equal; lra. Qed.

Section Examples.
Local Open Scope R_scope.

(** The spec's scenario with four bins: the candidate is feasible and
    [evaluate_llh] raises all the same. *)
Lemma identity_4_feasible :
  ∃ g_est : vec,
    evaluate (linear_model identity_4) [10; 12; 9; 11]
      = Ret (g_est, [10; 12; 9; 11], [10; 12; 9; 11])
    ∧ Forall (λ x, 0 < x) g_est
    ∧ np.any_lt0 g_est || np.any_lt0 [10; 12; 9; 11] = false.
Proof.
  eexists. split; [by cbn|]. split.
  - repeat (apply Forall_cons; split; [lra|]). apply Forall_nil_2.
  - by no_negative.
Qed.

Lemma response_4x3_feasible :
  ∃ g_est : vec,
    evaluate (linear_model response_4x3) [1; 1; 1]
      = Ret (g_est, [1; 1; 1], [1; 1; 1])
    ∧ Forall (λ x, 0 < x) g_est
    ∧ np.any_lt0 g_est || np.any_lt0 [1; 1; 1] = false.
Proof.
  eexists. split; [by cbn|]. split.
  - repeat (apply Forall_cons; split; [lra|]). apply Forall_nil_2.
  - by no_negative.
Qed.

(** The reference objective on four observed and three true bins. *)
Section Reference.

Context (self : instance).
Hypothesis Hmodel :
  self !! "linear_model" = Some (VObject (linear_model response_4x3)).
Hypothesis Hg : self !! "g" = Some (VArray1 [2; 1; 1; 1]).
Hypothesis Htau : self !! "tau" = Some (VFloat 1).
Hypothesis HC : self !! "C" = Some (VArray2 thikonov_3).

Lemma reference_evaluate_llh :
  LLHThikonovForLoops.evaluate_llh [1; 1; 1] self = (Ret (-4), self).
Proof.
  unfold LLHThikonovForLoops.evaluate_llh. py_run.
  do 2 f_equal. ln_one. lra.
Qed.

Lemma reference_evaluate_gradient :
  LLHThikonovForLoops.evaluate_gradient [1; 1; 1] self
  = (Ret [1; 0; 0], self).
Proof.
  unfold LLHThikonovForLoops.evaluate_gradient. py_run.
  repeat f_equal; lra.
Qed.

End Reference.

Lemma reference_init :
  ∃ self : instance,
    LLHThikonovForLoops.__init__ [2; 1; 1; 1] (linear_model response_4x3) 1 ∅
      = (Ret tt, self)
    ∧ self !! "linear_model" = Some (VObject (linear_model response_4x3))
    ∧ self !! "g" = Some (VArray1 [2; 1; 1; 1])
    ∧ self !! "tau" = Some (VFloat 1)
    ∧ self !! "C" = Some (VArray2 thikonov_3).
Proof.
  unfold LLHThikonovForLoops.__init__.
  change (isinstance (linear_model response_4x3) LinearModelClass) with true.
  py_unfold. cbn [negb A linear_model]. py_get.
  change (Z.to_nat (Z.of_nat (np.shape response_4x3).2)) with 3%nat.
  rewrite create_C_thikonov_3.
  eexists. split; [reflexivity|].
  repeat split; attr_lookup.
Qed.

End Examples.

Section AssignedG.
Local Open Scope R_scope.

(** The production objective on the same response, once the caller has
    assigned the attribute [g] that the methods read. *)
Context (self : instance) (factor : R).
Hypothesis Hstatus : self !! "status" = Some (VInt 0).
Hypothesis Hgradient : self !! "gradient_defined" = Some (VBool true).
Hypothesis Hmodel :
  self !! "model" = Some (VObject (linear_model response_4x3)).
Hypothesis Hg : self !! "g" = Some (VArray1 [2; 1; 1; 1]).
Hypothesis Htau : self !! "tau" = Some (VFloat 1).
Hypothesis HC : self !! "C" = Some (VArray2 thikonov_3).
Hypothesis Hfactor : self !! "factor" = Some (VFloat factor).
Hypothesis HN_prior : self !! "N_prior" = Some (VBool false).

Lemma assigned_g_evaluate_llh :
  StandardLLH.evaluate_llh [1; 1; 1] self
  = (Ret (np.fin (4 * factor)), self).
Proof.
  unfold StandardLLH.evaluate_llh.
  rewrite run_bind, (run_LLH_evaluate_llh _ _ Hstatus).
  py_run.
  no_negative. py_run.
  do 3 f_equal. ln_one. lra.
Qed.

Lemma assigned_g_evaluate_gradient :
  StandardLLH.evaluate_gradient [1; 1; 2] self
  = (Ret [-1 + factor; -3 * factor; 1 / 2 + 2 * factor], self).
Proof.
  unfold StandardLLH.evaluate_gradient.
  rewrite run_bind, (run_LLH_evaluate_gradient _ _ Hgradient).
  rewrite (run_LLH_evaluate_llh _ _ Hstatus).
  py_run. repeat f_equal; lra.
Qed.

End AssignedG.

Section Disagreement.
Local Open Scope R_scope.

(** The instance the examples use: set up by [initialize] on the response
    with four observed and three true bins, with either sign convention,
    and the same instance after the caller has assigned [g]. *)
Context (neg_llh : bool).

Let standard : instance :=
  after_initialize (new StandardLLH.__init__) [2; 1; 1; 1]
    (linear_model response_4x3) 1 thikonov_3 false neg_llh.

Let factor : R := if neg_llh then 1 else -1.

Lemma standard_initialize :
  StandardLLH.initialize [2; 1; 1; 1] (linear_model response_4x3) 1
    thikonov_3 false neg_llh (new StandardLLH.__init__)
  = (Ret tt, standard).
Proof. by rewrite initialize_run. Qed.

Lemma response_4x3_feasible_2 :
  ∃ g_est : vec,
    evaluate (linear_model response_4x3) [1; 1; 2]
      = Ret (g_est, [1; 1; 2], [1; 1; 2])
    ∧ Forall (λ x, 0 < x) g_est
    ∧ np.any_lt0 g_est || np.any_lt0 [1; 1; 2] = false.
Proof.
  eexists. split; [by cbn|]. split.
  - repeat (apply Forall_cons; split; [lra|]). apply Forall_nil_2.
  - by no_negative.
Qed.

Lemma standard_raises (f g_est : vec) :
  evaluate (linear_model response_4x3) f = Ret (g_est, f, f) →
  np.any_lt0 g_est || np.any_lt0 f = false →
  (StandardLLH.evaluate_llh f standard).1 = Raise (AttributeError "g")
  ∧ (StandardLLH.evaluate_gradient f standard).1
    = Raise (AttributeError "g")
  ∧ (StandardLLH.evaluate_hesse_matrix f standard).1
    = Raise (AttributeError "g").
Proof.
  intros Hev Hguard. subst standard.
  erewrite initialised_evaluate_llh_feasible by done.
  erewrite initialised_evaluate_gradient by done.
  by erewrite initialised_evaluate_hesse_matrix by done.
Qed.

Let assigned_g : instance := <["g" := VArray1 [2; 1; 1; 1]]> standard.

Lemma assigned_g_llh :
  (StandardLLH.evaluate_llh [1; 1; 1] assigned_g).1
  = Ret (np.fin (4 * factor)).
Proof.
  subst assigned_g standard factor.
  erewrite assigned_g_evaluate_llh; [done|..];
    try (rewrite lookup_insert_ne by done).
  - apply after_initialize_status.
  - apply after_initialize_model.
  - apply lookup_insert_eq.
  - apply after_initialize_tau.
  - apply after_initialize_C.
  - apply after_initialize_factor.
  - apply after_initialize_N_prior.
Qed.

Lemma assigned_g_gradient :
  (StandardLLH.evaluate_gradient [1; 1; 2] assigned_g).1
  = Ret [-1 + factor; -3 * factor; 1 / 2 + 2 * factor].
Proof.
  subst assigned_g standard factor.
  erewrite assigned_g_evaluate_gradient; [done|..];
    try (rewrite lookup_insert_ne by done).
  - apply after_initialize_status.
  - by apply initialised_gradient_defined.
  - apply after_initialize_model.
  - apply lookup_insert_eq.
  - apply after_initialize_tau.
  - apply after_initialize_C.
  - apply after_initialize_factor.
Qed.

End Disagreement.

(** ** Where the code departs from the specification *)

(** C1 (the code does not do this).  In the spec's scenario with four bins,
    the identity response, the counts [10, 12, 9, 11], [tau = 0] and these
    counts as the candidate, [g_est] and [f] have no negative component,
    and yet [evaluate_llh] does not return the value the specification
    gives: it raises [AttributeError], because it reads [self.g] where
    [initialize] has stored the counts as [self.vec_g]. *)
Theorem evaluate_llh_feasible_raises (C : matrix) :
  ∃ (self : instance) (g_est : vec),
    StandardLLH.initialize [10; 12; 9; 11]%R (linear_model identity_4) 0%R C
      false true (new StandardLLH.__init__) = (Ret tt, self)
    ∧ evaluate (linear_model identity_4) [10; 12; 9; 11]%R
      = Ret (g_est, [10; 12; 9; 11]%R, [10; 12; 9; 11]%R)
    ∧ np.any_lt0 g_est || np.any_lt0 [10; 12; 9; 11]%R = false
    ∧ StandardLLH.evaluate_llh [10; 12; 9; 11]%R self
      = (Raise (AttributeError "g"), self).
Proof.
  destruct identity_4_feasible as (g_est & Hev & _ & Hguard).
  eexists. exists g_est. rewrite initialize_run.
  split; [reflexivity|]. split; [done|]. split; [done|].
  by eapply initialised_evaluate_llh_feasible.
Qed.

(** C8 (the code does not do this).  On an instance set up with a linear
    model and a candidate with all-positive [g_est], whatever [tau], [C]
    and the two flags, [evaluate_hesse_matrix] does not return the matrix
    the specification gives: it raises [AttributeError] on [self.g]. *)
Theorem evaluate_hesse_matrix_raises
    (tau : R) (C : matrix) (N_prior neg_llh : bool) :
  ∃ (self : instance) (g_est : vec),
    StandardLLH.initialize [2; 1; 1; 1]%R (linear_model response_4x3) tau C
      N_prior neg_llh (new StandardLLH.__init__) = (Ret tt, self)
    ∧ evaluate (linear_model response_4x3) [1; 1; 1]%R
      = Ret (g_est, [1; 1; 1]%R, [1; 1; 1]%R)
    ∧ Forall (λ x, (0 < x)%R) g_est
    ∧ StandardLLH.evaluate_hesse_matrix [1; 1; 1]%R self
      = (Raise (AttributeError "g"), self).
Proof.
  destruct response_4x3_feasible as (g_est & Hev & Hpos & _).
  eexists. exists g_est. rewrite initialize_run.
  split; [reflexivity|]. split; [done|]. split; [done|].
  by eapply initialised_evaluate_hesse_matrix.
Qed.

(** C2 (the code does not do this).  On a linear model with four observed
    and three true bins, the matrix of [create_C_thikonov(3)], [tau = 1]
    and a candidate with all-positive [g_est] and [f], the three methods of
    the vectorized objective raise [AttributeError] where the reference
    returns -4 and the gradient (1, 0, 0); and once the caller has assigned
    [g], the vectorized value is 4, the opposite of the reference, which
    returns [reg_part - poisson_part] for the same [poisson_part]. *)
Theorem vectorized_and_reference_disagree :
  ∃ (standard reference : instance) (g_est : vec),
    (create_C_thikonov 3 = Ret thikonov_3
     ∧ StandardLLH.initialize [2; 1; 1; 1]%R (linear_model response_4x3) 1%R
         thikonov_3 false true (new StandardLLH.__init__) = (Ret tt, standard)
     ∧ LLHThikonovForLoops.__init__ [2; 1; 1; 1]%R
         (linear_model response_4x3) 1%R ∅ = (Ret tt, reference))
    ∧ (evaluate (linear_model response_4x3) [1; 1; 1]%R
         = Ret (g_est, [1; 1; 1]%R, [1; 1; 1]%R)
       ∧ Forall (λ x, (0 < x)%R) g_est)
    ∧ ((StandardLLH.evaluate_llh [1; 1; 1]%R standard).1
         = Raise (AttributeError "g")
       ∧ (StandardLLH.evaluate_gradient [1; 1; 1]%R standard).1
         = Raise (AttributeError "g")
       ∧ (StandardLLH.evaluate_hesse_matrix [1; 1; 1]%R standard).1
         = Raise (AttributeError "g"))
    ∧ ((LLHThikonovForLoops.evaluate_llh [1; 1; 1]%R reference).1
         = Ret (-4)%R
       ∧ (LLHThikonovForLoops.evaluate_gradient [1; 1; 1]%R reference).1
         = Ret [1; 0; 0]%R)
    ∧ (StandardLLH.evaluate_llh [1; 1; 1]%R
         (<["g" := VArray1 [2; 1; 1; 1]%R]> standard)).1
      = Ret (np.fin 4).
Proof.
  destruct response_4x3_feasible as (g_est & Hev & Hpos & Hguard).
  destruct reference_init as (reference & Hinit & Hm & Hg & Htau & HC).
  eexists. exists reference, g_est.
  split.
  { split; [apply create_C_thikonov_3|].
    split; [apply (standard_initialize true)|exact Hinit]. }
  split; [done|].
  split; [by apply standard_raises with (g_est := g_est)|].
  split.
  { by rewrite reference_evaluate_llh, reference_evaluate_gradient. }
  rewrite (assigned_g_llh true). do 2 f_equal. lra.
Qed.

(** C5 (the code does not do this).  Two instances set up alike but for
    [neg_llh], and a feasible candidate: as set up, no call returns, each
    raises [AttributeError] on [self.g]; and once the caller has assigned
    [g], the gradient is (0, -3, 5/2) with [neg_llh] true and
    (-2, 3, -3/2) with [neg_llh] false, which is not its negation, because
    [evaluate_gradient] multiplies only the regularization term by the
    factor. *)
Theorem neg_llh_flip_does_not_negate :
  ∃ (self_neg self_pos : instance) (g_est : vec),
    (StandardLLH.initialize [2; 1; 1; 1]%R (linear_model response_4x3) 1%R
       thikonov_3 false true (new StandardLLH.__init__) = (Ret tt, self_neg)
     ∧ StandardLLH.initialize [2; 1; 1; 1]%R (linear_model response_4x3) 1%R
         thikonov_3 false false (new StandardLLH.__init__)
       = (Ret tt, self_pos))
    ∧ (evaluate (linear_model response_4x3) [1; 1; 2]%R
         = Ret (g_est, [1; 1; 2]%R, [1; 1; 2]%R)
       ∧ np.any_lt0 g_est || np.any_lt0 [1; 1; 2]%R = false)
    ∧ ((StandardLLH.evaluate_llh [1; 1; 2]%R self_neg).1
         = Raise (AttributeError "g")
       ∧ (StandardLLH.evaluate_gradient [1; 1; 2]%R self_neg).1
         = Raise (AttributeError "g")
       ∧ (StandardLLH.evaluate_hesse_matrix [1; 1; 2]%R self_neg).1
         = Raise (AttributeError "g"))
    ∧ ((StandardLLH.evaluate_llh [1; 1; 2]%R self_pos).1
         = Raise (AttributeError "g")
       ∧ (StandardLLH.evaluate_gradient [1; 1; 2]%R self_pos).1
         = Raise (AttributeError "g")
       ∧ (StandardLLH.evaluate_hesse_matrix [1; 1; 2]%R self_pos).1
         = Raise (AttributeError "g"))
    ∧ (StandardLLH.evaluate_gradient [1; 1; 2]%R
         (<["g" := VArray1 [2; 1; 1; 1]%R]> self_neg)).1
      = Ret [0; -3; 5 / 2]%R
    ∧ (StandardLLH.evaluate_gradient [1; 1; 2]%R
         (<["g" := VArray1 [2; 1; 1; 1]%R]> self_pos)).1
      = Ret [-2; 3; -3 / 2]%R.
Proof.
  destruct response_4x3_feasible_2 as (g_est & Hev & Hpos & Hguard).
  eexists. eexists. exists g_est.
  split.
  { split; [apply (standard_initialize true)|].
    apply (standard_initialize false). }
  split; [done|].
  split; [by apply standard_raises with (g_est := g_est)|].
  split; [by apply standard_raises with (g_est := g_est)|].
  rewrite (assigned_g_gradient true), (assigned_g_gradient false).
  split; repeat f_equal; lra.
Qed.

(** * Further properties of the code *)

(** ** The builder at small sizes, and what the penalty measures *)

Section Penalty.
Local Open Scope R_scope.

Ltac nat_case :=
  match goal with
  | |- context [(?a =? ?b)%nat] => destruct (Nat.eqb_spec a b)
  | |- context [(?a <=? ?b)%nat] => destruct (Nat.leb_spec a b)
  | |- context [(?a <? ?b)%nat] => destruct (Nat.ltb_spec a b)
  end.

Ltac nat_cases :=
  repeat (nat_case; cbn [andb orb]; try lia); try reflexivity.

Lemma lsum_pick (l : list nat) (a : nat) (v : nat → R) :
  NoDup l → a ∈ l →
  np.lsum l (λ k, if (k =? a)%nat then v k else 0) = v a.
Proof.
  induction l as [|b l IH]; intros Hnd Hin; [by apply elem_of_nil in Hin|].
  apply NoDup_cons in Hnd as [Hb Hnd]. simpl.
  destruct (Nat.eqb_spec b a) as [->|Hne].
  - rewrite (lsum_ext _ _ (λ _, 0)), lsum_zero; [lra|].
    intros i Hi. destruct (Nat.eqb_spec i a) as [->|]; [done|done].
  - apply elem_of_cons in Hin as [->|Hin]; [done|].
    rewrite IH by done. lra.
Qed.

Lemma rsum_pick (n a : nat) (v : nat → R) :
  (a < n)%nat →
  np.rsum n (λ k, if (k =? a)%nat then v k else 0) = v a.
Proof.
  intros Ha. apply lsum_pick; [apply NoDup_seq|].
  apply elem_of_seq. lia.
Qed.

Lemma rsum_plus n f g :
  np.rsum n (λ i, f i + g i) = np.rsum n f + np.rsum n g.
Proof. apply lsum_plus. Qed.

(** The rows of [D] applied to [x]. *)
Lemma second_derivative_apply (n : nat) (x : nat → R) (l : nat) :
  (2 ≤ n)%nat → (l < n)%nat →
  np.rsum n (λ k, second_derivative n l k * x k)
  = if (l =? 0)%nat then x 1%nat - x 0%nat
    else if (l =? n - 1)%nat then x (n - 2)%nat - x (n - 1)%nat
    else x (l - 1)%nat - 2 * x l + x (l + 1)%nat.
Proof.
  intros Hn Hl.
  destruct (Nat.eqb_spec l 0) as [->|Hl0].
  { rewrite (rsum_ext _ _
      (λ k, (if (k =? 0)%nat then - x k else 0)
            + (if (k =? 1)%nat then x k else 0))).
    - rewrite rsum_plus, !rsum_pick by lia. lra.
    - intros k Hk. unfold second_derivative. nat_cases; lra. }
  destruct (Nat.eqb_spec l (n - 1)) as [->|Hl1].
  { rewrite (rsum_ext _ _
      (λ k, (if (k =? n - 1)%nat then - x k else 0)
            + (if (k =? n - 2)%nat then x k else 0))).
    - rewrite rsum_plus, !rsum_pick by lia. lra.
    - intros k Hk. unfold second_derivative. nat_cases; lra. }
  rewrite (rsum_ext _ _
    (λ k, (if (k =? l)%nat then -2 * x k else 0)
          + ((if (k =? l - 1)%nat then x k else 0)
             + (if (k =? l + 1)%nat then x k else 0)))).
  - rewrite !rsum_plus, !rsum_pick by lia. lra.
  - intros k Hk. unfold second_derivative. nat_cases; lra.
Qed.

Lemma second_derivative_apply_vec (n : nat) (x : vec) (l : nat) :
  (2 ≤ n)%nat → (l < n)%nat →
  np.rsum n (λ k, second_derivative n l k * np.at1 x k)
  = second_difference n x l.
Proof.
  intros Hn Hl. rewrite second_derivative_apply by done.
  unfold second_difference. by nat_cases.
Qed.

Lemma penalty_eq (n : nat) (x : vec) :
  (2 ≤ n)%nat → length x = n →
  (C ← create_C_thikonov n; xC ← np.dot12 x C; np.dot11 xC x)
  = Ret (np.rsum n (λ l, second_difference n x l ^ 2)).
Proof.
  intros Hn Hx. rewrite create_C_thikonov_eq, res_bind_Ret by done.
  rewrite quadratic_form_gram by (done || lia). f_equal.
  rewrite gram_quadratic_form. apply rsum_ext. intros l Hl.
  by rewrite second_derivative_apply_vec.
Qed.

Lemma lsum_nonneg_zero (l : list nat) (f : nat → R) :
  (∀ i, i ∈ l → 0 <= f i) →
  np.lsum l f = 0 → ∀ i, i ∈ l → f i = 0.
Proof.
  induction l as [|a l IH]; intros Hf Hs i Hi;
    [by apply elem_of_nil in Hi|].
  simpl in Hs.
  assert (0 <= f a) by (apply Hf, elem_of_cons; by left).
  assert (0 <= np.lsum l f)
    by (apply lsum_nonneg; intros; apply Hf, elem_of_cons; by right).
  apply elem_of_cons in Hi as [->|Hi]; [lra|].
  apply IH; [|lra|done]. intros; apply Hf, elem_of_cons; by right.
Qed.

Lemma squares_zero (n : nat) (f : nat → R) :
  np.rsum n (λ l, f l ^ 2) = 0 → ∀ l, (l < n)%nat → f l = 0.
Proof.
  intros Hs l Hl.
  assert (H : f l ^ 2 = 0).
  { apply (lsum_nonneg_zero (seq 0 n) (λ l, f l ^ 2)).
    - intros; apply pow2_ge_0.
    - exact Hs.
    - apply elem_of_seq. lia. }
  nra.
Qed.

(** All second differences vanish exactly on the constant vectors. *)
Lemma second_difference_zero_constant (n : nat) (x : vec) :
  (2 ≤ n)%nat →
  (∀ l, (l < n)%nat → second_difference n x l = 0) →
  ∀ i, (i < n)%nat → np.at1 x i = np.at1 x 0.
Proof.
  intros Hn Hd.
  assert (H : ∀ i, (i + 1 < n)%nat →
            np.at1 x i = np.at1 x 0 ∧ np.at1 x (i + 1) = np.at1 x 0).
  { induction i as [|i IH]; intros Hi.
    - split; [done|]. specialize (Hd 0%nat ltac:(lia)).
      unfold second_difference in Hd. simpl in Hd. simpl. lra.
    - destruct IH as [IH0 IH1]; [lia|]. split.
      + by replace (S i) with (i + 1)%nat by lia.
      + specialize (Hd (i + 1)%nat ltac:(lia)).
        unfold second_difference in Hd.
        destruct (Nat.eqb_spec (i + 1) 0); [lia|].
        destruct (Nat.eqb_spec (i + 1) (n - 1)); [lia|].
        replace (i + 1 - 1)%nat with i in Hd by lia.
        replace (S i + 1)%nat with (i + 1 + 1)%nat by lia. lra. }
  intros i Hi. destruct i as [|i]; [done|].
  replace (S i) with (i + 1)%nat by lia. apply H. lia.
Qed.

Lemma constant_second_difference_zero (n : nat) (x : vec) :
  (2 ≤ n)%nat →
  (∀ i, (i < n)%nat → np.at1 x i = np.at1 x 0) →
  ∀ l, (l < n)%nat → second_difference n x l = 0.
Proof.
  intros Hn Hc l Hl. unfold second_difference.
  destruct (Nat.eqb_spec l 0) as [->|]; [rewrite (Hc 1%nat) by lia; lra|].
  destruct (Nat.eqb_spec l (n - 1)) as [->|].
  - rewrite (Hc (n - 2)%nat), (Hc (n - 1)%nat) by lia. lra.
  - rewrite (Hc (l - 1)%nat), (Hc l), (Hc (l + 1)%nat) by lia. lra.
Qed.

End Penalty.

(** X1.  [create_C_thikonov(n_dims)] raises [IndexError] when [n_dims] is 0
    or 1, and for every larger size it returns an [n_dims] by [n_dims]
    array. *)
Theorem create_C_thikonov_small_sizes (n_dims : nat) :
  match create_C_thikonov n_dims with
  | Ret C => (2 ≤ n_dims)%nat ∧ np.shape C = (n_dims, n_dims)
  | Raise e => (n_dims < 2)%nat ∧ e = IndexError
  end.
Proof.
  destruct (decide (2 ≤ n_dims)%nat) as [Hn|Hn].
  - rewrite create_C_thikonov_eq by done. split; [done|].
    unfold np.shape. by rewrite nrows_tabulate, ncols_tabulate by lia.
  - destruct n_dims as [|[|n]]; [by split; [lia|]..|lia].
Qed.

(** X2.  For [n >= 2] and a vector [x] of length [n], the penalty
    [xᵗ·C·x] with [C = create_C_thikonov(n)] is the sum of the squares of
    [x[1] - x[0]], of the second differences
    [x[l-1] - 2 x[l] + x[l+1]] at the interior bins, and of
    [x[n-2] - x[n-1]]. *)
Theorem penalty_is_sum_of_squared_differences (n : nat) (x : vec) :
  (2 ≤ n)%nat → length x = n →
  (C ← create_C_thikonov n; xC ← np.dot12 x C; np.dot11 xC x)
  = Ret (np.rsum n (λ l, second_difference n x l ^ 2)%R).
Proof. apply penalty_eq. Qed.

Lemma penalty_is_sum_of_squared_differences_witness :
  (C ← create_C_thikonov 3; xC ← np.dot12 [1; 3; 4]%R C;
   np.dot11 xC [1; 3; 4]%R)
  = Ret (np.rsum 3 (λ l, second_difference 3 [1; 3; 4]%R l ^ 2)%R).
Proof.
  apply (penalty_is_sum_of_squared_differences 3 [1; 3; 4]%R); [lia|done].
Defined.

(** X3.  For [n >= 2] the penalty [xᵗ·C·x] is zero exactly when all
    entries of [x] are equal: the constant spectra are the only ones the
    regularization does not penalize. *)
Theorem penalty_zero_iff_constant (n : nat) (x : vec) :
  (2 ≤ n)%nat → length x = n →
  ∃ q : R,
    (C ← create_C_thikonov n; xC ← np.dot12 x C; np.dot11 xC x) = Ret q
    ∧ (q = 0%R ↔ ∀ i, (i < n)%nat → np.at1 x i = np.at1 x 0).
Proof.
  intros Hn Hx. eexists. split; [by apply penalty_eq|]. split.
  - intros Hq. apply second_difference_zero_constant; [done|].
    by apply squares_zero.
  - intros Hc. rewrite (rsum_ext _ _ (λ _, 0%R)); [apply lsum_zero|].
    intros l Hl. rewrite constant_second_difference_zero by done. lra.
Qed.

Lemma penalty_zero_iff_constant_witness :
  ∃ q : R,
    (C ← create_C_thikonov 3; xC ← np.dot12 [5; 5; 5]%R C;
     np.dot11 xC [5; 5; 5]%R) = Ret q
    ∧ (q = 0%R
       ↔ ∀ i, (i < 3)%nat → np.at1 [5; 5; 5]%R i = np.at1 [5; 5; 5]%R 0).
Proof.
  apply (penalty_zero_iff_constant 3 [5; 5; 5]%R); [lia|done].
Defined.

(** ** More on the lifecycle *)

Section LifecycleMore.

Lemma after_initialize_idempotent self vec_g model tau C N_prior neg_llh :
  after_initialize
    (after_initialize self vec_g model tau C N_prior neg_llh)
    vec_g model tau C N_prior neg_llh
  = after_initialize self vec_g model tau C N_prior neg_llh.
Proof.
  set (self' := after_initialize self vec_g model tau C N_prior neg_llh).
  unfold after_initialize at 1. cbv zeta.
  rewrite (insert_id self' "status") by apply after_initialize_status.
  rewrite (insert_id self' "model") by apply after_initialize_model.
  rewrite (insert_id self' "n_dims_f")
    by (subst self'; unfold after_initialize;
        destruct (isinstance model LinearModelClass); attr_lookup).
  rewrite (insert_id self' "vec_g") by apply after_initialize_vec_g.
  rewrite (insert_id self' "N") by apply after_initialize_N.
  rewrite (insert_id self' "C") by apply after_initialize_C.
  rewrite (insert_id self' "tau") by apply after_initialize_tau.
  rewrite (insert_id self' "factor") by apply after_initialize_factor.
  rewrite (insert_id self' "neg_llh") by apply after_initialize_neg_llh.
  rewrite (insert_id self' "N_prior") by apply after_initialize_N_prior.
  destruct (isinstance model LinearModelClass) eqn:Hlin; [|done].
  rewrite (insert_id self' "gradient_defined").
  2:{ subst self'. by rewrite after_initialize_gradient_defined, Hlin. }
  rewrite (insert_id self' "hesse_matrix_defined"); [done|].
  subst self'. by rewrite after_initialize_hesse_matrix_defined, Hlin.
Qed.

End LifecycleMore.

(** X4.  The derivative calls test the capability flag before the status,
    on any instance: with the flag false they fail with the
    not-implemented error whatever the status, and the error that asks to
    run [initialize] first is raised only when the flag is true and the
    status negative. *)
Theorem capability_is_checked_before_status
    (self : instance) (f : vec) (gradient_defined hesse_matrix_defined : bool)
    (status : Z) :
  self !! "gradient_defined" = Some (VBool gradient_defined) →
  self !! "hesse_matrix_defined" = Some (VBool hesse_matrix_defined) →
  self !! "status" = Some (VInt status) →
  status < 0 →
  StandardLLH.evaluate_gradient f self
    = (Raise (if gradient_defined then LLH.uninitialized
              else NotImplementedError "Gradients are not implemented!"),
       self)
  ∧ StandardLLH.evaluate_hesse_matrix f self
    = (Raise (if hesse_matrix_defined then LLH.uninitialized
              else NotImplementedError "Hesse Matrix is not implemented!"),
       self).
Proof.
  intros Hg Hh Hs Hneg.
  unfold StandardLLH.evaluate_gradient, StandardLLH.evaluate_hesse_matrix.
  rewrite !run_bind, (run_LLH_evaluate_gradient _ _ Hg),
    (run_LLH_evaluate_hesse_matrix _ _ Hh), (run_LLH_evaluate_llh _ _ Hs).
  destruct (Z.ltb_spec status 0); [|lia].
  by destruct gradient_defined, hesse_matrix_defined.
Qed.

Lemma capability_is_checked_before_status_witness :
  let self :=
    <["gradient_defined" := VBool true]> (new StandardLLH.__init__) in
  StandardLLH.evaluate_gradient [1; 2]%R self
    = (Raise LLH.uninitialized, self)
  ∧ StandardLLH.evaluate_hesse_matrix [1; 2]%R self
    = (Raise (NotImplementedError "Hesse Matrix is not implemented!"), self).
Proof.
  intros self.
  apply (capability_is_checked_before_status self [1; 2]%R true false (-1)).
  - apply lookup_insert_eq.
  - subst self. rewrite lookup_insert_ne by done.
    apply new_hesse_matrix_defined.
  - subst self. rewrite lookup_insert_ne by done. apply new_status.
  - lia.
Defined.

(** X5.  [initialize] never resets the capability flags: when an instance
    set up with a linear model is set up again with a model that is not
    linear, both flags stay true and the capability and status checks of
    the derivative calls still pass. *)
Theorem capability_flags_survive_reinitialization
    (self0 self1 self2 : instance)
    (vec_g1 vec_g2 : vec) (model1 model2 : Model) (tau1 tau2 : R)
    (C1 C2 : matrix) (N_prior1 N_prior2 neg_llh1 neg_llh2 : bool) :
  isinstance model1 LinearModelClass = true →
  isinstance model2 LinearModelClass = false →
  StandardLLH.initialize vec_g1 model1 tau1 C1 N_prior1 neg_llh1 self0
    = (Ret tt, self1) →
  StandardLLH.initialize vec_g2 model2 tau2 C2 N_prior2 neg_llh2 self1
    = (Ret tt, self2) →
  self2 !! "model" = Some (VObject model2)
  ∧ self2 !! "gradient_defined" = Some (VBool true)
  ∧ self2 !! "hesse_matrix_defined" = Some (VBool true)
  ∧ LLH.evaluate_gradient self2 = (Ret tt, self2)
  ∧ LLH.evaluate_hesse_matrix self2 = (Ret tt, self2).
Proof.
  intros Hlin1 Hlin2 H1 H2. rewrite initialize_run in H1, H2.
  destruct (isinstance model1 ModelClass); [|done].
  destruct (isinstance model2 ModelClass); [|done].
  injection H1 as <-. injection H2 as <-.
  assert (Hg : after_initialize
                 (after_initialize self0 vec_g1 model1 tau1 C1 N_prior1
                    neg_llh1)
                 vec_g2 model2 tau2 C2 N_prior2 neg_llh2
               !! "gradient_defined" = Some (VBool true)).
  { by rewrite after_initialize_gradient_defined, Hlin2,
      after_initialize_gradient_defined, Hlin1. }
  assert (Hh : after_initialize
                 (after_initialize self0 vec_g1 model1 tau1 C1 N_prior1
                    neg_llh1)
                 vec_g2 model2 tau2 C2 N_prior2 neg_llh2
               !! "hesse_matrix_defined" = Some (VBool true)).
  { by rewrite after_initialize_hesse_matrix_defined, Hlin2,
      after_initialize_hesse_matrix_defined, Hlin1. }
  split; [apply after_initialize_model|].
  split; [done|]. split; [done|].
  rewrite (run_LLH_evaluate_gradient _ _ Hg),
    (run_LLH_evaluate_hesse_matrix _ _ Hh).
  by rewrite (run_LLH_evaluate_llh _ 0) by apply after_initialize_status.
Qed.

Lemma capability_flags_survive_reinitialization_witness :
  ∃ self1 self2 : instance,
    StandardLLH.initialize [1; 2]%R (linear_model [[1; 0]; [0; 1]]%R) 1%R []
      false true (new StandardLLH.__init__) = (Ret tt, self1)
    ∧ StandardLLH.initialize [1; 2]%R (nonlinear_model 2) 1%R [] false true
        self1 = (Ret tt, self2)
    ∧ self2 !! "model" = Some (VObject (nonlinear_model 2))
    ∧ self2 !! "gradient_defined" = Some (VBool true)
    ∧ self2 !! "hesse_matrix_defined" = Some (VBool true)
    ∧ LLH.evaluate_gradient self2 = (Ret tt, self2)
    ∧ LLH.evaluate_hesse_matrix self2 = (Ret tt, self2).
Proof.
  eexists. eexists.
  split; [by rewrite initialize_run|].
  split; [by rewrite initialize_run|].
  eapply (capability_flags_survive_reinitialization
            (new StandardLLH.__init__) _ _ [1; 2]%R [1; 2]%R
            (linear_model [[1; 0]; [0; 1]]%R) (nonlinear_model 2)
            1%R 1%R [] [] false false true true).
  - reflexivity.
  - reflexivity.
  - by rewrite initialize_run.
  - by rewrite initialize_run.
Defined.

(** X6.  A second [initialize] with the same arguments changes nothing:
    it returns and leaves every attribute as the first call left it. *)
Theorem initialize_twice_is_initialize_once
    (self self1 : instance) (vec_g : vec) (model : Model) (tau : R)
    (C : matrix) (N_prior neg_llh : bool) :
  StandardLLH.initialize vec_g model tau C N_prior neg_llh self
    = (Ret tt, self1) →
  StandardLLH.initialize vec_g model tau C N_prior neg_llh self1
    = (Ret tt, self1).
Proof.
  intros H. rewrite initialize_run in H. rewrite initialize_run.
  destruct (isinstance model ModelClass); [|done].
  injection H as <-. by rewrite after_initialize_idempotent.
Qed.

Lemma initialize_twice_is_initialize_once_witness :
  ∃ self1 : instance,
    StandardLLH.initialize [1; 2]%R (linear_model [[1; 0]; [0; 1]]%R) 1%R []
      false true (new StandardLLH.__init__) = (Ret tt, self1)
    ∧ StandardLLH.initialize [1; 2]%R (linear_model [[1; 0]; [0; 1]]%R) 1%R
        [] false true self1 = (Ret tt, self1).
Proof.
  eexists. split; [by rewrite initialize_run|].
  apply (initialize_twice_is_initialize_once (new StandardLLH.__init__)).
  by rewrite initialize_run.
Defined.

(** X7.  When [initialize] is called on an instance that is set up already
    with an object that is not a [Model], it raises [ValueError] and the
    instance keeps every attribute, so that it goes on working with the
    earlier configuration. *)
Theorem failed_reinitialization_changes_nothing
    (self : instance) (vec_g : vec) (model : Model) (tau : R)
    (C : matrix) (N_prior neg_llh : bool) :
  self !! "status" = Some (VInt 0) →
  isinstance model ModelClass = false →
  StandardLLH.initialize vec_g model tau C N_prior neg_llh self
  = (Raise (ValueError "'model' has to be of type Model!"), self).
Proof.
  intros Hs Hm. rewrite initialize_run, Hm. by rewrite insert_id.
Qed.

Lemma failed_reinitialization_changes_nothing_witness :
  ∃ self : instance,
    StandardLLH.initialize [1; 2]%R (linear_model [[1; 0]; [0; 1]]%R) 1%R []
      false true (new StandardLLH.__init__) = (Ret tt, self)
    ∧ StandardLLH.initialize [3; 4]%R not_a_model 2%R [] true false self
      = (Raise (ValueError "'model' has to be of type Model!"), self).
Proof.
  eexists. split; [by rewrite initialize_run|].
  apply failed_reinitialization_changes_nothing.
  - apply after_initialize_status.
  - reflexivity.
Defined.

(** X8.  An exception of the model's [evaluate] is not caught: on an
    instance that passes the checks, each of the three evaluations raises
    the very exception the model raised and leaves the instance as it
    was. *)
Theorem model_exceptions_propagate
    (self : instance) (model : Model) (f : vec) (e : exn) (status : Z) :
  self !! "status" = Some (VInt status) →
  0 ≤ status →
  self !! "gradient_defined" = Some (VBool true) →
  self !! "hesse_matrix_defined" = Some (VBool true) →
  self !! "model" = Some (VObject model) →
  evaluate model f = Raise e →
  StandardLLH.evaluate_llh f self = (Raise e, self)
  ∧ StandardLLH.evaluate_gradient f self = (Raise e, self)
  ∧ StandardLLH.evaluate_hesse_matrix f self = (Raise e, self).
Proof.
  intros Hs Hpos Hg Hh Hm Hev.
  unfold StandardLLH.evaluate_llh, StandardLLH.evaluate_gradient,
    StandardLLH.evaluate_hesse_matrix.
  rewrite !run_bind, (run_LLH_evaluate_gradient _ _ Hg),
    (run_LLH_evaluate_hesse_matrix _ _ Hh), (run_LLH_evaluate_llh _ _ Hs).
  destruct (Z.ltb_spec status 0); [lia|].
  py_unfold. by py_get.
Qed.

Lemma model_exceptions_propagate_witness :
  ∃ self : instance,
    StandardLLH.initialize [1; 2]%R (linear_model [[1; 0]; [0; 1]]%R) 1%R []
      false true (new StandardLLH.__init__) = (Ret tt, self)
    ∧ StandardLLH.evaluate_llh [1; 2; 3]%R self
      = (Raise np.shape_error, self)
    ∧ StandardLLH.evaluate_gradient [1; 2; 3]%R self
      = (Raise np.shape_error, self)
    ∧ StandardLLH.evaluate_hesse_matrix [1; 2; 3]%R self
      = (Raise np.shape_error, self).
Proof.
  eexists. split; [by rewrite initialize_run|].
  apply (model_exceptions_propagate _ (linear_model [[1; 0]; [0; 1]]%R)
           [1; 2; 3]%R np.shape_error 0).
  - apply after_initialize_status.
  - lia.
  - by apply initialised_gradient_defined.
  - by apply initialised_hesse_matrix_defined.
  - apply after_initialize_model.
  - reflexivity.
Defined.

(** ** Array operations on arrays given by their entries *)

Section Arrays.
Local Open Scope R_scope.
Local Open Scope nat_scope.

Implicit Types (F G : nat → R) (v : vec) (a : matrix).

Lemma vec_tab v : v = np.at1 v <$> seq 0 (length v).
Proof.
  apply list_eq. intros i. destruct (decide (i < length v)) as [Hi|Hi].
  - rewrite lookup_fmap_seq by done. unfold np.at1.
    destruct (lookup_lt_is_Some_2 v i Hi) as [x ->]. done.
  - rewrite list_lookup_fmap, lookup_seq_ge by lia.
    apply lookup_ge_None. lia.
Qed.

Lemma length_tab {A : Type} (h : nat → A) n : length (h <$> seq 0 n) = n.
Proof. by rewrite length_fmap, length_seq. Qed.

Lemma at1_tab F n i : i < n → np.at1 (F <$> seq 0 n) i = F i.
Proof. intros Hi. unfold np.at1. by rewrite lookup_fmap_seq. Qed.

Lemma rect_tab m n a : rect m n a → a = np.tabulate m n (np.at2 a).
Proof.
  intros [Hm Hn]. apply list_eq. intros i.
  destruct (decide (i < m)) as [Hi|Hi].
  - rewrite lookup_tabulate by done.
    destruct (lookup_lt_is_Some_2 a i) as [row Hrow]; [lia|].
    rewrite Hrow. f_equal.
    assert (length row = n) as <-.
    { rewrite Forall_forall in Hn. apply Hn.
      by apply list_elem_of_lookup_2 in Hrow. }
    rewrite (vec_tab row) at 1. apply fmap_seq_ext. intros j Hj.
    unfold np.at2. by rewrite Hrow.
  - unfold np.tabulate.
    rewrite list_lookup_fmap, lookup_seq_ge by lia.
    apply lookup_ge_None. lia.
Qed.

Lemma rect_tabulate m n (f : nat → nat → R) : rect m n (np.tabulate m n f).
Proof.
  split; [apply nrows_tabulate|].
  apply Forall_forall. intros row Hrow.
  apply list_elem_of_fmap in Hrow as (i & -> & _). apply length_tab.
Qed.

Lemma sum_lsum F (l : list nat) : np.sum (F <$> l) = np.lsum l F.
Proof. induction l as [|i l IH]; simpl; [done|by rewrite <- IH]. Qed.

Lemma sum_tab F n : np.sum (F <$> seq 0 n) = np.rsum n F.
Proof. apply sum_lsum. Qed.

Lemma fmap_tab (h : R → R) F n :
  h <$> (F <$> seq 0 n) = (λ i, h (F i)) <$> seq 0 n.
Proof. by rewrite <- list_fmap_compose. Qed.

Lemma mapM_fmap_Ret {A B : Type} (h : A → res B) (g : nat → A)
    (k : nat → B) (l : list nat) :
  (∀ i, i ∈ l → h (g i) = Ret (k i)) → mapM h (g <$> l) = Ret (k <$> l).
Proof.
  induction l as [|x l IH]; intros H; [done|].
  cbn. rewrite (H x) by (apply elem_of_cons; by left).
  cbn in IH. rewrite IH; [done|].
  intros y Hy. apply H, elem_of_cons. by right.
Qed.

Lemma mapM_tab {A B : Type} (h : A → res B) (g : nat → A)
    (k : nat → B) n :
  (∀ i, i < n → h (g i) = Ret (k i)) →
  mapM h (g <$> seq 0 n) = Ret (k <$> seq 0 n).
Proof.
  intros H. apply mapM_fmap_Ret. intros i Hi. apply H.
  apply elem_of_seq in Hi. lia.
Qed.

Lemma zip_tab {A B : Type} (h : nat → A) (k : nat → B) n :
  zip (h <$> seq 0 n) (k <$> seq 0 n) = (λ i, (h i, k i)) <$> seq 0 n.
Proof.
  generalize 0. induction n as [|n IH]; intros s; [done|].
  cbn. by rewrite IH.
Qed.

Lemma broadcast_tab {A : Type} (op : A → A → res A) (k : nat → A)
    (h1 h2 : nat → A) n :
  (∀ i, i < n → op (h1 i) (h2 i) = Ret (k i)) →
  np.broadcast op (h1 <$> seq 0 n) (h2 <$> seq 0 n) = Ret (k <$> seq 0 n).
Proof.
  intros H. unfold np.broadcast. rewrite !length_tab, Nat.eqb_refl.
  rewrite zip_tab. by apply mapM_tab.
Qed.

Lemma elementwise1_tab (op : R → R → R) F G n :
  np.elementwise1 op (F <$> seq 0 n) (G <$> seq 0 n)
  = Ret ((λ i, op (F i) (G i)) <$> seq 0 n).
Proof. unfold np.elementwise1. by apply broadcast_tab. Qed.

Lemma elementwise21_tab (op : R → R → R) (f : nat → nat → R) G m n :
  np.elementwise21 op (np.tabulate m n f) (G <$> seq 0 n)
  = Ret (np.tabulate m n (λ i j, op (f i j) (G j))).
Proof.
  unfold np.elementwise21, np.tabulate. apply mapM_tab.
  intros i _. apply elementwise1_tab.
Qed.

Lemma elementwise2_tab (op : R → R → R) (f g : nat → nat → R) m n :
  np.elementwise2 op (np.tabulate m n f) (np.tabulate m n g)
  = Ret (np.tabulate m n (λ i j, op (f i j) (g i j))).
Proof.
  unfold np.elementwise2, np.tabulate. apply broadcast_tab.
  intros i _. apply elementwise1_tab.
Qed.

Lemma isub_tab F G n :
  np.isub (F <$> seq 0 n) (G <$> seq 0 n)
  = Ret ((λ i, F i - G i)%R <$> seq 0 n).
Proof.
  unfold np.isub. rewrite elementwise1_tab, res_bind_Ret.
  by rewrite !length_tab, Nat.eqb_refl.
Qed.

Lemma scale1_tab c F n :
  np.scale1 c (F <$> seq 0 n) = (λ i, F i * c)%R <$> seq 0 n.
Proof. unfold np.scale1. apply fmap_tab. Qed.

Lemma scale2_tabulate c (f : nat → nat → R) m n :
  np.scale2 c (np.tabulate m n f) = np.tabulate m n (λ i j, f i j * c)%R.
Proof.
  unfold np.scale2, np.tabulate. rewrite <- list_fmap_compose.
  apply fmap_seq_ext. intros i _. apply scale1_tab.
Qed.

Lemma ones_like_tab F n :
  np.ones_like (F <$> seq 0 n) = (λ _, 1%R) <$> seq 0 n.
Proof.
  unfold np.ones_like. rewrite length_tab. apply list_eq. intros i.
  destruct (decide (i < n)).
  - by rewrite lookup_replicate_2, lookup_fmap_seq.
  - rewrite list_lookup_fmap, lookup_seq_ge by lia.
    apply lookup_replicate_None. lia.
Qed.

Lemma dot11_tab F G n :
  np.dot11 (F <$> seq 0 n) (G <$> seq 0 n)
  = Ret (np.rsum n (λ k, F k * G k)%R).
Proof.
  unfold np.dot11. rewrite !length_tab, Nat.eqb_refl. f_equal.
  apply rsum_ext. intros k Hk. by rewrite !at1_tab.
Qed.

Lemma dot12_tab F (f : nat → nat → R) m n :
  0 < m →
  np.dot12 (F <$> seq 0 m) (np.tabulate m n f)
  = Ret ((λ j, np.rsum m (λ k, F k * f k j)%R) <$> seq 0 n).
Proof.
  intros Hm. unfold np.dot12.
  rewrite length_tab, nrows_tabulate, ncols_tabulate, Nat.eqb_refl by done.
  f_equal. apply fmap_seq_ext. intros j Hj.
  apply rsum_ext. intros k Hk. by rewrite at1_tab, at2_tabulate.
Qed.

Lemma dot21_tab (f : nat → nat → R) G m n :
  0 < m →
  np.dot21 (np.tabulate m n f) (G <$> seq 0 n)
  = Ret ((λ i, np.rsum n (λ k, f i k * G k)%R) <$> seq 0 m).
Proof.
  intros Hm. unfold np.dot21.
  rewrite length_tab, nrows_tabulate, ncols_tabulate, Nat.eqb_refl by done.
  f_equal. apply fmap_seq_ext. intros i Hi.
  apply rsum_ext. intros k Hk. by rewrite at1_tab, at2_tabulate.
Qed.

Lemma sum_axis0_tabulate (f : nat → nat → R) m n :
  0 < m →
  np.sum_axis0 (np.tabulate m n f)
  = (λ j, np.rsum m (λ i, f i j)) <$> seq 0 n.
Proof.
  intros Hm. unfold np.sum_axis0.
  rewrite nrows_tabulate, ncols_tabulate by done.
  apply fmap_seq_ext. intros j Hj.
  apply rsum_ext. intros i Hi. by rewrite at2_tabulate.
Qed.

Lemma sum_axis1_tabulate (f : nat → nat → R) m n :
  np.sum_axis1 (np.tabulate m n f)
  = (λ i, np.rsum n (λ j, f i j)) <$> seq 0 m.
Proof.
  unfold np.sum_axis1, np.tabulate. rewrite <- list_fmap_compose.
  apply fmap_seq_ext. intros i _. apply sum_tab.
Qed.

Lemma diag_tab F n :
  np.diag (F <$> seq 0 n)
  = np.tabulate n n (λ i j, if (i =? j)%nat then F i else 0%R).
Proof.
  unfold np.diag. rewrite length_tab. apply tabulate_ext.
  intros i j Hi Hj. by rewrite at1_tab.
Qed.

End Arrays.

Section Vectors.
Local Open Scope R_scope.
Local Open Scope nat_scope.

Implicit Types (u v : vec) (a : matrix).

Lemma elementwise1_vec (op : R → R → R) u v :
  length u = length v →
  np.elementwise1 op u v
  = Ret ((λ i, op (np.at1 u i) (np.at1 v i)) <$> seq 0 (length u)).
Proof.
  intros H. rewrite (vec_tab u) at 1. rewrite (vec_tab v) at 1.
  rewrite <- H. apply elementwise1_tab.
Qed.

Lemma at1_fmap (h : R → R) v i :
  i < length v → np.at1 (h <$> v) i = h (np.at1 v i).
Proof.
  intros Hi. unfold np.at1. rewrite list_lookup_fmap.
  destruct (lookup_lt_is_Some_2 v i Hi) as [x ->]. done.
Qed.

Lemma dot12_vec u a :
  length u = np.nrows a →
  np.dot12 u a
  = Ret ((λ j, np.rsum (length u) (λ k, np.at1 u k * np.at2 a k j)%R)
           <$> seq 0 (np.ncols a)).
Proof. intros H. unfold np.dot12. by rewrite H, Nat.eqb_refl. Qed.

Lemma dot21_vec a v :
  np.ncols a = length v →
  np.dot21 a v
  = Ret ((λ i, np.rsum (np.ncols a) (λ k, np.at2 a i k * np.at1 v k)%R)
           <$> seq 0 (np.nrows a)).
Proof. intros H. unfold np.dot21. by rewrite H, Nat.eqb_refl. Qed.

End Vectors.

(** ** The value once [g] is assigned *)

Section ValueWithG.
Local Open Scope R_scope.

Context (self : instance) (model : Model) (f g_est f' f_reg g : vec)
  (C : matrix) (tau N factor : R) (N_prior : bool) (status : Z).
Hypothesis Hstatus : self !! "status" = Some (VInt status).
Hypothesis Hinitialized : (0 ≤ status)%Z.
Hypothesis Hmodel : self !! "model" = Some (VObject model).
Hypothesis Hg : self !! "g" = Some (VArray1 g).
Hypothesis Htau : self !! "tau" = Some (VFloat tau).
Hypothesis HC : self !! "C" = Some (VArray2 C).
Hypothesis HN_prior : self !! "N_prior" = Some (VBool N_prior).
Hypothesis HN : self !! "N" = Some (VFloat N).
Hypothesis Hfactor : self !! "factor" = Some (VFloat factor).
Hypothesis Hevaluate : evaluate model f = Ret (g_est, f', f_reg).
Hypothesis Hguard : np.any_lt0 g_est || np.any_lt0 f' = false.
Hypothesis Hlen_g : length g = length g_est.
Hypothesis Hrows : np.nrows C = length f_reg.
Hypothesis Hcols : np.ncols C = length f_reg.

Lemma run_evaluate_llh_with_g :
  StandardLLH.evaluate_llh f self
  = (Ret (np.fin ((poisson_term g g_est
                   + (if N_prior
                      then regularization_term tau C f_reg
                           + (np.sum f' - N * ln (np.sum f'))
                      else regularization_term tau C f_reg))
                  * factor)), self).
Proof.
  unfold StandardLLH.evaluate_llh.
  rewrite run_bind, (run_LLH_evaluate_llh _ _ Hstatus).
  destruct (Z.ltb_spec status 0); [lia|].
  py_unfold. py_get. rewrite Hguard. py_get.
  rewrite elementwise1_vec by (unfold np.log; by rewrite length_fmap).
  rewrite elementwise1_vec by (by rewrite length_tab).
  py_get.
  rewrite dot12_vec by done. rewrite Hcols.
  rewrite (vec_tab f_reg) at 2. rewrite dot11_tab.
  py_get.
  assert (Hp : np.sum
                 ((λ i, np.at1 g_est i
                        - np.at1
                            ((λ i0, np.at1 g i0 * np.at1 (np.log g_est) i0)
                               <$> seq 0 (length g)) i)
                    <$> seq 0 (length g_est))
               = poisson_term g g_est).
  { rewrite sum_tab. unfold poisson_term. apply rsum_ext. intros i Hi.
    rewrite at1_tab by lia. unfold np.log. by rewrite at1_fmap. }
  assert (Hq : 0.5 * tau
               * np.rsum (length f_reg)
                   (λ k, np.rsum (length f_reg)
                           (λ k0, np.at1 f_reg k0 * np.at2 C k0 k)
                         * np.at1 f_reg k)
               = regularization_term tau C f_reg) by done.
  rewrite Hp, Hq. by destruct N_prior; py_get.
Qed.

End ValueWithG.

(** ** The derivatives once [g] is assigned *)

Section DerivativesWithG.
Local Open Scope R_scope.

Context (self : instance) (model : Model) (a : matrix)
  (f g_est f' f_reg g : vec) (C : matrix) (tau factor : R) (status : Z)
  (m n : nat).
Hypothesis Hstatus : self !! "status" = Some (VInt status).
Hypothesis Hinitialized : (0 ≤ status)%Z.
Hypothesis Hgradient : self !! "gradient_defined" = Some (VBool true).
Hypothesis Hhesse : self !! "hesse_matrix_defined" = Some (VBool true).
Hypothesis Hmodel : self !! "model" = Some (VObject model).
Hypothesis Hg : self !! "g" = Some (VArray1 g).
Hypothesis Htau : self !! "tau" = Some (VFloat tau).
Hypothesis HC : self !! "C" = Some (VArray2 C).
Hypothesis Hfactor : self !! "factor" = Some (VFloat factor).
Hypothesis HA : A model = Some a.
Hypothesis Hevaluate : evaluate model f = Ret (g_est, f', f_reg).
Hypothesis Ha : rect m n a.
Hypothesis Hm : (0 < m)%nat.
Hypothesis Hn : (0 < n)%nat.
Hypothesis Hlen_g : length g = m.
Hypothesis Hlen_g_est : length g_est = m.
Hypothesis Hlen_f_reg : length f_reg = n.
Hypothesis HCrect : rect n n C.

Let Hnrows : np.nrows a = m := proj1 Ha.

(** The arrays by their entries. *)
Ltac by_entries :=
  pose proof (rect_tab m n a Ha) as Ea;
  pose proof (rect_tab n n C HCrect) as EC;
  pose proof (vec_tab g) as Eg; rewrite Hlen_g in Eg;
  pose proof (vec_tab g_est) as Eg_est; rewrite Hlen_g_est in Eg_est;
  pose proof (vec_tab f_reg) as Ef_reg; rewrite Hlen_f_reg in Ef_reg;
  set (a_ := np.at2 a) in Ea; set (C_ := np.at2 C) in EC;
  set (g_ := np.at1 g) in Eg; set (g_est_ := np.at1 g_est) in Eg_est;
  set (f_reg_ := np.at1 f_reg) in Ef_reg.

Lemma run_evaluate_gradient_with_g :
  StandardLLH.evaluate_gradient f self
  = (Ret ((λ k, poisson_gradient a g g_est k
                + regularization_gradient tau C f_reg k * factor)
            <$> seq 0 n), self).
Proof.
  unfold StandardLLH.evaluate_gradient.
  rewrite run_bind, (run_LLH_evaluate_gradient _ _ Hgradient).
  rewrite (run_LLH_evaluate_llh _ _ Hstatus).
  destruct (Z.ltb_spec status 0); [lia|].
  py_unfold. py_get.
  unfold poisson_gradient, regularization_gradient.
  rewrite Hnrows, Hlen_f_reg. by_entries.
  fold a_ C_ g_ g_est_ f_reg_.
  rewrite Ea, EC, Eg, Eg_est, Ef_reg. clear Ea EC Eg Eg_est Ef_reg.
  rewrite T_tabulate by done.
  rewrite elementwise21_tab, fmap_tab, elementwise21_tab.
  rewrite sum_axis0_tabulate, sum_axis1_tabulate, isub_tab by done.
  py_get.
  rewrite dot21_tab by done.
  rewrite ones_like_tab, scale1_tab, elementwise1_tab, scale1_tab.
  py_get. rewrite elementwise1_tab.
  do 2 f_equal. apply fmap_seq_ext. intros k Hk.
  f_equal; [f_equal|].
  - apply rsum_ext. intros i Hi. unfold Rdiv. ring.
  - ring.
Qed.

Lemma run_evaluate_hesse_matrix_with_g :
  StandardLLH.evaluate_hesse_matrix f self
  = (Ret (np.tabulate n n
            (λ k l, (tau * np.at2 C k l + poisson_hessian a g g_est k l)
                    * factor)), self).
Proof.
  unfold StandardLLH.evaluate_hesse_matrix.
  rewrite run_bind, (run_LLH_evaluate_hesse_matrix _ _ Hhesse).
  rewrite (run_LLH_evaluate_llh _ _ Hstatus).
  destruct (Z.ltb_spec status 0); [lia|].
  py_unfold. py_get.
  unfold poisson_hessian. rewrite Hnrows. by_entries.
  fold a_ C_ g_ g_est_.
  rewrite Ea, EC, Eg, Eg_est. clear Ea EC Eg Eg_est Ef_reg.
  rewrite T_tabulate by done.
  rewrite fmap_tab, elementwise1_tab.
  rewrite diag_tab, dot22_tabulate by done.
  py_get. rewrite dot22_tabulate by done. py_get.
  rewrite scale2_tabulate, elementwise2_tab.
  py_get. rewrite scale2_tabulate.
  do 2 f_equal. apply tabulate_ext. intros k l Hk Hl.
  f_equal. rewrite Rmult_comm. f_equal.
  apply rsum_ext. intros j Hj.
  rewrite (rsum_ext m _
    (λ i, if (i =? j)%nat then a_ i k * (g_ i / g_est_ i ^ 2) else 0)).
  - rewrite rsum_pick by done. unfold Rdiv. ring.
  - intros i Hi. destruct (Nat.eqb_spec i j); ring.
Qed.

End DerivativesWithG.

(** ** Loops that accumulate *)

Section LoopLemmas.
Local Open Scope R_scope.

Lemma run_ret {A : Type} (a : A) (self : instance) :
  (mret a : py A) self = (Ret a, self).
Proof. reflexivity. Qed.

Lemma for_in_sum (l : list nat) (body : nat → R → py R) (t : nat → R)
    (self : instance) :
  (∀ i acc, i ∈ l → body i acc self = (Ret (acc + t i), self)) →
  ∀ acc, for_in l body acc self = (Ret (acc + np.lsum l t), self).
Proof.
  induction l as [|a l IH]; intros H acc.
  - cbn [for_in]. rewrite run_ret. do 2 f_equal. simpl. lra.
  - cbn [for_in]. rewrite run_bind, H by (apply elem_of_cons; by left).
    rewrite IH by (intros; apply H, elem_of_cons; by right).
    do 2 f_equal. simpl. lra.
Qed.

Lemma for_in_rsum (n : nat) (body : nat → R → py R) (t : nat → R)
    (self : instance) :
  (∀ i acc, (i < n)%nat → body i acc self = (Ret (acc + t i), self)) →
  ∀ acc, for_in (range 0 n) body acc self
         = (Ret (acc + np.rsum n t), self).
Proof.
  intros H acc. unfold range. rewrite Nat.sub_0_r.
  apply for_in_sum. intros i acc' Hi. apply H.
  apply elem_of_seq in Hi. lia.
Qed.

Lemma getitem1_lt (v : vec) (i : nat) :
  (i < length v)%nat → np.getitem1 v i = Ret (np.at1 v i).
Proof.
  intros Hi. unfold np.getitem1, np.at1.
  destruct (lookup_lt_is_Some_2 v i Hi) as [x ->]. done.
Qed.

Lemma getitem2_rect (m n : nat) (a : matrix) (i j : nat) :
  rect m n a → (i < m)%nat → (j < n)%nat →
  np.getitem2 a i j = Ret (np.at2 a i j).
Proof.
  intros Ha Hi Hj. rewrite (rect_tab m n a Ha) at 1.
  unfold np.getitem2. rewrite lookup_tabulate by done.
  rewrite getitem1_lt by (by rewrite length_tab).
  by rewrite at1_tab.
Qed.

(** Filling a vector entry by entry. *)
Lemma lookup_fill (v : nat → R) (c : nat) : ∀ (a : nat) (L : vec) (i : nat),
  fold_left (λ gr k, <[k := v k]> gr) (seq a c) L !! i
  = if decide (a ≤ i < a + c ∧ i < length L)%nat then Some (v i)
    else L !! i.
Proof.
  induction c as [|c IH]; intros a L i; cbn [seq fold_left].
  - case_decide; [lia|done].
  - rewrite IH, length_insert.
    destruct (decide (i = a)) as [->|Hne].
    + destruct (decide (a < length L)%nat).
      * rewrite list_lookup_insert_eq by done.
        repeat case_decide; (done || lia).
      * rewrite list_insert_ge by lia.
        repeat case_decide; (done || lia).
    + rewrite list_lookup_insert_ne by done.
      repeat case_decide; (done || lia).
Qed.

Lemma fill_all (v : nat → R) (n : nat) :
  fold_left (λ gr k, <[k := v k]> gr) (seq 0 n) (replicate n 0)
  = v <$> seq 0 n.
Proof.
  apply list_eq. intros i. rewrite lookup_fill, length_replicate.
  case_decide.
  - by rewrite lookup_fmap_seq by lia.
  - rewrite list_lookup_fmap, lookup_seq_ge by lia.
    apply lookup_replicate_None. lia.
Qed.

Lemma for_in_fill (l : list nat) (body : nat → vec → py vec)
    (v : nat → R) (self : instance) :
  (∀ k gr, k ∈ l → body k gr self = (Ret (<[k := v k]> gr), self)) →
  ∀ gr, for_in l body gr self
        = (Ret (fold_left (λ gr k, <[k := v k]> gr) l gr), self).
Proof.
  induction l as [|a l IH]; intros H gr; [done|].
  cbn [for_in fold_left].
  rewrite run_bind, H by (apply elem_of_cons; by left).
  apply IH. intros k gr' Hk. apply H, elem_of_cons. by right.
Qed.

Lemma for_in_fill_range (n : nat) (body : nat → vec → py vec)
    (v : nat → R) (self : instance) :
  (∀ k gr, (k < n)%nat →
     body k gr self = (Ret (<[k := v k]> gr), self)) →
  for_in (range 0 n) body (replicate n 0) self
  = (Ret (v <$> seq 0 n), self).
Proof.
  intros H. unfold range. rewrite Nat.sub_0_r.
  rewrite (for_in_fill _ _ v), fill_all; [done|].
  intros k gr Hk. apply H. apply elem_of_seq in Hk. lia.
Qed.

(** Filling a two-dimensional array entry by entry. *)
Lemma for_in_assign_row (n k : nat) (body : nat → matrix → py matrix)
    (v : nat → R) (self : instance) (c : nat) : ∀ (a : nat) H,
  (k < n)%nat → (a + c ≤ n)%nat →
  (∀ l H, (l < n)%nat →
     body l (np.tabulate n n H) self
     = (Ret (np.tabulate n n (assigned H k l (v l))), self)) →
  for_in (seq a c) body (np.tabulate n n H) self
  = (Ret (np.tabulate n n
            (λ i j, if (i =? k)%nat && (a <=? j)%nat && (j <? a + c)%nat
                    then v j else H i j)), self).
Proof.
  induction c as [|c IH]; intros a H Hk Hac Hbody; cbn [seq for_in].
  - rewrite run_ret. do 2 f_equal. apply tabulate_ext. intros i j _ _.
    destruct (i =? k)%nat, (a <=? j)%nat eqn:E1, (j <? a + 0)%nat eqn:E2;
      try done.
    apply Nat.leb_le in E1. apply Nat.ltb_lt in E2. lia.
  - rewrite run_bind, Hbody by lia. rewrite IH by (done || lia).
    do 2 f_equal. apply tabulate_ext. intros i j _ _. unfold assigned.
    destruct (Nat.eqb_spec i k), (Nat.leb_spec (S a) j),
      (Nat.ltb_spec j (S a + c)), (Nat.eqb_spec j a),
      (Nat.leb_spec a j), (Nat.ltb_spec j (a + S c));
      cbn [andb]; subst; (done || lia).
Qed.

Lemma for_in_assign_all (n : nat) (body : nat → matrix → py matrix)
    (v : nat → nat → R) (self : instance) (c : nat) : ∀ (a : nat) H,
  (a + c ≤ n)%nat →
  (∀ k H, (k < n)%nat →
     body k (np.tabulate n n H) self
     = (Ret (np.tabulate n n
               (λ i j, if (i =? k)%nat then v k j else H i j)), self)) →
  for_in (seq a c) body (np.tabulate n n H) self
  = (Ret (np.tabulate n n
            (λ i j, if (a <=? i)%nat && (i <? a + c)%nat
                    then v i j else H i j)), self).
Proof.
  induction c as [|c IH]; intros a H Hac Hbody; cbn [seq for_in].
  - rewrite run_ret. do 2 f_equal. apply tabulate_ext. intros i j _ _.
    destruct (a <=? i)%nat eqn:E1, (i <? a + 0)%nat eqn:E2; try done.
    apply Nat.leb_le in E1. apply Nat.ltb_lt in E2. lia.
  - rewrite run_bind, Hbody by lia. rewrite IH by (done || lia).
    do 2 f_equal. apply tabulate_ext. intros i j _ _.
    destruct (Nat.leb_spec (S a) i), (Nat.ltb_spec i (S a + c)),
      (Nat.eqb_spec i a), (Nat.leb_spec a i), (Nat.ltb_spec i (a + S c));
      cbn [andb]; subst; (done || lia).
Qed.

Lemma for_in_assign_row_range (n k : nat)
    (body : nat → matrix → py matrix) (v : nat → R) (self : instance) H :
  (k < n)%nat →
  (∀ l H, (l < n)%nat →
     body l (np.tabulate n n H) self
     = (Ret (np.tabulate n n (assigned H k l (v l))), self)) →
  for_in (range 0 n) body (np.tabulate n n H) self
  = (Ret (np.tabulate n n
            (λ i j, if (i =? k)%nat then v j else H i j)), self).
Proof.
  intros Hk Hbody. unfold range. rewrite Nat.sub_0_r.
  rewrite (for_in_assign_row n k _ v) by (done || lia).
  do 2 f_equal. apply tabulate_ext. intros i j Hi Hj.
  destruct (Nat.eqb_spec i k), (Nat.leb_spec 0 j),
    (Nat.ltb_spec j (0 + n)); cbn [andb]; subst; (done || lia).
Qed.

Lemma for_in_assign_all_range (n : nat) (body : nat → matrix → py matrix)
    (v : nat → nat → R) (self : instance) :
  (∀ k H, (k < n)%nat →
     body k (np.tabulate n n H) self
     = (Ret (np.tabulate n n
               (λ i j, if (i =? k)%nat then v k j else H i j)), self)) →
  for_in (range 0 n) body (np.zeros n n) self
  = (Ret (np.tabulate n n v), self).
Proof.
  intros Hbody. unfold range. rewrite Nat.sub_0_r, zeros_tabulate.
  rewrite (for_in_assign_all n _ v) by (done || lia).
  do 2 f_equal. apply tabulate_ext. intros i j Hi Hj.
  destruct (Nat.leb_spec 0 i), (Nat.ltb_spec i (0 + n)); try lia.
  done.
Qed.

Lemma rsum_minus n (F G : nat → R) :
  np.rsum n (λ i, F i - G i) = np.rsum n F - np.rsum n G.
Proof.
  unfold np.rsum. induction (seq 0 n) as [|a l IH]; simpl; [lra|].
  rewrite IH. lra.
Qed.

End LoopLemmas.

(** ** The reference objective in general *)

Section ReferenceFormulas.
Local Open Scope R_scope.

Context (self : instance) (model : Model) (a C : matrix) (g f : vec)
  (tau : R) (m n : nat).
Hypothesis Hlm : self !! "linear_model" = Some (VObject model).
Hypothesis HA : A model = Some a.
Hypothesis Hg : self !! "g" = Some (VArray1 g).
Hypothesis HC : self !! "C" = Some (VArray2 C).
Hypothesis Htau : self !! "tau" = Some (VFloat tau).
Hypothesis Ha : rect m n a.
Hypothesis Hm : (0 < m)%nat.
Hypothesis HCrect : rect n n C.
Hypothesis Hlen_g : length g = m.
Hypothesis Hlen_f : length f = n.

Let Hnrows : np.nrows a = m := proj1 Ha.

(** The forward prediction [A·f]. *)
Let g_est : vec :=
  (λ i, np.rsum n (λ j, np.at2 a i j * np.at1 f j)) <$> seq 0 m.

Lemma shape_rect : np.shape a = (m, n).
Proof.
  unfold np.shape. rewrite (rect_tab m n a Ha).
  by rewrite nrows_tabulate, ncols_tabulate.
Qed.

Lemma run_self_A : LLHThikonovForLoops.self_A self = (Ret a, self).
Proof. unfold LLHThikonovForLoops.self_A. py_unfold. by py_get. Qed.

Lemma run_self_A_at i j :
  (i < m)%nat → (j < n)%nat →
  LLHThikonovForLoops.self_A_at i j self = (Ret (np.at2 a i j), self).
Proof.
  intros Hi Hj. unfold LLHThikonovForLoops.self_A_at.
  rewrite run_bind, run_self_A. unfold lift.
  by rewrite (getitem2_rect m n).
Qed.

Lemma run_self_C_at i j :
  (i < n)%nat → (j < n)%nat →
  LLHThikonovForLoops.self_C_at i j self = (Ret (np.at2 C i j), self).
Proof.
  intros Hi Hj. unfold LLHThikonovForLoops.self_C_at.
  py_unfold. py_get. by rewrite (getitem2_rect n n).
Qed.

Lemma run_self_g_at i :
  (i < m)%nat →
  LLHThikonovForLoops.self_g_at i self = (Ret (np.at1 g i), self).
Proof.
  intros Hi. unfold LLHThikonovForLoops.self_g_at.
  py_unfold. py_get. by rewrite getitem1_lt by lia.
Qed.

Lemma run_forward i :
  (i < m)%nat →
  LLHThikonovForLoops.forward n f i self
  = (Ret (0 + np.rsum n (λ j, np.at2 a i j * np.at1 f j)), self).
Proof.
  intros Hi. unfold LLHThikonovForLoops.forward.
  apply for_in_rsum. intros j acc Hj.
  rewrite run_bind, run_self_A_at by done.
  py_unfold. by rewrite getitem1_lt by lia.
Qed.

Lemma at1_g_est i :
  (i < m)%nat →
  0 + np.rsum n (λ j, np.at2 a i j * np.at1 f j) = np.at1 g_est i.
Proof. intros Hi. subst g_est. rewrite at1_tab by done. lra. Qed.

Ltac loop_rsum k t :=
  match goal with
  | |- context [for_in (range 0 k) ?b ?acc self] =>
      rewrite (for_in_rsum k b t self)
  end.

Lemma run_reference_evaluate_llh :
  LLHThikonovForLoops.evaluate_llh f self
  = (Ret (regularization_term tau C f - poisson_term g g_est), self).
Proof.
  unfold LLHThikonovForLoops.evaluate_llh.
  rewrite run_bind, run_self_A. rewrite run_bind, run_ret, shape_rect.
  rewrite run_bind.
  loop_rsum m
    (λ i, np.at1 g_est i - np.at1 g i * ln (np.at1 g_est i)).
  2:{ intros i acc Hi. rewrite run_bind, run_forward by done.
      rewrite run_bind, run_self_g_at by done.
      rewrite run_ret, at1_g_est by done. done. }
  rewrite run_bind.
  loop_rsum n
    (λ i, np.rsum n (λ j, np.at2 C i j * np.at1 f i * np.at1 f j)).
  2:{ intros i acc Hi. apply for_in_rsum. intros j acc' Hj.
      rewrite run_bind, run_self_C_at by done.
      py_unfold. by rewrite !getitem1_lt by lia. }
  py_unfold. py_get. do 2 f_equal.
  unfold regularization_term, poisson_term.
  subst g_est. rewrite length_tab, Hlen_f.
  f_equal; [|lra].
  rewrite Rplus_0_l, (Rmult_comm _ (0.5 * tau)). f_equal.
  rewrite rsum_swap. apply rsum_ext. intros j Hj.
  unfold np.rsum. rewrite <- lsum_scal_r.
  apply lsum_ext. intros k Hk. ring.
Qed.

Lemma run_reference_evaluate_gradient :
  LLHThikonovForLoops.evaluate_gradient f self
  = (Ret ((λ k, tau * np.rsum n (λ i, np.at2 C i k * np.at1 f i)
                - poisson_gradient a g g_est k) <$> seq 0 n), self).
Proof.
  unfold LLHThikonovForLoops.evaluate_gradient.
  rewrite run_bind, run_self_A. rewrite run_bind, run_ret, shape_rect.
  cbv beta iota.
  rewrite (for_in_fill_range n _
    (λ k, tau * (0 + np.rsum n (λ i, np.at2 C i k * np.at1 f i))
          - (0 + np.rsum m
                   (λ i, np.at2 a i k
                         - np.at1 g i * np.at2 a i k / np.at1 g_est i)))).
  2:{ intros k gr Hk. rewrite run_bind.
      loop_rsum m
        (λ i, np.at2 a i k - np.at1 g i * np.at2 a i k / np.at1 g_est i).
      2:{ intros i acc Hi. rewrite run_bind, run_forward by done.
          rewrite run_bind, run_self_A_at by lia.
          rewrite run_bind, run_self_g_at by done.
          rewrite run_ret, at1_g_est by done. done. }
      rewrite run_bind.
      loop_rsum n (λ i, np.at2 C i k * np.at1 f i).
      2:{ intros i acc Hi. rewrite run_bind, run_self_C_at by lia.
          py_unfold. by rewrite getitem1_lt by lia. }
      py_unfold. by py_get. }
  do 2 f_equal. apply fmap_seq_ext. intros k Hk.
  unfold poisson_gradient. rewrite Hnrows, rsum_minus.
  rewrite !Rplus_0_l. do 2 f_equal.
  apply rsum_ext. intros i Hi. unfold Rdiv. ring.
Qed.

Lemma run_reference_evaluate_hesse_matrix :
  LLHThikonovForLoops.evaluate_hesse_matrix f self
  = (Ret (np.tabulate n n
            (λ k l, poisson_hessian a g g_est k l + tau * np.at2 C k l)),
     self).
Proof.
  unfold LLHThikonovForLoops.evaluate_hesse_matrix.
  rewrite run_bind, run_self_A. rewrite run_bind, run_ret, shape_rect.
  cbv beta iota.
  rewrite (for_in_assign_all_range n _
    (λ k l, 0 + poisson_hessian a g g_est k l + tau * np.at2 C k l)).
  - do 2 f_equal. apply tabulate_ext. intros i j Hi Hj. lra.
  - intros k H Hk.
    apply (for_in_assign_row_range n k _
      (λ l, 0 + poisson_hessian a g g_est k l + tau * np.at2 C k l));
      [done|].
    intros l H' Hl. rewrite run_bind.
    loop_rsum m
      (λ i, np.at1 g i * np.at2 a i k * np.at2 a i l
            / np.at1 g_est i ^ 2).
    2:{ intros i acc Hi.
        rewrite run_bind, run_self_A_at by lia.
        rewrite run_bind, run_self_A_at by lia.
        rewrite run_bind, run_self_g_at by done.
        rewrite run_bind, run_forward by done.
        rewrite run_ret, at1_g_est by done. done. }
    py_unfold. py_get. rewrite run_self_C_at by done.
    rewrite setitem_tabulate by done.
    unfold poisson_hessian. by rewrite Hnrows.
Qed.

End ReferenceFormulas.

(** ** An instance set up by [initialize] on which [g] is then assigned *)

Section AssignedAfterInitialize.
Local Open Scope R_scope.

Context (self0 : instance) (vec_g g : vec) (model : Model) (tau : R)
  (C : matrix) (N_prior neg_llh : bool).

Let self : instance :=
  <["g" := VArray1 g]>
    (after_initialize self0 vec_g model tau C N_prior neg_llh).

Ltac through_g lem :=
  subst self; rewrite lookup_insert_ne by done; apply lem.

Lemma assigned_status : self !! "status" = Some (VInt 0).
Proof. through_g after_initialize_status. Qed.
Lemma assigned_model : self !! "model" = Some (VObject model).
Proof. through_g after_initialize_model. Qed.
Lemma assigned_g : self !! "g" = Some (VArray1 g).
Proof. subst self. apply lookup_insert_eq. Qed.
Lemma assigned_tau : self !! "tau" = Some (VFloat tau).
Proof. through_g after_initialize_tau. Qed.
Lemma assigned_C : self !! "C" = Some (VArray2 C).
Proof. through_g after_initialize_C. Qed.
Lemma assigned_N_prior : self !! "N_prior" = Some (VBool N_prior).
Proof. through_g after_initialize_N_prior. Qed.
Lemma assigned_N : self !! "N" = Some (VFloat (np.sum vec_g)).
Proof. through_g after_initialize_N. Qed.
Lemma assigned_factor :
  self !! "factor" = Some (VFloat (if neg_llh then 1 else -1)).
Proof. through_g after_initialize_factor. Qed.

Hypothesis Hlinear : isinstance model LinearModelClass = true.

Lemma assigned_gradient_defined :
  self !! "gradient_defined" = Some (VBool true).
Proof.
  subst self. rewrite lookup_insert_ne by done.
  by rewrite after_initialize_gradient_defined, Hlinear.
Qed.

Lemma assigned_hesse_matrix_defined :
  self !! "hesse_matrix_defined" = Some (VBool true).
Proof.
  subst self. rewrite lookup_insert_ne by done.
  by rewrite after_initialize_hesse_matrix_defined, Hlinear.
Qed.

End AssignedAfterInitialize.

Lemma with_g_llh_value
    (self0 self1 : instance) (vec_g g : vec) (model : Model) (tau : R)
    (C : matrix) (N_prior neg_llh : bool) (f g_est f' f_reg : vec) :
  StandardLLH.initialize vec_g model tau C N_prior neg_llh self0
    = (Ret tt, self1) →
  evaluate model f = Ret (g_est, f', f_reg) →
  Forall (λ x, 0 < x)%R g_est →
  Forall (λ x, 0 <= x)%R f' →
  (N_prior = true → 0 < np.sum f')%R →
  length g = length g_est →
  np.nrows C = length f_reg →
  np.ncols C = length f_reg →
  let self := <["g" := VArray1 g]> self1 in
  StandardLLH.evaluate_llh f self
  = (Ret (np.fin
            ((poisson_term g g_est
              + (if N_prior
                 then regularization_term tau C f_reg
                      + (np.sum f' - np.sum vec_g * ln (np.sum f'))
                 else regularization_term tau C f_reg))
             * (if neg_llh then 1 else -1))%R), self).
Proof.
  intros Hinit Hev Hpos Hnonneg _ Hlen Hrows Hcols self.
  assert (Hguard : np.any_lt0 g_est || np.any_lt0 f' = false).
  { apply orb_false_iff. rewrite !any_lt0_false.
    rewrite Forall_forall in Hpos, Hnonneg. split; [|done].
    intros x Hx. apply Rlt_le. by apply Hpos. }
  rewrite initialize_run in Hinit.
  destruct (isinstance model ModelClass); [|done].
  injection Hinit as <-. subst self.
  eapply run_evaluate_llh_with_g with (status := 0);
    [apply assigned_status|done|apply assigned_model|apply assigned_g
    |apply assigned_tau|apply assigned_C|apply assigned_N_prior
    |apply assigned_N|apply assigned_factor|exact Hev|exact Hguard
    |exact Hlen|exact Hrows|exact Hcols].
Qed.

(** X9.  Once the caller has assigned [g] on an instance set up by
    [initialize], [evaluate_llh] returns, for a candidate with all-positive
    [g_est] and no negative component in [f], the value
    [(Σ(g_est - g·log(g_est)) + 0.5·tau·f_regᵗ·C·f_reg) · factor], with
    [sum(f) - N·log(sum(f))] added to the regularization term when
    [N_prior] is set (and [sum(f)] is positive), [N] being the sum of the
    counts given to [initialize] and [factor] being 1 for [neg_llh] and -1
    otherwise; the instance is left as it was. *)
Theorem evaluate_llh_value_once_g_is_assigned
    (self0 self1 : instance) (vec_g g : vec) (model : Model) (tau : R)
    (C : matrix) (N_prior neg_llh : bool) (f g_est f' f_reg : vec) :
  StandardLLH.initialize vec_g model tau C N_prior neg_llh self0
    = (Ret tt, self1) →
  evaluate model f = Ret (g_est, f', f_reg) →
  Forall (λ x, 0 < x)%R g_est →
  Forall (λ x, 0 <= x)%R f' →
  (N_prior = true → 0 < np.sum f')%R →
  length g = length g_est →
  np.nrows C = length f_reg →
  np.ncols C = length f_reg →
  let self := <["g" := VArray1 g]> self1 in
  StandardLLH.evaluate_llh f self
  = (Ret (np.fin
            ((poisson_term g g_est
              + (if N_prior
                 then regularization_term tau C f_reg
                      + (np.sum f' - np.sum vec_g * ln (np.sum f'))
                 else regularization_term tau C f_reg))
             * (if neg_llh then 1 else -1))%R), self).
Proof. apply with_g_llh_value. Qed.

Lemma evaluate_llh_value_once_g_is_assigned_witness :
  ∃ (self1 : instance) (g_est : vec),
    StandardLLH.initialize [2; 1; 1; 1]%R (linear_model response_4x3) 1%R
      thikonov_3 true true (new StandardLLH.__init__) = (Ret tt, self1)
    ∧ evaluate (linear_model response_4x3) [1; 1; 1]%R
      = Ret (g_est, [1; 1; 1]%R, [1; 1; 1]%R)
    ∧ let self := <["g" := VArray1 [2; 1; 1; 1]%R]> self1 in
      StandardLLH.evaluate_llh [1; 1; 1]%R self
      = (Ret (np.fin
                ((poisson_term [2; 1; 1; 1] g_est
                  + (regularization_term 1 thikonov_3 [1; 1; 1]
                     + (np.sum [1; 1; 1]
                        - np.sum [2; 1; 1; 1] * ln (np.sum [1; 1; 1]))))
                 * 1)%R), self).
Proof.
  destruct response_4x3_feasible as (g_est & Hev & Hpos & Hguard).
  eexists. exists g_est.
  split; [by rewrite initialize_run|]. split; [exact Hev|].
  apply (evaluate_llh_value_once_g_is_assigned (new StandardLLH.__init__) _
           [2; 1; 1; 1]%R [2; 1; 1; 1]%R (linear_model response_4x3) 1%R
           thikonov_3 true true [1; 1; 1]%R g_est [1; 1; 1]%R [1; 1; 1]%R).
  - by rewrite initialize_run.
  - exact Hev.
  - exact Hpos.
  - repeat (apply Forall_cons; split; [lra|]). apply Forall_nil_2.
  - intros _. cbn. lra.
  - cbn in Hev. by injection Hev as <-.
  - reflexivity.
  - reflexivity.
Defined.

Lemma with_g_gradient_value
    (self0 self1 : instance) (vec_g g : vec) (model : Model) (a : matrix)
    (tau : R) (C : matrix) (N_prior neg_llh : bool)
    (f g_est f' f_reg : vec) (m n : nat) :
  StandardLLH.initialize vec_g model tau C N_prior neg_llh self0
    = (Ret tt, self1) →
  isinstance model LinearModelClass = true →
  A model = Some a →
  evaluate model f = Ret (g_est, f', f_reg) →
  Forall (λ x, x ≠ 0%R) g_est →
  rect m n a → (0 < m)%nat → (0 < n)%nat →
  length g = m → length g_est = m → length f_reg = n → rect n n C →
  let self := <["g" := VArray1 g]> self1 in
  StandardLLH.evaluate_gradient f self
  = (Ret ((λ k, poisson_gradient a g g_est k
                + regularization_gradient tau C f_reg k
                  * (if neg_llh then 1 else -1))%R <$> seq 0 n), self).
Proof.
  intros Hinit Hlin HA Hev _ Ha Hm Hn Hg Hg_est Hf_reg HC self.
  rewrite initialize_run in Hinit.
  destruct (isinstance model ModelClass); [|done].
  injection Hinit as <-. subst self.
  eapply run_evaluate_gradient_with_g with (status := 0) (m := m);
    [apply assigned_status|done|by apply assigned_gradient_defined
    |apply assigned_model|apply assigned_g|apply assigned_tau
    |apply assigned_C|apply assigned_factor|exact HA|exact Hev|exact Ha
    |exact Hm|exact Hn|exact Hg|exact Hg_est|exact Hf_reg|exact HC].
Qed.

(** X10.  Once the caller has assigned [g] on an instance set up with a
    linear model whose response [a] has [m] rows and [n] columns, and for
    a candidate whose [g_est] has no zero entry, [evaluate_gradient]
    returns the vector with the entries
    [Σ_i a[i,k] - Σ_i a[i,k]·g[i]/g_est[i] + tau·(C·f_reg)[k]·factor]:
    the factor multiplies the regularization part only, and there is no
    infeasibility guard, negative entries of [g_est] and [f] are accepted. *)
Theorem evaluate_gradient_value_once_g_is_assigned
    (self0 self1 : instance) (vec_g g : vec) (model : Model) (a : matrix)
    (tau : R) (C : matrix) (N_prior neg_llh : bool)
    (f g_est f' f_reg : vec) (m n : nat) :
  StandardLLH.initialize vec_g model tau C N_prior neg_llh self0
    = (Ret tt, self1) →
  isinstance model LinearModelClass = true →
  A model = Some a →
  evaluate model f = Ret (g_est, f', f_reg) →
  Forall (λ x, x ≠ 0%R) g_est →
  rect m n a → (0 < m)%nat → (0 < n)%nat →
  length g = m → length g_est = m → length f_reg = n → rect n n C →
  let self := <["g" := VArray1 g]> self1 in
  StandardLLH.evaluate_gradient f self
  = (Ret ((λ k, poisson_gradient a g g_est k
                + regularization_gradient tau C f_reg k
                  * (if neg_llh then 1 else -1))%R <$> seq 0 n), self).
Proof. apply with_g_gradient_value. Qed.

Lemma with_g_hessian_value
    (self0 self1 : instance) (vec_g g : vec) (model : Model) (a : matrix)
    (tau : R) (C : matrix) (N_prior neg_llh : bool)
    (f g_est f' f_reg : vec) (m n : nat) :
  StandardLLH.initialize vec_g model tau C N_prior neg_llh self0
    = (Ret tt, self1) →
  isinstance model LinearModelClass = true →
  A model = Some a →
  evaluate model f = Ret (g_est, f', f_reg) →
  Forall (λ x, x ≠ 0%R) g_est →
  rect m n a → (0 < m)%nat → (0 < n)%nat →
  length g = m → length g_est = m → length f_reg = n → rect n n C →
  let self := <["g" := VArray1 g]> self1 in
  StandardLLH.evaluate_hesse_matrix f self
  = (Ret (np.tabulate n n
            (λ k l, (tau * np.at2 C k l + poisson_hessian a g g_est k l)
                    * (if neg_llh then 1 else -1))%R), self).
Proof.
  intros Hinit Hlin HA Hev _ Ha Hm Hn Hg Hg_est Hf_reg HC self.
  rewrite initialize_run in Hinit.
  destruct (isinstance model ModelClass); [|done].
  injection Hinit as <-. subst self.
  eapply run_evaluate_hesse_matrix_with_g with (status := 0) (m := m);
    [apply assigned_status|done|by apply assigned_hesse_matrix_defined
    |apply assigned_model|apply assigned_g|apply assigned_tau
    |apply assigned_C|apply assigned_factor|exact HA|exact Hev|exact Ha
    |exact Hm|exact Hn|exact Hg|exact Hg_est|exact Hf_reg|exact HC].
Qed.

(** X11.  Under the same conditions ([g] assigned, a linear model with an
    [m] by [n] response, no zero entry in [g_est])
    [evaluate_hesse_matrix] returns the [n] by [n] array with the entries
    [(tau·C[k,l] + Σ_i g[i]·a[i,k]·a[i,l]/g_est[i]²)·factor]. *)
Theorem evaluate_hesse_matrix_value_once_g_is_assigned
    (self0 self1 : instance) (vec_g g : vec) (model : Model) (a : matrix)
    (tau : R) (C : matrix) (N_prior neg_llh : bool)
    (f g_est f' f_reg : vec) (m n : nat) :
  StandardLLH.initialize vec_g model tau C N_prior neg_llh self0
    = (Ret tt, self1) →
  isinstance model LinearModelClass = true →
  A model = Some a →
  evaluate model f = Ret (g_est, f', f_reg) →
  Forall (λ x, x ≠ 0%R) g_est →
  rect m n a → (0 < m)%nat → (0 < n)%nat →
  length g = m → length g_est = m → length f_reg = n → rect n n C →
  let self := <["g" := VArray1 g]> self1 in
  StandardLLH.evaluate_hesse_matrix f self
  = (Ret (np.tabulate n n
            (λ k l, (tau * np.at2 C k l + poisson_hessian a g g_est k l)
                    * (if neg_llh then 1 else -1))%R), self).
Proof. apply with_g_hessian_value. Qed.

Section DerivativeWitnesses.
Local Open Scope R_scope.

Lemma positive_nonzero (v : vec) :
  Forall (λ x, 0 < x) v → Forall (λ x, x ≠ 0) v.
Proof. intros H. eapply Forall_impl; [exact H|]. intros x Hx. lra. Qed.

Lemma rect_response_4x3 : rect 4 3 response_4x3.
Proof. split; [done|]. by repeat constructor. Qed.

Lemma rect_thikonov_3 : rect 3 3 thikonov_3.
Proof. split; [done|]. by repeat constructor. Qed.

Lemma response_4x3_prediction :
  ∃ g_est : vec,
    evaluate (linear_model response_4x3) [1; 1; 2]
      = Ret (g_est, [1; 1; 2], [1; 1; 2])
    ∧ length g_est = 4%nat
    ∧ Forall (λ x, 0 < x) g_est.
Proof.
  eexists. split; [by cbn|]. split; [done|].
  repeat (apply Forall_cons; split; [lra|]). apply Forall_nil_2.
Qed.

End DerivativeWitnesses.

Lemma evaluate_gradient_value_once_g_is_assigned_witness :
  ∃ (self1 : instance) (g_est : vec),
    StandardLLH.initialize [2; 1; 1; 1]%R (linear_model response_4x3) 1%R
      thikonov_3 false false (new StandardLLH.__init__) = (Ret tt, self1)
    ∧ evaluate (linear_model response_4x3) [1; 1; 2]%R
      = Ret (g_est, [1; 1; 2]%R, [1; 1; 2]%R)
    ∧ let self := <["g" := VArray1 [2; 1; 1; 1]%R]> self1 in
      StandardLLH.evaluate_gradient [1; 1; 2]%R self
      = (Ret ((λ k, poisson_gradient response_4x3 [2; 1; 1; 1] g_est k
                    + regularization_gradient 1 thikonov_3 [1; 1; 2] k
                      * -1)%R <$> seq 0 3), self).
Proof.
  destruct response_4x3_prediction as (g_est & Hev & Hlen & Hpos).
  eexists. exists g_est.
  split; [by rewrite initialize_run|]. split; [exact Hev|].
  apply (evaluate_gradient_value_once_g_is_assigned
           (new StandardLLH.__init__) _ [2; 1; 1; 1]%R [2; 1; 1; 1]%R
           (linear_model response_4x3) response_4x3 1%R thikonov_3
           false false [1; 1; 2]%R g_est [1; 1; 2]%R [1; 1; 2]%R 4 3).
  - by rewrite initialize_run.
  - reflexivity.
  - reflexivity.
  - exact Hev.
  - by apply positive_nonzero.
  - apply rect_response_4x3.
  - lia.
  - lia.
  - reflexivity.
  - exact Hlen.
  - reflexivity.
  - apply rect_thikonov_3.
Defined.

Lemma evaluate_hesse_matrix_value_once_g_is_assigned_witness :
  ∃ (self1 : instance) (g_est : vec),
    StandardLLH.initialize [2; 1; 1; 1]%R (linear_model response_4x3) 1%R
      thikonov_3 false true (new StandardLLH.__init__) = (Ret tt, self1)
    ∧ evaluate (linear_model response_4x3) [1; 1; 2]%R
      = Ret (g_est, [1; 1; 2]%R, [1; 1; 2]%R)
    ∧ let self := <["g" := VArray1 [2; 1; 1; 1]%R]> self1 in
      StandardLLH.evaluate_hesse_matrix [1; 1; 2]%R self
      = (Ret (np.tabulate 3 3
                (λ k l, (1 * np.at2 thikonov_3 k l
                         + poisson_hessian response_4x3 [2; 1; 1; 1] g_est
                             k l) * 1)%R), self).
Proof.
  destruct response_4x3_prediction as (g_est & Hev & Hlen & Hpos).
  eexists. exists g_est.
  split; [by rewrite initialize_run|]. split; [exact Hev|].
  apply (evaluate_hesse_matrix_value_once_g_is_assigned
           (new StandardLLH.__init__) _ [2; 1; 1; 1]%R [2; 1; 1; 1]%R
           (linear_model response_4x3) response_4x3 1%R thikonov_3
           false true [1; 1; 2]%R g_est [1; 1; 2]%R [1; 1; 2]%R 4 3).
  - by rewrite initialize_run.
  - reflexivity.
  - reflexivity.
  - exact Hev.
  - by apply positive_nonzero.
  - apply rect_response_4x3.
  - lia.
  - lia.
  - reflexivity.
  - exact Hlen.
  - reflexivity.
  - apply rect_thikonov_3.
Defined.

(** ** The constructor of the reference objective *)

Section ReferenceInit.

Context (self0 : instance) (g : vec) (model : Model) (tau : R).

Lemma run_reference_init_not_linear :
  isinstance model LinearModelClass = false →
  LLHThikonovForLoops.__init__ g model tau self0
  = (Raise (ValueError "'model' has to be of type LinearModel!"), self0).
Proof.
  intros H. unfold LLHThikonovForLoops.__init__. rewrite H. by py_unfold.
Qed.

Context (a : matrix).
Hypothesis Hlinear : isinstance model LinearModelClass = true.
Hypothesis HA : A model = Some a.

Lemma run_reference_init :
  (LLHThikonovForLoops.__init__ g model tau self0).1
  = C ← create_C_thikonov (np.ncols a); Ret tt.
Proof.
  unfold LLHThikonovForLoops.__init__. rewrite Hlinear.
  py_unfold. cbn [negb]. py_get.
  change (np.shape a).2 with (np.ncols a). rewrite Nat2Z.id.
  by destruct (create_C_thikonov (np.ncols a)).
Qed.

Lemma run_reference_init_Ret (C : matrix) :
  create_C_thikonov (np.ncols a) = Ret C →
  LLHThikonovForLoops.__init__ g model tau self0
  = (Ret tt, after_reference_init self0 g model tau a C).
Proof.
  intros HC. unfold LLHThikonovForLoops.__init__. rewrite Hlinear.
  py_unfold. cbn [negb]. py_get.
  change (np.shape a).2 with (np.ncols a). rewrite Nat2Z.id, HC.
  done.
Qed.

Context (C : matrix).
Let self := after_reference_init self0 g model tau a C.

Lemma reference_linear_model :
  self !! "linear_model" = Some (VObject model).
Proof. subst self. unfold after_reference_init. attr_lookup. Qed.
Lemma reference_g : self !! "g" = Some (VArray1 g).
Proof. subst self. unfold after_reference_init. attr_lookup. Qed.
Lemma reference_C : self !! "C" = Some (VArray2 C).
Proof. subst self. unfold after_reference_init. attr_lookup. Qed.
Lemma reference_tau : self !! "tau" = Some (VFloat tau).
Proof. subst self. unfold after_reference_init. attr_lookup. Qed.

End ReferenceInit.

Lemma create_C_thikonov_below_2 (n : nat) :
  (n < 2)%nat → create_C_thikonov n = Raise IndexError.
Proof. intros H. by destruct n as [|[|n]]; [..|lia]. Qed.

(** X12.  For a model object with a response of at least one row, the
    constructor of the reference objective returns exactly when the model
    is a [LinearModel] and the response has at least two columns: it
    raises [ValueError] for another model and [IndexError], from
    [create_C_thikonov], for a response with a single column. *)
Theorem reference_constructor_outcome
    (g : vec) (model : Model) (a : matrix) (tau : R) :
  A model = Some a →
  (0 < np.nrows a)%nat →
  (LLHThikonovForLoops.__init__ g model tau ∅).1
  = if isinstance model LinearModelClass then
      if (np.ncols a <? 2)%nat then Raise IndexError else Ret tt
    else Raise (ValueError "'model' has to be of type LinearModel!").
Proof.
  intros HA _. destruct (isinstance model LinearModelClass) eqn:Hlin.
  - rewrite (run_reference_init _ _ _ _ a) by done.
    destruct (Nat.ltb_spec (np.ncols a) 2).
    + by rewrite create_C_thikonov_below_2.
    + by rewrite create_C_thikonov_eq.
  - by rewrite run_reference_init_not_linear.
Qed.

Lemma reference_constructor_outcome_witness :
  (LLHThikonovForLoops.__init__ [3; 4]%R (linear_model [[1]; [2]]%R) 1%R
     ∅).1
  = Raise IndexError.
Proof.
  apply (reference_constructor_outcome [3; 4]%R (linear_model [[1]; [2]]%R)
           [[1]; [2]]%R 1%R).
  - reflexivity.
  - cbn. lia.
Defined.

(** ** The reference objective only reads *)

Section ReferenceReadOnly.

Lemma read_only_for_in {S : Type} (l : list nat) (body : nat → S → py S) :
  (∀ i s, read_only (body i s)) → ∀ s, read_only (for_in l body s).
Proof.
  intros H. induction l as [|i l IH]; intros s; cbn [for_in].
  - apply read_only_ret.
  - apply read_only_bind; [apply H|apply IH].
Qed.

Hint Resolve read_only_as_int read_only_as_bool read_only_as_float
  read_only_as_array1 read_only_as_array2 read_only_as_object
  read_only_attr_A : core.

Ltac read_only_loops :=
  repeat first
    [ read_only_step
    | apply read_only_for_in; intros ? ?
    | progress auto ].

Lemma read_only_self_A : read_only LLHThikonovForLoops.self_A.
Proof. unfold LLHThikonovForLoops.self_A. read_only_loops. Qed.

Hint Resolve read_only_self_A : core.

Lemma read_only_self_A_at i j :
  read_only (LLHThikonovForLoops.self_A_at i j).
Proof. unfold LLHThikonovForLoops.self_A_at. read_only_loops. Qed.

Lemma read_only_self_C_at i j :
  read_only (LLHThikonovForLoops.self_C_at i j).
Proof. unfold LLHThikonovForLoops.self_C_at. read_only_loops. Qed.

Lemma read_only_self_g_at i : read_only (LLHThikonovForLoops.self_g_at i).
Proof. unfold LLHThikonovForLoops.self_g_at. read_only_loops. Qed.

Hint Resolve read_only_self_A_at read_only_self_C_at read_only_self_g_at
  : core.

Lemma read_only_forward n f i :
  read_only (LLHThikonovForLoops.forward n f i).
Proof. unfold LLHThikonovForLoops.forward. read_only_loops. Qed.

Hint Resolve read_only_forward : core.

Lemma read_only_reference_evaluate_llh f :
  read_only (LLHThikonovForLoops.evaluate_llh f).
Proof. unfold LLHThikonovForLoops.evaluate_llh. read_only_loops. Qed.

Lemma read_only_reference_evaluate_gradient f :
  read_only (LLHThikonovForLoops.evaluate_gradient f).
Proof. unfold LLHThikonovForLoops.evaluate_gradient. read_only_loops. Qed.

Lemma read_only_reference_evaluate_hesse_matrix f :
  read_only (LLHThikonovForLoops.evaluate_hesse_matrix f).
Proof.
  unfold LLHThikonovForLoops.evaluate_hesse_matrix. read_only_loops.
Qed.

End ReferenceReadOnly.

(** X13.  The three methods of the reference objective leave every
    attribute of the instance as it was, on every instance and for every
    candidate, whether they return or raise ([IndexError] for a candidate
    that is too short, for instance). *)
Theorem reference_evaluations_leave_instance_unchanged
    (self : instance) (f : vec) :
  (LLHThikonovForLoops.evaluate_llh f self).2 = self
  ∧ (LLHThikonovForLoops.evaluate_gradient f self).2 = self
  ∧ (LLHThikonovForLoops.evaluate_hesse_matrix f self).2 = self.
Proof.
  split; [apply read_only_reference_evaluate_llh|].
  split; [apply read_only_reference_evaluate_gradient|].
  apply read_only_reference_evaluate_hesse_matrix.
Qed.

(** ** The reference objective after its constructor *)

Section ReferenceAfterInit.
Local Open Scope R_scope.

Context (g f : vec) (model : Model) (a : matrix) (tau : R) (m n : nat).
Hypothesis Hlinear : isinstance model LinearModelClass = true.
Hypothesis HA : A model = Some a.
Hypothesis Ha : rect m n a.
Hypothesis Hm : (0 < m)%nat.
Hypothesis Hn : (2 ≤ n)%nat.
Hypothesis Hlen_g : length g = m.
Hypothesis Hlen_f : length f = n.

Let C : matrix := np.tabulate n n (gram n (second_derivative n)).
Let self : instance := after_reference_init ∅ g model tau a C.
Let g_est : vec :=
  (λ i, np.rsum n (λ j, np.at2 a i j * np.at1 f j)) <$> seq 0 m.

Lemma ncols_rect : np.ncols a = n.
Proof. by rewrite (rect_tab m n a Ha), ncols_tabulate. Qed.

Lemma reference_setup :
  LLHThikonovForLoops.__init__ g model tau ∅ = (Ret tt, self)
  ∧ create_C_thikonov n = Ret C.
Proof.
  split.
  - apply run_reference_init_Ret; [done..|].
    rewrite ncols_rect. by apply create_C_thikonov_eq.
  - by apply create_C_thikonov_eq.
Qed.

Lemma reference_prediction : np.dot21 a f = Ret g_est.
Proof.
  rewrite dot21_vec by (by rewrite ncols_rect).
  rewrite ncols_rect.
  by replace (np.nrows a) with m by (symmetry; apply Ha).
Qed.

Lemma C_symmetric i j :
  (i < n)%nat → (j < n)%nat → np.at2 C i j = np.at2 C j i.
Proof.
  intros Hi Hj. subst C. rewrite !at2_tabulate by done. apply gram_sym.
Qed.

Lemma reference_value :
  LLHThikonovForLoops.evaluate_llh f self
  = (Ret (regularization_term tau C f - poisson_term g g_est), self).
Proof.
  eapply run_reference_evaluate_llh with (model := model) (m := m);
    [apply reference_linear_model|exact HA|apply reference_g
    |apply reference_C|apply reference_tau|exact Ha|exact Hm
    |apply rect_tabulate|exact Hlen_g|exact Hlen_f].
Qed.

Lemma reference_gradient :
  LLHThikonovForLoops.evaluate_gradient f self
  = (Ret ((λ k, regularization_gradient tau C f k
                - poisson_gradient a g g_est k) <$> seq 0 n), self).
Proof.
  erewrite run_reference_evaluate_gradient with (model := model) (m := m);
    [|apply reference_linear_model|exact HA|apply reference_g
     |apply reference_C|apply reference_tau|exact Ha|exact Hm
     |apply rect_tabulate|exact Hlen_g|exact Hlen_f].
  do 2 f_equal. apply fmap_seq_ext. intros k Hk.
  unfold regularization_gradient. rewrite Hlen_f. do 2 f_equal.
  apply rsum_ext. intros i Hi. by rewrite C_symmetric.
Qed.

Lemma reference_hesse_matrix :
  LLHThikonovForLoops.evaluate_hesse_matrix f self
  = (Ret (np.tabulate n n
            (λ k l, poisson_hessian a g g_est k l + tau * np.at2 C k l)),
     self).
Proof.
  eapply run_reference_evaluate_hesse_matrix
    with (model := model) (m := m);
    [apply reference_linear_model|exact HA|apply reference_g
    |apply reference_C|apply reference_tau|exact Ha|exact Hm
    |apply rect_tabulate|exact Hlen_g|exact Hlen_f].
Qed.

End ReferenceAfterInit.


Lemma dot21_inv (m n : nat) (a : matrix) (f g_est : vec) :
  rect m n a → (0 < m)%nat → np.dot21 a f = Ret g_est →
  length f = n
  ∧ g_est = (λ i, np.rsum n (λ j, np.at2 a i j * np.at1 f j)%R) <$> seq 0 m.
Proof.
  intros Ha Hm H. unfold np.dot21 in H.
  rewrite (ncols_rect a m n Ha Hm) in H.
  destruct (Nat.eqb_spec n (length f)) as [Hn|]; [|done].
  split; [done|]. injection H as <-.
  by replace (np.nrows a) with m by (symmetry; apply Ha).
Qed.

Lemma after_init_reference_llh
    (g f g_est : vec) (model : Model) (a : matrix) (tau : R) (m n : nat) :
  isinstance model LinearModelClass = true →
  A model = Some a →
  rect m n a → (0 < m)%nat → (2 ≤ n)%nat →
  length g = m →
  np.dot21 a f = Ret g_est →
  Forall (λ x, 0 < x)%R g_est →
  ∃ (self : instance) (C : matrix),
    (LLHThikonovForLoops.__init__ g model tau ∅ = (Ret tt, self)
     ∧ create_C_thikonov n = Ret C)
    ∧ LLHThikonovForLoops.evaluate_llh f self
      = (Ret (regularization_term tau C f - poisson_term g g_est)%R, self).
Proof.
  intros Hlin HA Ha Hm Hn Hg Hdot _.
  destruct (dot21_inv m n a f g_est Ha Hm Hdot) as [Hf ->].
  do 2 eexists.
  split; [by apply (reference_setup g model a tau m n)|].
  by apply (reference_value g f model a tau m n).
Qed.

(** X14.  For a linear model whose response [a] has [m >= 1] rows and
    [n >= 2] columns, counts [g] of length [m] and a candidate [f] whose
    prediction [g_est = A·f] is all-positive, the reference objective is
    constructed and its [evaluate_llh] returns
    [0.5·tau·fᵗ·C·f - Σ(g_est - g·log(g_est))] with
    [C = create_C_thikonov(n)]: the regularization term minus the Poisson
    term. *)
Theorem reference_evaluate_llh_value
    (g f g_est : vec) (model : Model) (a : matrix) (tau : R) (m n : nat) :
  isinstance model LinearModelClass = true →
  A model = Some a →
  rect m n a → (0 < m)%nat → (2 ≤ n)%nat →
  length g = m →
  np.dot21 a f = Ret g_est →
  Forall (λ x, 0 < x)%R g_est →
  ∃ (self : instance) (C : matrix),
    (LLHThikonovForLoops.__init__ g model tau ∅ = (Ret tt, self)
     ∧ create_C_thikonov n = Ret C)
    ∧ LLHThikonovForLoops.evaluate_llh f self
      = (Ret (regularization_term tau C f - poisson_term g g_est)%R, self).
Proof. apply after_init_reference_llh. Qed.

Lemma after_init_reference_gradient
    (g f g_est : vec) (model : Model) (a : matrix) (tau : R) (m n : nat) :
  isinstance model LinearModelClass = true →
  A model = Some a →
  rect m n a → (0 < m)%nat → (2 ≤ n)%nat →
  length g = m →
  np.dot21 a f = Ret g_est →
  Forall (λ x, x ≠ 0%R) g_est →
  ∃ (self : instance) (C : matrix),
    (LLHThikonovForLoops.__init__ g model tau ∅ = (Ret tt, self)
     ∧ create_C_thikonov n = Ret C)
    ∧ LLHThikonovForLoops.evaluate_gradient f self
      = (Ret ((λ k, regularization_gradient tau C f k
                    - poisson_gradient a g g_est k)%R <$> seq 0 n), self).
Proof.
  intros Hlin HA Ha Hm Hn Hg Hdot _.
  destruct (dot21_inv m n a f g_est Ha Hm Hdot) as [Hf ->].
  do 2 eexists.
  split; [by apply (reference_setup g model a tau m n)|].
  by apply (reference_gradient g f model a tau m n).
Qed.

(** X15.  For a linear model whose response [a] has [m >= 1] rows and
    [n >= 2] columns, counts [g] of length [m] and a candidate [f] whose
    prediction [g_est = A·f] has no zero entry, [evaluate_gradient] of the
    reference returns the vector with the entries
    [tau·(C·f)[k] - (Σ_i a[i,k] - Σ_i a[i,k]·g[i]/g_est[i])]. *)
Theorem reference_evaluate_gradient_value
    (g f g_est : vec) (model : Model) (a : matrix) (tau : R) (m n : nat) :
  isinstance model LinearModelClass = true →
  A model = Some a →
  rect m n a → (0 < m)%nat → (2 ≤ n)%nat →
  length g = m →
  np.dot21 a f = Ret g_est →
  Forall (λ x, x ≠ 0%R) g_est →
  ∃ (self : instance) (C : matrix),
    (LLHThikonovForLoops.__init__ g model tau ∅ = (Ret tt, self)
     ∧ create_C_thikonov n = Ret C)
    ∧ LLHThikonovForLoops.evaluate_gradient f self
      = (Ret ((λ k, regularization_gradient tau C f k
                    - poisson_gradient a g g_est k)%R <$> seq 0 n), self).
Proof. apply after_init_reference_gradient. Qed.

Lemma after_init_reference_hessian
    (g f g_est : vec) (model : Model) (a : matrix) (tau : R) (m n : nat) :
  isinstance model LinearModelClass = true →
  A model = Some a →
  rect m n a → (0 < m)%nat → (2 ≤ n)%nat →
  length g = m →
  np.dot21 a f = Ret g_est →
  Forall (λ x, x ≠ 0%R) g_est →
  ∃ (self : instance) (C : matrix),
    (LLHThikonovForLoops.__init__ g model tau ∅ = (Ret tt, self)
     ∧ create_C_thikonov n = Ret C)
    ∧ LLHThikonovForLoops.evaluate_hesse_matrix f self
      = (Ret (np.tabulate n n
                (λ k l, poisson_hessian a g g_est k l
                        + tau * np.at2 C k l)%R), self).
Proof.
  intros Hlin HA Ha Hm Hn Hg Hdot _.
  destruct (dot21_inv m n a f g_est Ha Hm Hdot) as [Hf ->].
  do 2 eexists.
  split; [by apply (reference_setup g model a tau m n)|].
  by apply (reference_hesse_matrix g f model a tau m n).
Qed.

(** X16.  For a linear model whose response [a] has [m >= 1] rows and
    [n >= 2] columns, counts [g] of length [m] and a candidate [f] whose
    prediction [g_est = A·f] has no zero entry, [evaluate_hesse_matrix] of
    the reference returns the [n] by [n] array with the entries
    [Σ_i g[i]·a[i,k]·a[i,l]/g_est[i]² + tau·C[k,l]]. *)
Theorem reference_evaluate_hesse_matrix_value
    (g f g_est : vec) (model : Model) (a : matrix) (tau : R) (m n : nat) :
  isinstance model LinearModelClass = true →
  A model = Some a →
  rect m n a → (0 < m)%nat → (2 ≤ n)%nat →
  length g = m →
  np.dot21 a f = Ret g_est →
  Forall (λ x, x ≠ 0%R) g_est →
  ∃ (self : instance) (C : matrix),
    (LLHThikonovForLoops.__init__ g model tau ∅ = (Ret tt, self)
     ∧ create_C_thikonov n = Ret C)
    ∧ LLHThikonovForLoops.evaluate_hesse_matrix f self
      = (Ret (np.tabulate n n
                (λ k l, poisson_hessian a g g_est k l
                        + tau * np.at2 C k l)%R), self).
Proof. apply after_init_reference_hessian. Qed.

Section ReferenceWitnesses.
Local Open Scope R_scope.

Lemma response_4x3_dot :
  ∃ g_est : vec,
    np.dot21 response_4x3 [1; 1; 2] = Ret g_est
    ∧ Forall (λ x, 0 < x) g_est.
Proof.
  eexists. split; [by cbn|].
  repeat (apply Forall_cons; split; [lra|]). apply Forall_nil_2.
Qed.

End ReferenceWitnesses.

Lemma reference_evaluate_llh_value_witness :
  ∃ (g_est : vec) (self : instance) (C : matrix),
    np.dot21 response_4x3 [1; 1; 2]%R = Ret g_est
    ∧ (LLHThikonovForLoops.__init__ [2; 1; 1; 1]%R
         (linear_model response_4x3) 1%R ∅ = (Ret tt, self)
       ∧ create_C_thikonov 3 = Ret C)
    ∧ LLHThikonovForLoops.evaluate_llh [1; 1; 2]%R self
      = (Ret (regularization_term 1 C [1; 1; 2]
              - poisson_term [2; 1; 1; 1] g_est)%R, self).
Proof.
  destruct response_4x3_dot as (g_est & Hdot & Hpos).
  exists g_est.
  destruct (reference_evaluate_llh_value [2; 1; 1; 1]%R [1; 1; 2]%R g_est
              (linear_model response_4x3) response_4x3 1%R 4 3)
    as (self & C & H1 & H2);
    [reflexivity|reflexivity|apply rect_response_4x3|lia|lia|reflexivity
    |exact Hdot|exact Hpos|].
  exists self, C. split; [exact Hdot|]. split; [exact H1|exact H2].
Defined.

Lemma reference_evaluate_gradient_value_witness :
  ∃ (g_est : vec) (self : instance) (C : matrix),
    np.dot21 response_4x3 [1; 1; 2]%R = Ret g_est
    ∧ (LLHThikonovForLoops.__init__ [2; 1; 1; 1]%R
         (linear_model response_4x3) 1%R ∅ = (Ret tt, self)
       ∧ create_C_thikonov 3 = Ret C)
    ∧ LLHThikonovForLoops.evaluate_gradient [1; 1; 2]%R self
      = (Ret ((λ k, regularization_gradient 1 C [1; 1; 2] k
                    - poisson_gradient response_4x3 [2; 1; 1; 1] g_est k)%R
                <$> seq 0 3), self).
Proof.
  destruct response_4x3_dot as (g_est & Hdot & Hpos).
  exists g_est.
  destruct (reference_evaluate_gradient_value [2; 1; 1; 1]%R [1; 1; 2]%R
              g_est (linear_model response_4x3) response_4x3 1%R 4 3)
    as (self & C & H1 & H2);
    [reflexivity|reflexivity|apply rect_response_4x3|lia|lia|reflexivity
    |exact Hdot|by apply positive_nonzero|].
  exists self, C. split; [exact Hdot|]. split; [exact H1|exact H2].
Defined.

Lemma reference_evaluate_hesse_matrix_value_witness :
  ∃ (g_est : vec) (self : instance) (C : matrix),
    np.dot21 response_4x3 [1; 1; 2]%R = Ret g_est
    ∧ (LLHThikonovForLoops.__init__ [2; 1; 1; 1]%R
         (linear_model response_4x3) 1%R ∅ = (Ret tt, self)
       ∧ create_C_thikonov 3 = Ret C)
    ∧ LLHThikonovForLoops.evaluate_hesse_matrix [1; 1; 2]%R self
      = (Ret (np.tabulate 3 3
                (λ k l, poisson_hessian response_4x3 [2; 1; 1; 1] g_est k l
                        + 1 * np.at2 C k l)%R), self).
Proof.
  destruct response_4x3_dot as (g_est & Hdot & Hpos).
  exists g_est.
  destruct (reference_evaluate_hesse_matrix_value [2; 1; 1; 1]%R
              [1; 1; 2]%R g_est (linear_model response_4x3) response_4x3 1%R
              4 3)
    as (self & C & H1 & H2);
    [reflexivity|reflexivity|apply rect_response_4x3|lia|lia|reflexivity
    |exact Hdot|by apply positive_nonzero|].
  exists self, C. split; [exact Hdot|]. split; [exact H1|exact H2].
Defined.

(** ** Where the two objectives agree *)

(** X17.  The Hessians agree.  For a linear model whose response has
    [m >= 1] rows and [n >= 2] columns, the matrix
    [C = create_C_thikonov(n)], [neg_llh] true and a candidate whose
    prediction has no zero entry, [evaluate_hesse_matrix] of the production
    objective, once [g] is assigned, returns the same array as
    [evaluate_hesse_matrix] of the reference built from the same counts,
    model and [tau]. *)
Theorem hessians_agree_once_g_is_assigned
    (vec_g g f g_est : vec) (a : matrix) (tau : R) (N_prior : bool)
    (m n : nat) :
  rect m n a → (0 < m)%nat → (2 ≤ n)%nat →
  length g = m →
  np.dot21 a f = Ret g_est →
  Forall (λ x, x ≠ 0%R) g_est →
  ∃ (C : matrix) (standard reference : instance) (H : matrix),
    (create_C_thikonov n = Ret C
     ∧ StandardLLH.initialize vec_g (linear_model a) tau C N_prior true
         (new StandardLLH.__init__) = (Ret tt, standard)
     ∧ LLHThikonovForLoops.__init__ g (linear_model a) tau ∅
       = (Ret tt, reference))
    ∧ (StandardLLH.evaluate_hesse_matrix f
         (<["g" := VArray1 g]> standard)).1 = Ret H
    ∧ (LLHThikonovForLoops.evaluate_hesse_matrix f reference).1 = Ret H.
Proof.
  intros Ha Hm Hn Hg Hdot Hpos.
  destruct (after_init_reference_hessian g f g_est (linear_model a)
              a tau m n) as (reference & C & [Hinit HC] & Href);
    [done..|].
  destruct (dot21_inv m n a f g_est Ha Hm Hdot) as [Hf Hg_est].
  exists C. eexists. exists reference. eexists.
  split; [split; [exact HC|split; [by rewrite initialize_run|exact Hinit]]|].
  split; [|by rewrite Href].
  erewrite (with_g_hessian_value
              (new StandardLLH.__init__) _ vec_g g (linear_model a) a tau C
              N_prior true f g_est f f m n);
    [|by rewrite initialize_run|done|done
     |cbn [evaluate linear_model]; by rewrite Hdot
     |done|done|done|lia|done
     |rewrite Hg_est; apply length_tab|done|].
  - cbn [fst]. f_equal. apply tabulate_ext. intros k l _ _. lra.
  - rewrite create_C_thikonov_eq in HC by done. injection HC as <-.
    apply rect_tabulate.
Qed.

Lemma hessians_agree_once_g_is_assigned_witness :
  ∃ (g_est : vec) (C : matrix) (standard reference : instance)
    (H : matrix),
    np.dot21 response_4x3 [1; 1; 2]%R = Ret g_est
    ∧ (create_C_thikonov 3 = Ret C
       ∧ StandardLLH.initialize [2; 1; 1; 1]%R (linear_model response_4x3)
           1%R C false true (new StandardLLH.__init__) = (Ret tt, standard)
       ∧ LLHThikonovForLoops.__init__ [2; 1; 1; 1]%R
           (linear_model response_4x3) 1%R ∅ = (Ret tt, reference))
    ∧ (StandardLLH.evaluate_hesse_matrix [1; 1; 2]%R
         (<["g" := VArray1 [2; 1; 1; 1]%R]> standard)).1 = Ret H
    ∧ (LLHThikonovForLoops.evaluate_hesse_matrix [1; 1; 2]%R reference).1
      = Ret H.
Proof.
  destruct response_4x3_dot as (g_est & Hdot & Hpos).
  exists g_est.
  destruct (hessians_agree_once_g_is_assigned [2; 1; 1; 1]%R
              [2; 1; 1; 1]%R [1; 1; 2]%R g_est response_4x3 1%R false 4 3)
    as (C & standard & reference & H & H1 & H2 & H3);
    [apply rect_response_4x3|lia|lia|reflexivity|exact Hdot
    |by apply positive_nonzero|].
  exists C, standard, reference, H.
  split; [exact Hdot|]. split; [exact H1|]. split; [exact H2|exact H3].
Defined.

(** ** Where flipping [neg_llh] does negate *)

(** X18.  Once [g] is assigned, two instances set up alike but for
    [neg_llh] return exactly opposite values and opposite Hessians for a
    candidate with all-positive prediction: the factor multiplies the whole
    value and the whole Hessian (unlike the gradient). *)
Theorem neg_llh_flip_negates_value_and_hessian
    (self0 self_neg self_pos : instance) (vec_g g : vec) (model : Model)
    (a : matrix) (tau : R) (C : matrix) (N_prior : bool)
    (f g_est f' f_reg : vec) (m n : nat) :
  StandardLLH.initialize vec_g model tau C N_prior true self0
    = (Ret tt, self_neg) →
  StandardLLH.initialize vec_g model tau C N_prior false self0
    = (Ret tt, self_pos) →
  isinstance model LinearModelClass = true →
  A model = Some a →
  evaluate model f = Ret (g_est, f', f_reg) →
  Forall (λ x, 0 < x)%R g_est →
  Forall (λ x, 0 <= x)%R f' →
  (N_prior = true → 0 < np.sum f')%R →
  rect m n a → (0 < m)%nat → (0 < n)%nat →
  length g = m → length g_est = m → length f_reg = n → rect n n C →
  ∃ (v : R) (H : matrix),
    ((StandardLLH.evaluate_llh f (<["g" := VArray1 g]> self_neg)).1
       = Ret (np.fin v)
     ∧ (StandardLLH.evaluate_llh f (<["g" := VArray1 g]> self_pos)).1
       = Ret (np.fin (- v)))
    ∧ ((StandardLLH.evaluate_hesse_matrix f
          (<["g" := VArray1 g]> self_neg)).1 = Ret H
       ∧ (StandardLLH.evaluate_hesse_matrix f
            (<["g" := VArray1 g]> self_pos)).1 = Ret (np.scale2 (-1) H)).
Proof.
  intros Hneg Hpos Hlin HA Hev Hg_pos Hf_pos Hsum Ha Hm Hn Hg Hg_est Hf_reg
    HC.
  assert (HCr : np.nrows C = length f_reg ∧ np.ncols C = length f_reg).
  { rewrite (rect_tab n n C HC).
    by rewrite nrows_tabulate, ncols_tabulate, Hf_reg. }
  destruct HCr as [Hrows Hcols].
  do 2 eexists. split; [split|split].
  - by erewrite (with_g_llh_value self0 self_neg)
      by (done || congruence).
  - erewrite (with_g_llh_value self0 self_pos)
      by (done || congruence).
    cbn [fst]. do 2 f_equal. lra.
  - by erewrite (with_g_hessian_value self0
                   self_neg) by (done || by apply positive_nonzero).
  - erewrite (with_g_hessian_value self0 self_pos)
      by (done || by apply positive_nonzero).
    cbn [fst]. f_equal. rewrite scale2_tabulate.
    apply tabulate_ext. intros k l _ _. lra.
Qed.

Lemma neg_llh_flip_negates_value_and_hessian_witness :
  ∃ (self_neg self_pos : instance) (g_est : vec) (v : R) (H : matrix),
    (StandardLLH.initialize [2; 1; 1; 1]%R (linear_model response_4x3) 1%R
       thikonov_3 false true (new StandardLLH.__init__) = (Ret tt, self_neg)
     ∧ StandardLLH.initialize [2; 1; 1; 1]%R (linear_model response_4x3) 1%R
         thikonov_3 false false (new StandardLLH.__init__)
       = (Ret tt, self_pos)
     ∧ evaluate (linear_model response_4x3) [1; 1; 2]%R
       = Ret (g_est, [1; 1; 2]%R, [1; 1; 2]%R))
    ∧ ((StandardLLH.evaluate_llh [1; 1; 2]%R
          (<["g" := VArray1 [2; 1; 1; 1]%R]> self_neg)).1 = Ret (np.fin v)
       ∧ (StandardLLH.evaluate_llh [1; 1; 2]%R
            (<["g" := VArray1 [2; 1; 1; 1]%R]> self_pos)).1
         = Ret (np.fin (- v)))
    ∧ ((StandardLLH.evaluate_hesse_matrix [1; 1; 2]%R
          (<["g" := VArray1 [2; 1; 1; 1]%R]> self_neg)).1 = Ret H
       ∧ (StandardLLH.evaluate_hesse_matrix [1; 1; 2]%R
            (<["g" := VArray1 [2; 1; 1; 1]%R]> self_pos)).1
         = Ret (np.scale2 (-1) H)).
Proof.
  destruct response_4x3_prediction as (g_est & Hev & Hlen & Hpos).
  destruct (neg_llh_flip_negates_value_and_hessian
              (new StandardLLH.__init__)
              (after_initialize (new StandardLLH.__init__) [2; 1; 1; 1]%R
                 (linear_model response_4x3) 1%R thikonov_3 false true)
              (after_initialize (new StandardLLH.__init__) [2; 1; 1; 1]%R
                 (linear_model response_4x3) 1%R thikonov_3 false false)
              [2; 1; 1; 1]%R [2; 1; 1; 1]%R (linear_model response_4x3)
              response_4x3 1%R thikonov_3 false [1; 1; 2]%R g_est
              [1; 1; 2]%R [1; 1; 2]%R 4 3)
    as (v & H & Hv & HH).
  - by rewrite initialize_run.
  - by rewrite initialize_run.
  - reflexivity.
  - reflexivity.
  - exact Hev.
  - exact Hpos.
  - repeat (apply Forall_cons; split; [lra|]). apply Forall_nil_2.
  - discriminate.
  - apply rect_response_4x3.
  - lia.
  - lia.
  - reflexivity.
  - exact Hlen.
  - reflexivity.
  - apply rect_thikonov_3.
  - do 2 eexists. exists g_est, v, H.
    split; [|split; [exact Hv|exact HH]].
    split; [by rewrite initialize_run|].
    split; [by rewrite initialize_run|exact Hev].
Defined.

(** ** The draft builder of [llh.py] *)

Section Draft.

Lemma outcome_bind_Returns {A B : Type} (a : A) (k : A → llh.outcome B) :
  (llh.Returns a ≫= k) = k a.
Proof. reflexivity. Qed.

End Draft.

(** X19.  The builder of the draft module [llh.py] never returns a matrix:
    it raises [IndexError] for sizes 0 and 1, as the builder of
    [likelihood.py] does, and for every larger size it raises [NameError]
    at [C[idx, idx] = -1], because nothing binds [idx]. *)
Theorem draft_create_C_thikonov_never_returns (n_dims : nat) :
  llh.create_C_thikonov n_dims
  = if (n_dims <? 2)%nat then llh.Raises IndexError
    else llh.RaisesNameError "idx".
Proof.
  destruct (Nat.ltb_spec n_dims 2) as [Hn|Hn].
  - by destruct n_dims as [|[|n]]; [..|lia].
  - unfold llh.create_C_thikonov. cbv zeta. rewrite zeros_tabulate.
    rewrite setitem_tabulate by lia.
    cbn [llh.of_res]. rewrite outcome_bind_Returns.
    rewrite setitem_tabulate by lia.
    cbn [llh.of_res]. rewrite outcome_bind_Returns.
    rewrite loop_tabulate; [done|].
    intros i Hi. apply elem_of_seq in Hi. lia.
Qed.
